(** * mlflow.projects: running a project and tracking its run

    A shallow embedding of [mlflow/projects/__init__.py].  Pure helpers
    (string slicing, the three URI regular expressions, [os.path]) are
    total functions on [string]; the functions that talk to the outside
    (file system, git, conda, docker, the tracking client) run in a small
    state-and-exception monad over a record of collaborator answers. *)

From Stdlib Require Import String Ascii List ZArith Lia Bool.
From stdpp Require Import base option gmap strings list.
Import ListNotations.

Local Open Scope string_scope.
Local Open Scope Z_scope.
Local Open Scope list_scope.

(** ** Python strings *)

Module Py.

Definition LF : ascii := "010"%char.

(** [c in s] for a one-character [c]. *)
Fixpoint contains (c : ascii) (s : string) : bool :=
  match s with
  | EmptyString => false
  | String a s' => if Ascii.eqb a c then true else contains c s'
  end.

(** [s.find(c)]: index of the first occurrence, [-1] when there is none. *)
Fixpoint find (c : ascii) (s : string) : Z :=
  match s with
  | EmptyString => -1
  | String a s' =>
      if Ascii.eqb a c then 0
      else let r := find c s' in if r <? 0 then -1 else 1 + r
  end.

Fixpoint drop (n : nat) (s : string) : string :=
  match n, s with
  | O, _ => s
  | S _, EmptyString => EmptyString
  | S n', String _ s' => drop n' s'
  end.

Fixpoint take (n : nat) (s : string) : string :=
  match n, s with
  | O, _ => EmptyString
  | S _, EmptyString => EmptyString
  | S n', String a s' => String a (take n' s')
  end.

(** Slice bounds as Python clamps them: a negative index counts from the
    end, and the result is clipped to [0 .. len s]. *)
Definition clamp (s : string) (i : Z) : nat :=
  let n := Z.of_nat (String.length s) in
  Z.to_nat (if i <? 0 then Z.max 0 (i + n) else Z.min i n).

(** [s[i:]] *)
Definition slice_from (s : string) (i : Z) : string := drop (clamp s i) s.

(** [s[:i]] *)
Definition slice_to (s : string) (i : Z) : string := take (clamp s i) s.

(** Truth value of a string: non-empty. *)
Definition truthy (s : string) : bool :=
  match s with EmptyString => false | _ => true end.

(** Truth value of an optional string ([None] and [''] are false). *)
Definition truthy_opt (o : option string) : bool :=
  match o with Some s => truthy s | None => false end.

Fixpoint strip_prefix (p s : string) : option string :=
  match p, s with
  | EmptyString, _ => Some s
  | String a p', String b s' => if Ascii.eqb a b then strip_prefix p' s' else None
  | String _ _, EmptyString => None
  end.

Fixpoint rev_acc (s acc : string) : string :=
  match s with
  | EmptyString => acc
  | String a s' => rev_acc s' (String a acc)
  end.

Definition rev (s : string) : string := rev_acc s EmptyString.

Definition strip_suffix (p s : string) : option string :=
  match strip_prefix (rev p) (rev s) with
  | Some r => Some (rev r)
  | None => None
  end.

(** [sep.join(l)] *)
Fixpoint join (sep : string) (l : list string) : string :=
  match l with
  | [] => ""
  | [x] => x
  | x :: l' => x +:+ sep +:+ join sep l'
  end.

(** [s.split(c)] for a one-character separator. *)
Fixpoint split_acc (c : ascii) (s cur : string) : list string :=
  match s with
  | EmptyString => [rev cur]
  | String a s' =>
      if Ascii.eqb a c then rev cur :: split_acc c s' EmptyString
      else split_acc c s' (String a cur)
  end.

Definition split (c : ascii) (s : string) : list string := split_acc c s EmptyString.

End Py.

(** ** Exceptions and results *)

(** An exception this module cannot raise itself: it comes out of a
    collaborator (class name and message). *)
Record foreign := Foreign { f_class : string; f_msg : string }.

Inductive exn :=
| ExecutionException (msg : string)
| MlflowException (msg : string)
| AssertionError (msg : string)
| TypeError (msg : string)
| AttributeError (msg : string)
| EnvironmentError (msg : string)
| KeyboardInterrupt
| Collaborator (e : foreign).

Inductive result (A : Type) :=
| Ok (a : A)
| Raise (e : exn).
Arguments Ok {A} a.
Arguments Raise {A} e.

Definition is_Some_b {A} (o : option A) : bool :=
  match o with Some _ => true | None => false end.

Definition is_raise {A} (r : result A) : bool :=
  match r with Raise _ => true | Ok _ => false end.

(** ** The three URI regular expressions, matched as [re.match] does *)

(** [^[^/]*:] -- a colon with no slash before it. *)
Fixpoint _GIT_URI_REGEX (s : string) : bool :=
  match s with
  | EmptyString => false
  | String c s' =>
      if Ascii.eqb c ":" then true
      else if Ascii.eqb c "/" then false
      else _GIT_URI_REGEX s'
  end.

(** [^file://.+] -- the prefix and then one character other than a line feed. *)
Definition _FILE_URI_REGEX (s : string) : bool :=
  match Py.strip_prefix "file://" s with
  | Some (String c _) => negb (Ascii.eqb c Py.LF)
  | _ => false
  end.

(** [.+\.zip$] -- anchored at the start by [re.match]; [.] does not match a
    line feed and [$] also matches just before a final line feed. *)
Definition _ZIP_URI_REGEX (s : string) : bool :=
  let body := match Py.strip_suffix (String Py.LF "") s with
              | Some b => b
              | None => s
              end in
  match Py.strip_suffix ".zip" body with
  | Some x => Py.truthy x && negb (Py.contains Py.LF x)
  | None => false
  end.

Definition _is_file_uri (uri : string) : bool := _FILE_URI_REGEX uri.
Definition _is_local_uri (uri : string) : bool := negb (_GIT_URI_REGEX uri).
Definition _is_zip_uri (uri : string) : bool := _ZIP_URI_REGEX uri.

(** ** [_parse_subdirectory] *)

Definition dot_in_subdirectory : exn :=
  ExecutionException "'.' is not allowed in project subdirectory paths.".

(** The two assignments under [if '#' in uri], before the check. *)
Definition split_at_hash (uri : string) : string * string :=
  if Py.contains "#" uri
  then (Py.slice_to uri (Py.find "#" uri), Py.slice_from uri (Py.find "#" uri + 1))
  else (uri, "").

Definition _parse_subdirectory (uri : string) : result (string * string) :=
  let parsed_uri := fst (split_at_hash uri) in
  let subdirectory := snd (split_at_hash uri) in
  if Py.truthy subdirectory && Py.contains "." subdirectory
  then Raise dot_in_subdirectory
  else Ok (parsed_uri, subdirectory).

(** The kind of a parsed reference, by the tests [_fetch_project] makes on
    its base. *)
Inductive kind := local | git | archive.

Definition reference_kind (parsed_uri : string) : kind :=
  if _is_zip_uri parsed_uri then archive
  else if _is_local_uri parsed_uri then local
  else git.

(** ** [os.path] on a POSIX host *)

Module posixpath.

Definition isabs (s : string) : bool :=
  match s with
  | String c _ => Ascii.eqb c "/"
  | EmptyString => false
  end.

Definition endswith_sep (s : string) : bool :=
  match Py.strip_suffix "/" s with Some _ => true | None => false end.

(** [os.path.join(a, b)] *)
Definition join (a b : string) : string :=
  if isabs b then b
  else if negb (Py.truthy a) || endswith_sep a then a +:+ b
  else a +:+ "/" +:+ b.

Definition is_nil {A} (l : list A) : bool :=
  match l with [] => true | _ => false end.

(** One turn of the loop of [normpath] over the components. *)
Definition norm_step (initial_slashes : nat) (new_comps : list string) (comp : string)
  : list string :=
  if String.eqb comp "" || String.eqb comp "." then new_comps
  else if negb (String.eqb comp "..")
          || (Nat.eqb initial_slashes 0 && is_nil new_comps)
          || (negb (is_nil new_comps) && String.eqb (List.last new_comps "") "..")
  then new_comps ++ [comp]
  else if negb (is_nil new_comps) then List.removelast new_comps
  else new_comps.

Fixpoint repeat_sep (n : nat) : string :=
  match n with O => "" | S n' => "/" +:+ repeat_sep n' end.

(** [os.path.normpath] *)
Definition normpath (path : string) : string :=
  if negb (Py.truthy path) then "."
  else
    let initial_slashes : nat :=
      if isabs path then
        match Py.strip_prefix "//" path, Py.strip_prefix "///" path with
        | Some _, None => 2%nat
        | _, _ => 1%nat
        end
      else 0%nat in
    let comps := List.fold_left (norm_step initial_slashes) (Py.split "/" path) [] in
    let p := repeat_sep initial_slashes +:+ Py.join "/" comps in
    if Py.truthy p then p else ".".

(** [os.path.abspath], with the working directory made explicit. *)
Definition abspath (cwd path : string) : string :=
  normpath (if isabs path then path else join cwd path).

(** [p.rfind('/') + 1], as a count of characters. *)
Fixpoint after_last_sep (s : string) (pos best : nat) : nat :=
  match s with
  | EmptyString => best
  | String c s' =>
      after_last_sep s' (S pos) (if Ascii.eqb c "/" then S pos else best)
  end.

(** [os.path.basename] *)
Definition basename (p : string) : string :=
  Py.drop (after_last_sep p 0 0) p.

End posixpath.

(** ** Data of the collaborators *)

(** The tracking client names a status by a string: [_wait_for] hands
    ["FINISHED"] and ["FAILED"] to [set_terminated], and [run.info.status]
    holds such a name.  A value given to [RunStatus.is_terminated] is
    either a member of the enum or such a name. *)
Inductive status_value :=
| StatusCode (n : Z)
| StatusName (name : string).

(** [mlflow.entities.RunStatus] is not part of this file.  It is the
    enum of the protocol's status codes, and [is_terminated(status)] is
    [status in _TERMINATED_STATUSES], a set of codes: no string is a member
    of it. *)
Module RunStatus_.
Definition RUNNING : Z := 1.
Definition SCHEDULED : Z := 2.
Definition FINISHED : Z := 3.
Definition FAILED : Z := 4.
Definition KILLED : Z := 5.
Definition _TERMINATED_STATUSES : list Z := [FINISHED; FAILED; KILLED].
Definition is_terminated (status : status_value) : bool :=
  match status with
  | StatusCode n => existsb (Z.eqb n) _TERMINATED_STATUSES
  | StatusName _ => false
  end.
End RunStatus_.

(** The tag names imported from [mlflow.utils.mlflow_tags]. *)
Inductive tag_key :=
| MLFLOW_PROJECT_ENV | MLFLOW_DOCKER_IMAGE_NAME | MLFLOW_DOCKER_IMAGE_ID
| MLFLOW_USER | MLFLOW_SOURCE_NAME | MLFLOW_SOURCE_TYPE
| MLFLOW_GIT_COMMIT | MLFLOW_GIT_REPO_URL | MLFLOW_GIT_BRANCH
| LEGACY_MLFLOW_GIT_REPO_URL | LEGACY_MLFLOW_GIT_BRANCH_NAME
| MLFLOW_PROJECT_ENTRY_POINT | MLFLOW_PARENT_RUN_ID.

(** A Python dict with string keys, in insertion order. *)
Definition dict := list (string * string).

Fixpoint dict_get (k : string) (d : dict) : option string :=
  match d with
  | [] => None
  | (k', v) :: d' => if String.eqb k' k then Some v else dict_get k d'
  end.

(** [d[k] = v]: an existing key keeps its place. *)
Fixpoint dict_set (k v : string) (d : dict) : dict :=
  match d with
  | [] => [(k, v)]
  | (k', v') :: d' =>
      if String.eqb k' k then (k, v) :: d' else (k', v') :: dict_set k v d'
  end.

(** What [tracking.MlflowClient().get_run] hands back, as far as this
    module reads it: [run.info]. *)
Record RunInfo := {
  run_id : string;
  experiment_id : string;
  status : string
}.

(** What the tracking service keeps for one run id. *)
Record RunRecord := {
  rec_experiment_id : string;
  rec_status : string
}.

(** An entry point of the project manifest ([_project_spec], opaque here). *)
Record EntryPoint := {
  _validate_parameters : dict -> option foreign;
  compute_parameters : dict -> option string -> foreign + (dict * dict);
  compute_command : dict -> string -> foreign + string
}.

Record Project := {
  name : option string;
  docker_env : option dict;
  conda_env_path : option string;
  get_entry_point : string -> foreign + EntryPoint
}.

(** Truth value of [project.docker_env]: neither [None] nor an empty dict. *)
Definition docker_env_truthy (p : Project) : bool :=
  match docker_env p with
  | Some (_ :: _) => true
  | _ => false
  end.

(** The argument of [_unzip_repo]: a local path, or the bytes fetched
    over HTTP. *)
Inductive zip_source :=
| ZipPath (path : string)
| ZipBytes (content : string).

Inductive popen_args :=
| ArgList (argv : list string)
| ArgString (command : string).

(** ** Calls made to the outside, in the order they are made *)

Inductive event :=
| EvMkdtemp (dir : option string) (path : string)
| EvMkstemp (path : string)
| EvMakedirs (path : string)
| EvHttpGet (uri : string)
| EvUnzip (zip_file : zip_source) (dst_dir : string)
| EvCopyTree (src dst : string)
| EvWriteFile (path contents : string)
| EvMakeTarfile (output_filename source_dir archive_name : string)
| EvRmtree (path : string)
| EvRemove (path : string)
| EvGitInit (dst_dir : string)
| EvGitCreateRemote (remote uri : string)
| EvGitFetch (remote : string)
| EvGitCheckout (version : string)
| EvGitCreateHead (head ref : string)
| EvGitCheckoutHead (head : string)
| EvLoadProject (work_dir : string)
| EvGetRun (id : string)
| EvCreateRun (exp_id : string) (tags : list (tag_key * string))
| EvLogParam (id key value : string)
| EvSetTag (id : string) (key : tag_key) (value : string)
| EvSetTerminated (id : string) (st : string)
| EvExecCmd (cmd : list string)
| EvDockerBuild (tag dockerfile build_ctx_path : string)
| EvPopen (args : popen_args) (cwd : option string) (env : dict) (own_group : bool)
| EvWait (pid : nat)
| EvCancel (pid : nat)
| EvRunDatabricks (id uri entry_point work_dir : string).

Definition is_create_run (ev : event) : bool :=
  match ev with EvCreateRun _ _ => true | _ => false end.

Definition is_set_terminated (ev : event) : bool :=
  match ev with EvSetTerminated _ _ => true | _ => false end.

Definition is_mkdtemp (ev : event) : bool :=
  match ev with EvMkdtemp _ _ => true | _ => false end.

(** Commands that create a conda environment: [conda env create ...] and
    [conda create ...]. *)
Definition is_env_creation (ev : event) : bool :=
  match ev with
  | EvExecCmd (_ :: "env" :: "create" :: _) => true
  | EvExecCmd (_ :: "create" :: _) => true
  | _ => false
  end.

(** ** State: the trace of calls and the tracking service *)

Record state := {
  events : list event;
  runs : gmap string RunRecord
}.

Definition log (ev : event) (s : state) : state :=
  {| events := events s ++ [ev]; runs := runs s |}.

Definition set_runs (r : gmap string RunRecord) (s : state) : state :=
  {| events := events s; runs := r |}.

(** How a blocking [wait()] on a submitted run ends.  The interrupt of
    [_wait_for] is the one that arrives while [wait()] blocks: no other
    call of the model raises [KeyboardInterrupt]. *)
Inductive wait_outcome :=
| WaitReturns (success : bool)
| WaitInterrupted
| WaitRaises (e : foreign).

(** The uniform handle [SubmittedRun]: an id, [wait()] and [cancel()].
    The launched process runs user code, which may write to the tracking
    service on its own: both operations transform the service's records. *)
Record SubmittedRun := {
  sr_run_id : option string;
  sr_pid : nat;
  sr_wait : gmap string RunRecord -> wait_outcome * gmap string RunRecord;
  sr_cancel : gmap string RunRecord -> gmap string RunRecord
}.

Inductive exec_outcome :=
| ExecEnvironmentError (msg : string)
| ExecExit (exit_code : Z) (stdout stderr : string).

Inductive http_response :=
| HttpOk (content : string)
| HttpError (reason : string)
| HttpFails (e : foreign).

Record DatabricksConfig := {
  host : string;
  username : option string;
  password : option string;
  token : option string;
  ignore_tls_verification : option string
}.

(** The answers of everything outside this module during one invocation. *)
Record world := {
  (* operating system *)
  w_os_name : string;
  w_sys_platform : string;
  w_getcwd : string;
  w_environ : string -> option string;
  w_exists : string -> bool;
  w_read_file : string -> foreign + string;
  w_mkdtemp : option string -> nat -> string;
  w_mkstemp : nat -> string;
  w_fault : event -> option foreign;
  w_exec_cmd : list string -> exec_outcome;
  w_popen : nat -> nat;
  (* libraries *)
  w_sha1_hexdigest : string -> string;
  w_json_envs : string -> foreign + list string;
  w_urlparse_unquote : string -> string * string;
  w_http_get : string -> http_response;
  (* git *)
  w_git_checkout : string -> string -> option string;
  w_remote_refs : string -> list string;
  w_remote_default_branch : string -> string;
  w_git_repo_url : string -> option string;
  w_git_url_if_present : string -> string;
  w_git_commit : string -> option string;
  w_is_branch : string -> string -> foreign + bool;
  (* manifest, tracking, docker, remote backend *)
  w_load_project : string -> foreign + Project;
  w_new_run_id : nat -> string;
  w_active_run : option string;
  w_user : string;
  w_source_type_project : string;
  w_tracking_uri : string;
  w_tracking_is_local_uri : string -> bool;
  w_tracking_is_databricks_uri : string -> bool;
  w_local_file_uri_to_path : string -> string;
  w_db_profile_from_uri : string -> string;
  w_databricks_host_creds : string -> DatabricksConfig;
  w_RUN_ID_ENV_VAR : string;
  w_TRACKING_URI_ENV_VAR : string;
  w_EXPERIMENT_ID_ENV_VAR : string;
  w_docker_build : string -> string -> foreign + string;
  w_process_wait : nat -> gmap string RunRecord -> wait_outcome * gmap string RunRecord;
  w_process_cancel : nat -> gmap string RunRecord -> gmap string RunRecord;
  w_run_databricks : string -> foreign + SubmittedRun
}.

(** ** The monad *)

Definition M (A : Type) : Type := state -> result A * state.

Definition ret {A} (a : A) : M A := fun s => (Ok a, s).

Definition raise {A} (e : exn) : M A := fun s => (Raise e, s).

Definition bind {A B} (m : M A) (k : A -> M B) : M B :=
  fun s =>
    match m s with
    | (Ok a, s') => k a s'
    | (Raise e, s') => (Raise e, s')
    end.

Declare Scope py_scope.
Delimit Scope py_scope with py.
Notation "x <- m ;; k" := (bind m (fun x => k))
  (at level 100, m at next level, right associativity) : py_scope.
Notation "m ;; k" := (bind m (fun _ => k))
  (at level 100, right associativity) : py_scope.
Local Open Scope py_scope.

Definition lift {A} (r : result A) : M A := fun s => (r, s).

Definition lift_foreign {A} (r : foreign + A) : M A :=
  match r with
  | inl e => raise (Collaborator e)
  | inr a => ret a
  end.

Definition get_events : M (list event) := fun s => (Ok (events s), s).

Definition get_runs : M (gmap string RunRecord) := fun s => (Ok (runs s), s).

Definition put_runs (r : gmap string RunRecord) : M unit :=
  fun s => (Ok tt, set_runs r s).

Definition emit (ev : event) : M unit := fun s => (Ok tt, log ev s).

(** [try: body / finally: cleanup] *)
Definition try_finally {A} (body : M A) (cleanup : M unit) : M A :=
  fun s =>
    match body s with
    | (r, s') =>
        match cleanup s' with
        | (Ok _, s'') => (r, s'')
        | (Raise e, s'') => (Raise e, s'')
        end
    end.

(** [try: body / except KeyboardInterrupt: handler; raise] *)
Definition except_KeyboardInterrupt {A} (body : M A) (handler : M unit) : M A :=
  fun s =>
    match body s with
    | (Raise KeyboardInterrupt, s') =>
        match handler s' with
        | (Ok _, s'') => (Raise KeyboardInterrupt, s'')
        | (Raise e, s'') => (Raise e, s'')
        end
    | other => other
    end.

(** [try: body / except EnvironmentError: raise e] *)
Definition except_EnvironmentError {A} (body : M A) (e : exn) : M A :=
  fun s =>
    match body s with
    | (Raise (EnvironmentError _), s') => (Raise e, s')
    | other => other
    end.

(** [for x in l: body x] *)
Fixpoint for_each {A} (l : list A) (body : A -> M unit) : M unit :=
  match l with
  | [] => ret tt
  | x :: l' => body x ;; for_each l' body
  end.

(** ** The module's functions *)

Section Projects.

Variable W : world.

(** A call that returns nothing of interest: it is recorded, and it
    raises when the world says that this call fails. *)
Definition call (ev : event) : M unit :=
  emit ev ;;
  match w_fault W ev with
  | Some e => raise (Collaborator e)
  | None => ret tt
  end.

(** [tempfile.mkdtemp(dir=dir)] *)
Definition mkdtemp (dir : option string) : M string :=
  evs <- get_events ;;
  let path := w_mkdtemp W dir (List.length evs) in
  call (EvMkdtemp dir path) ;;
  ret path.

(** *** The tracking client *)

Definition run_not_found (id : string) : exn :=
  Collaborator (Foreign "MlflowException" ("Run '" +:+ id +:+ "' not found")).

Definition MlflowClient_get_run (id : string) : M RunInfo :=
  call (EvGetRun id) ;;
  rs <- get_runs ;;
  match rs !! id with
  | Some r => ret {| run_id := id;
                     experiment_id := rec_experiment_id r;
                     status := rec_status r |}
  | None => raise (run_not_found id)
  end.

Definition MlflowClient_create_run (exp_id : string) (tags : list (tag_key * string))
  : M RunInfo :=
  evs <- get_events ;;
  let id := w_new_run_id W (List.length evs) in
  call (EvCreateRun exp_id tags) ;;
  rs <- get_runs ;;
  put_runs (<[id := {| rec_experiment_id := exp_id; rec_status := "RUNNING" |}]> rs) ;;
  ret {| run_id := id; experiment_id := exp_id; status := "RUNNING" |}.

Definition MlflowClient_log_param (id key value : string) : M unit :=
  call (EvLogParam id key value).

Definition MlflowClient_set_tag (id : string) (key : tag_key) (value : string) : M unit :=
  call (EvSetTag id key value).

Definition MlflowClient_set_terminated (id : string) (st : string) : M unit :=
  call (EvSetTerminated id st) ;;
  rs <- get_runs ;;
  match rs !! id with
  | Some r =>
      put_runs (<[id := {| rec_experiment_id := rec_experiment_id r;
                           rec_status := st |}]> rs)
  | None => raise (run_not_found id)
  end.

(** *** Fetching the project *)

Definition _expand_uri (uri : string) : string :=
  if _is_local_uri uri then posixpath.abspath (w_getcwd W) uri else uri.

Definition _unzip_repo (zip_file : zip_source) (dst_dir : string) : M unit :=
  call (EvUnzip zip_file dst_dir).

Definition _fetch_zip_repo (uri : string) : M zip_source :=
  emit (EvHttpGet uri) ;;
  match w_http_get W uri with
  | HttpFails e => raise (Collaborator e)
  | HttpError reason =>
      raise (ExecutionException ("Unable to retrieve ZIP file. Reason: " +:+ reason))
  | HttpOk content => ret (ZipBytes content)
  end.

Definition checkout_failed (version uri diag : string) : exn :=
  ExecutionException
    ("Unable to checkout version '" +:+ version +:+ "' of git repo " +:+ uri
     +:+ "- please ensure that the version exists in the repo. Error: " +:+ diag).

Definition _fetch_git_repo (uri : string) (version : option string) (dst_dir : string)
  : M unit :=
  call (EvGitInit dst_dir) ;;
  call (EvGitCreateRemote "origin" uri) ;;
  call (EvGitFetch "origin") ;;
  match version with
  | Some v =>
      call (EvGitCheckout v) ;;
      match w_git_checkout W uri v with
      | Some diag => raise (checkout_failed v uri diag)
      | None => ret tt
      end
  | None =>
      if existsb (String.eqb "master") (w_remote_refs W uri) then
        call (EvGitCreateHead "master" "origin/master") ;;
        call (EvGitCheckoutHead "master")
      else
        raise (AttributeError "'IterableList' object has no attribute 'origin/master'")
  end.

Definition version_on_local : exn :=
  ExecutionException "Setting a version is only supported for Git project URIs".

Definition subdirectory_missing (subdirectory dst_dir : string) : exn :=
  ExecutionException
    ("Could not find subdirectory " +:+ subdirectory +:+ " of " +:+ dst_dir).

Definition _fetch_project (uri : string) (force_tempdir : bool) (version : option string)
  : M string :=
  parsed <- lift (_parse_subdirectory uri) ;;
  let parsed_uri := fst parsed in
  let subdirectory := snd parsed in
  let use_temp_dst_dir :=
    force_tempdir || _is_zip_uri parsed_uri || negb (_is_local_uri parsed_uri) in
  dst_dir <- (if use_temp_dst_dir then mkdtemp None else ret parsed_uri) ;;
  (if _is_zip_uri parsed_uri then
     let parsed_uri' :=
       if _is_file_uri parsed_uri then
         let parsed_file_uri := w_urlparse_unquote W parsed_uri in
         posixpath.join (fst parsed_file_uri) (snd parsed_file_uri)
       else parsed_uri in
     zip_file <- (if _is_local_uri parsed_uri' then ret (ZipPath parsed_uri')
                  else _fetch_zip_repo parsed_uri') ;;
     _unzip_repo zip_file dst_dir
   else if _is_local_uri uri then
     match version with
     | Some _ => raise version_on_local
     | None =>
         if use_temp_dst_dir then call (EvCopyTree parsed_uri dst_dir) else ret tt
     end
   else
     if _GIT_URI_REGEX parsed_uri then _fetch_git_repo parsed_uri version dst_dir
     else raise (AssertionError
                   ("Non-local URI " +:+ parsed_uri +:+ " should be a Git URI"))) ;;
  let res := posixpath.abspath (w_getcwd W) (posixpath.join dst_dir subdirectory) in
  if w_exists W res then ret res
  else raise (subdirectory_missing subdirectory dst_dir).

(** *** The conda environment *)

Definition MLFLOW_CONDA_HOME : string := "MLFLOW_CONDA_HOME".

(** [open(conda_env_path).read() if conda_env_path else ""] *)
Definition conda_env_contents (conda_env_path : option string) : foreign + string :=
  match conda_env_path with
  | Some (String c p) => w_read_file W (String c p)
  | _ => inr ""
  end.

Definition _get_conda_env_name (conda_env_path env_id : option string) : result string :=
  match conda_env_contents conda_env_path with
  | inl e => Raise (Collaborator e)
  | inr conda_env_contents =>
      let conda_env_contents :=
        match env_id with
        | Some (String c i) => conda_env_contents +:+ String c i
        | _ => conda_env_contents
        end in
      Ok ("mlflow-" +:+ w_sha1_hexdigest W conda_env_contents)
  end.

Definition _get_conda_bin_executable (executable_name : string) : string :=
  match w_environ W MLFLOW_CONDA_HOME with
  | Some conda_home =>
      if Py.truthy conda_home
      then posixpath.join conda_home ("bin/" +:+ executable_name)
      else executable_name
  | None => executable_name
  end.

(** [process.exec_cmd(cmd, throw_on_error=...)]: the exit code and the
    two output streams; [EnvironmentError] when the command cannot be
    started. *)
Definition exec_cmd (cmd : list string) (throw_on_error : bool)
  : M (Z * string * string) :=
  emit (EvExecCmd cmd) ;;
  match w_exec_cmd W cmd with
  | ExecEnvironmentError msg => raise (EnvironmentError msg)
  | ExecExit code out err =>
      if throw_on_error && negb (code =? 0)
      then raise (Collaborator
                    (Foreign "ShellCommandException"
                             ("Non-zero exit code: " +:+ Py.join " " cmd)))
      else ret (code, out, err)
  end.

Definition conda_not_found (conda_path : string) : exn :=
  ExecutionException
    ("Could not find Conda executable at " +:+ conda_path +:+ ". "
     +:+ "Ensure Conda is installed as per the instructions "
     +:+ "at https://conda.io/docs/user-guide/install/index.html. You can "
     +:+ "also configure MLflow to look for a specific Conda executable "
     +:+ "by setting the " +:+ MLFLOW_CONDA_HOME
     +:+ " environment variable to the path of the Conda "
     +:+ "executable").

Definition _get_or_create_conda_env (conda_env_path env_id : option string) : M string :=
  let conda_path := _get_conda_bin_executable "conda" in
  except_EnvironmentError (exec_cmd [conda_path; "--help"] false)
                          (conda_not_found conda_path) ;;
  listing <- exec_cmd [conda_path; "env"; "list"; "--json"] true ;;
  let stdout := snd (fst listing) in
  envs <- lift_foreign (w_json_envs W stdout) ;;
  let env_names := List.map posixpath.basename envs in
  project_env_name <- lift (_get_conda_env_name conda_env_path env_id) ;;
  (if negb (existsb (String.eqb project_env_name) env_names) then
     match conda_env_path with
     | Some (String c p) =>
         exec_cmd [conda_path; "env"; "create"; "-n"; project_env_name;
                   "--file"; String c p] true ;;
         ret tt
     | _ =>
         exec_cmd [conda_path; "create"; "-n"; project_env_name; "python"] true ;;
         ret tt
     end
   else ret tt) ;;
  ret project_env_name.

Definition _get_conda_command (conda_env_name : string) : list string :=
  let activate_path := _get_conda_bin_executable "activate" in
  if negb (String.eqb (w_os_name W) "nt")
  then ["source " +:+ activate_path +:+ " " +:+ conda_env_name]
  else ["conda " +:+ activate_path +:+ " " +:+ conda_env_name].

(** *** Reporting the end of a run *)

Definition _maybe_set_run_terminated (active_run : option RunInfo) (st : string)
  : M unit :=
  match active_run with
  | None => ret tt
  | Some r =>
      let id := run_id r in
      cur <- MlflowClient_get_run id ;;
      let cur_status := status cur in
      if RunStatus_.is_terminated (StatusName cur_status) then ret tt
      else MlflowClient_set_terminated id st
  end.

Definition run_failed (id : option string) : exn :=
  ExecutionException ("Run (ID '" +:+ default "None" id +:+ "') failed").

Definition SubmittedRun_wait (r : SubmittedRun) : M bool :=
  emit (EvWait (sr_pid r)) ;;
  rs <- get_runs ;;
  let answer := sr_wait r rs in
  put_runs (snd answer) ;;
  match fst answer with
  | WaitReturns ok => ret ok
  | WaitInterrupted => raise KeyboardInterrupt
  | WaitRaises e => raise (Collaborator e)
  end.

Definition SubmittedRun_cancel (r : SubmittedRun) : M unit :=
  emit (EvCancel (sr_pid r)) ;;
  rs <- get_runs ;;
  put_runs (sr_cancel r rs).

Definition _wait_for (submitted_run_obj : SubmittedRun) : M unit :=
  let id := sr_run_id submitted_run_obj in
  let interrupted (active_run : option RunInfo) : M unit :=
    SubmittedRun_cancel submitted_run_obj ;;
    _maybe_set_run_terminated active_run "FAILED" in
  (* [active_run] is still [None] in the handler when the interrupt comes
     before the assignment, and the fetched run after it *)
  active_run <-
    except_KeyboardInterrupt
      (match id with
       | Some i => r <- MlflowClient_get_run i ;; ret (Some r)
       | None => ret None
       end)
      (interrupted None) ;;
  except_KeyboardInterrupt
    (ok <- SubmittedRun_wait submitted_run_obj ;;
     if ok : bool then _maybe_set_run_terminated active_run "FINISHED"
     else (_maybe_set_run_terminated active_run "FAILED" ;;
           raise (run_failed id)))
    (interrupted active_run).

(** *** Creating the run record *)

Definition _get_git_commit (work_dir : string) : option string := w_git_commit W work_dir.

Definition _create_run (uri exp_id work_dir entry_point : string) : M RunInfo :=
  let source_name :=
    if _is_local_uri uri then w_git_url_if_present W (_expand_uri uri)
    else _expand_uri uri in
  let source_version := _get_git_commit work_dir in
  let parent_run_id := w_active_run W in
  let tags : list (tag_key * string) :=
    ([(MLFLOW_USER, w_user W);
      (MLFLOW_SOURCE_NAME, source_name);
      (MLFLOW_SOURCE_TYPE, w_source_type_project W);
      (MLFLOW_PROJECT_ENTRY_POINT, entry_point)]
     ++ match source_version with Some v => [(MLFLOW_GIT_COMMIT, v)] | None => [] end
     ++ match parent_run_id with Some v => [(MLFLOW_PARENT_RUN_ID, v)] | None => [] end
    )%list in
  MlflowClient_create_run exp_id tags.

Definition _get_run_env_vars (id exp_id : string) : dict :=
  dict_set (w_EXPERIMENT_ID_ENV_VAR W) exp_id
    (dict_set (w_TRACKING_URI_ENV_VAR W) (w_tracking_uri W)
       (dict_set (w_RUN_ID_ENV_VAR W) id [])).

(** *** Docker *)

Definition _GENERATED_DOCKERFILE_NAME : string := "Dockerfile.mlflow-autogenerated".
Definition _PROJECT_TAR_ARCHIVE_NAME : string := "mlflow-project-docker-build-context".
Definition _MLFLOW_DOCKER_TRACKING_DIR_PATH : string := "/mlflow/tmp/mlruns".

Definition docker_on_databricks : exn :=
  ExecutionException "Running docker-based projects on Databricks is not yet supported.".

Definition backend_is (backend : option string) (b : string) : bool :=
  match backend with Some x => String.eqb x b | None => false end.

Definition _validate_execution_environment (project : Project) (backend : option string)
  : result unit :=
  if docker_env_truthy project && backend_is backend "databricks"
  then Raise docker_on_databricks
  else Ok tt.

Definition set_if (k : string) (v : option string) (d : dict) : dict :=
  match v with
  | Some x => if Py.truthy x then dict_set k x d else d
  | None => d
  end.

Definition _get_docker_command (image : string) (active_run : RunInfo) : list string :=
  let cmd := ["docker"; "run"; "--rm"] in
  let env_vars := _get_run_env_vars (run_id active_run) (experiment_id active_run) in
  let tracking_uri := w_tracking_uri W in
  let '(cmd, env_vars) :=
    if w_tracking_is_local_uri W tracking_uri then
      let path := w_local_file_uri_to_path W tracking_uri in
      ((cmd ++ ["-v"; path +:+ ":" +:+ _MLFLOW_DOCKER_TRACKING_DIR_PATH])%list,
       dict_set (w_TRACKING_URI_ENV_VAR W) _MLFLOW_DOCKER_TRACKING_DIR_PATH env_vars)
    else (cmd, env_vars) in
  let env_vars :=
    if w_tracking_is_databricks_uri W tracking_uri then
      let db_profile := w_db_profile_from_uri W tracking_uri in
      let config := w_databricks_host_creds W db_profile in
      set_if "DATABRICKS_INSECURE" (ignore_tls_verification config)
        (set_if "DATABRICKS_TOKEN" (token config)
           (set_if "DATABRICKS_PASSWORD" (password config)
              (set_if "DATABRICKS_USERNAME" (username config)
                 (dict_set "DATABRICKS_HOST" (host config)
                    (dict_set (w_TRACKING_URI_ENV_VAR W) "databricks" env_vars)))))
    else env_vars in
  (cmd ++ flat_map (fun kv => ["-e"; fst kv +:+ "=" +:+ snd kv]) env_vars ++ [image])%list.

Definition docker_not_found : exn :=
  ExecutionException
    ("Could not find Docker executable. "
     +:+ "Ensure Docker is installed as per the instructions "
     +:+ "at https://docs.docker.com/install/overview/.").

Definition _validate_docker_installation : M unit :=
  except_EnvironmentError (exec_cmd ["docker"; "--help"] false) docker_not_found ;;
  ret tt.

Definition docker_image_missing : exn :=
  ExecutionException
    ("Project with docker environment must specify the docker image "
     +:+ "to use via an 'image' field under the 'docker_env' field").

Definition _validate_docker_env (docker_env : dict) : M unit :=
  if Py.truthy_opt (dict_get "image" docker_env) then ret tt
  else raise docker_image_missing.

Definition _create_docker_build_ctx (work_dir dockerfile_contents : string) : M string :=
  directory <- mkdtemp None ;;
  try_finally
    (let dst_path := posixpath.join directory "mlflow-project-contents" in
     call (EvCopyTree work_dir dst_path) ;;
     call (EvWriteFile (posixpath.join dst_path _GENERATED_DOCKERFILE_NAME)
                       dockerfile_contents) ;;
     evs <- get_events ;;
     let result_path := w_mkstemp W (List.length evs) in
     call (EvMkstemp result_path) ;;
     call (EvMakeTarfile result_path dst_path _PROJECT_TAR_ARCHIVE_NAME) ;;
     ret result_path)
    (call (EvRmtree directory)).

Definition docker_name_missing : exn :=
  ExecutionException
    ("Project name in MLproject must be specified when using docker "
     +:+ "for image tagging.").

Definition NL : string := String Py.LF "".

Definition _build_docker_image (work_dir : string) (project : Project)
    (active_run : RunInfo) : M string :=
  match name project with
  | Some (String c n) =>
      let project_name := String c n in
      match _get_git_commit work_dir with
      | None => raise (TypeError "'NoneType' object is not subscriptable")
      | Some commit =>
          let tag_name :=
            "mlflow-" +:+ project_name +:+ "-" +:+ Py.slice_to commit 7 in
          let dockerfile :=
            "FROM " +:+ default "None" (dict_get "image" (default [] (docker_env project)))
            +:+ NL
            +:+ "LABEL Name=" +:+ tag_name +:+ NL
            +:+ "COPY " +:+ _PROJECT_TAR_ARCHIVE_NAME +:+ "/* /mlflow/projects/code/" +:+ NL
            +:+ "WORKDIR /mlflow/projects/code/" +:+ NL in
          build_ctx_path <- _create_docker_build_ctx work_dir dockerfile ;;
          let dockerfile_path :=
            posixpath.join _PROJECT_TAR_ARCHIVE_NAME _GENERATED_DOCKERFILE_NAME in
          emit (EvDockerBuild tag_name dockerfile_path build_ctx_path) ;;
          image_id <- lift_foreign (w_docker_build W tag_name build_ctx_path) ;;
          (* a failing [os.remove] is only logged *)
          emit (EvRemove build_ctx_path) ;;
          MlflowClient_set_tag (run_id active_run) MLFLOW_DOCKER_IMAGE_NAME tag_name ;;
          MlflowClient_set_tag (run_id active_run) MLFLOW_DOCKER_IMAGE_ID image_id ;;
          ret tag_name
      end
  | _ => raise docker_name_missing
  end.

(** *** The entry point command and its launch *)

Definition _get_storage_dir (storage_dir : option string) : M string :=
  match storage_dir with
  | Some d => if negb (w_exists W d) then call (EvMakedirs d) else ret tt
  | None => ret tt
  end ;;
  mkdtemp storage_dir.

Definition _get_entry_point_command (project : Project) (entry_point : string)
    (parameters : dict) (storage_dir : option string) : M (list string) :=
  storage_dir_for_run <- _get_storage_dir storage_dir ;;
  ep <- lift_foreign (get_entry_point project entry_point) ;;
  command <- lift_foreign (compute_command ep parameters storage_dir_for_run) ;;
  ret [command].

Definition LocalSubmittedRun (id : string) (pid : nat) : SubmittedRun :=
  {| sr_run_id := Some id;
     sr_pid := pid;
     sr_wait := w_process_wait W pid;
     sr_cancel := w_process_cancel W pid |}.

Definition Popen (args : popen_args) (cwd : option string) (env : dict)
    (own_group : bool) : M nat :=
  evs <- get_events ;;
  call (EvPopen args cwd env own_group) ;;
  ret (w_popen W (List.length evs)).

Definition _run_entry_point (command work_dir exp_id id : string) : M SubmittedRun :=
  let env := _get_run_env_vars id exp_id in
  process <-
    (if negb (String.eqb (w_os_name W) "nt")
     then Popen (ArgList ["bash"; "-c"; command]) (Some work_dir) env false
     else Popen (ArgString command) (Some work_dir) env false) ;;
  ret (LocalSubmittedRun id process).

Definition _build_mlflow_run_cmd (uri entry_point : string) (storage_dir : option string)
    (use_conda : bool) (id : string) (parameters : dict) : list string :=
  (["mlflow"; "run"; uri; "-e"; entry_point; "--run-id"; id]
   ++ match storage_dir with Some d => ["--storage-dir"; d] | None => [] end
   ++ (if negb use_conda then ["--no-conda"] else [])
   ++ flat_map (fun kv => ["-P"; fst kv +:+ "=" +:+ snd kv]) parameters)%list.

Definition _run_mlflow_run_cmd (mlflow_run_arr : list string) (env_map : dict) : M nat :=
  Popen (ArgList mlflow_run_arr) None env_map true.

Definition _invoke_mlflow_run_subprocess (work_dir entry_point : string)
    (parameters : dict) (exp_id : string) (use_conda : bool)
    (storage_dir : option string) (id : string) : M SubmittedRun :=
  let mlflow_run_arr :=
    _build_mlflow_run_cmd work_dir entry_point storage_dir use_conda id parameters in
  mlflow_run_subprocess <-
    _run_mlflow_run_cmd mlflow_run_arr (_get_run_env_vars id exp_id) ;;
  ret (LocalSubmittedRun id mlflow_run_subprocess).

(** *** [_run] *)

Definition _get_git_repo_url (work_dir : string) : option string :=
  w_git_repo_url W work_dir.

Definition _is_valid_branch_name (work_dir : string) (version : option string) : M bool :=
  match version with
  | Some v => lift_foreign (w_is_branch W work_dir v)
  | None => ret false
  end.

Definition unsupported_backend (backend : string) : exn :=
  ExecutionException
    ("Got unsupported execution mode " +:+ backend
     +:+ ". Supported values: ['local', 'databricks']").

Definition _run (uri exp_id entry_point : string) (version : option string)
    (parameters : option dict) (backend backend_config : option string)
    (use_conda : bool) (storage_dir : option string) (synchronous : bool)
    (id : option string) : M SubmittedRun :=
  let parameters := default [] parameters in
  work_dir <- _fetch_project uri false version ;;
  emit (EvLoadProject work_dir) ;;
  project <- lift_foreign (w_load_project W work_dir) ;;
  lift (_validate_execution_environment project backend) ;;
  ep <- lift_foreign (get_entry_point project entry_point) ;;
  match _validate_parameters ep parameters with
  | Some e => raise (Collaborator e)
  | None => ret tt
  end ;;
  active_run <-
    (if Py.truthy_opt id then MlflowClient_get_run (default "" id)
     else _create_run uri exp_id work_dir entry_point) ;;
  entry_point_obj <- lift_foreign (get_entry_point project entry_point) ;;
  params <- lift_foreign (compute_parameters entry_point_obj parameters None) ;;
  let final_params := fst params in
  let extra_params := snd params in
  for_each (final_params ++ extra_params)%list
    (fun kv => MlflowClient_log_param (run_id active_run) (fst kv) (snd kv)) ;;
  match _get_git_repo_url work_dir with
  | Some repo_url =>
      for_each [MLFLOW_GIT_REPO_URL; LEGACY_MLFLOW_GIT_REPO_URL]
        (fun tag => MlflowClient_set_tag (run_id active_run) tag repo_url)
  | None => ret tt
  end ;;
  valid_branch <- _is_valid_branch_name work_dir version ;;
  (if valid_branch : bool then
     for_each [MLFLOW_GIT_BRANCH; LEGACY_MLFLOW_GIT_BRANCH_NAME]
       (fun tag => MlflowClient_set_tag (run_id active_run) tag (default "" version))
   else ret tt) ;;
  if backend_is backend "databricks" then
    call (EvRunDatabricks (run_id active_run) uri entry_point work_dir) ;;
    lift_foreign (w_run_databricks W (run_id active_run))
  else if backend_is backend "local" || negb (is_Some_b backend) then
    let command_separator := " " in
    cs <-
      (if docker_env_truthy project then
         MlflowClient_set_tag (run_id active_run) MLFLOW_PROJECT_ENV "docker" ;;
         _validate_docker_env (default [] (docker_env project)) ;;
         _validate_docker_installation ;;
         image <- _build_docker_image work_dir project active_run ;;
         ret (_get_docker_command image active_run, command_separator)
       else if use_conda then
         MlflowClient_set_tag (run_id active_run) MLFLOW_PROJECT_ENV "conda" ;;
         let command_separator := " && " in
         conda_env_name <- _get_or_create_conda_env (conda_env_path project) None ;;
         ret (_get_conda_command conda_env_name, command_separator)
       else ret ([], command_separator)) ;;
    let command := fst cs in
    let command_separator := snd cs in
    if synchronous then
      epc <- _get_entry_point_command project entry_point parameters storage_dir ;;
      let command := (command ++ epc)%list in
      let command := Py.join command_separator command in
      _run_entry_point command work_dir exp_id (run_id active_run)
    else
      _invoke_mlflow_run_subprocess work_dir entry_point parameters exp_id
        use_conda storage_dir (run_id active_run)
  else
    raise (unsupported_backend (default "None" backend)).

End Projects.

(** * Predicates used in the statements *)

Definition raises_only {A} (Q : exn -> Prop) (r : result A) : Prop :=
  match r with
  | Raise e => Q e
  | Ok _ => True
  end.

(** [m] only adds calls that satisfy [P] to the trace, and only raises
    exceptions that satisfy [Q]. *)
Definition spec {A} (P : event -> Prop) (Q : exn -> Prop) (m : M A) : Prop :=
  forall s,
    (exists l, events (snd (m s)) = events s ++ l /\ Forall P l) /\
    raises_only Q (fst (m s)).

Definition is_materialize (ev : event) : bool :=
  match ev with
  | EvHttpGet _ | EvUnzip _ _ | EvCopyTree _ _
  | EvGitInit _ | EvGitCreateRemote _ _ | EvGitFetch _
  | EvGitCheckout _ | EvGitCreateHead _ _ | EvGitCheckoutHead _ => true
  | _ => false
  end.

(** No exception raised before the backend is looked at can be mistaken
    for the one about an unsupported backend. *)
Definition not_unsupported (e : exn) : Prop :=
  forall backend, e <> unsupported_backend backend.

(** The spec's rule for when the fetcher works in a fresh temporary
    directory: the flag, or a base of archive or git kind. *)
Definition materializes_in_tempdir (force_tempdir : bool) (parsed_uri : string) : bool :=
  force_tempdir ||
  match reference_kind parsed_uri with
  | archive | git => true
  | local => false
  end.

(** * Concrete worlds for the examples *)

Module Scenario.

(** Stands for [hashlib.sha1(...).hexdigest()] on the inputs the
    examples use. *)
Definition sha1_hexdigest (s : string) : string :=
  if String.eqb s "" then "da39a3ee5e6b4b0d3255bfef95601890afd80709"
  else "4f2c8a0d6b1e93a75c0f4e2d8b7a6c5d4e3f2a1b".

Definition no_creds : DatabricksConfig :=
  {| host := ""; username := None; password := None; token := None;
     ignore_tls_verification := None |}.

(** A world in which nothing fails; what varies between the examples
    is passed in. *)
Definition world_with (exists_ : string -> bool) (refs : list string)
    (default_branch : string) (checkout : option string) (envs : list string)
    (project : foreign + Project) : world :=
  {| w_os_name := "posix";
     w_sys_platform := "linux";
     w_getcwd := "/home/user";
     w_environ := fun _ => None;
     w_exists := exists_;
     w_read_file := fun _ => inr "name: tutorial";
     w_mkdtemp := fun dir _ => default "/tmp" dir +:+ "/tmpk3x9";
     w_mkstemp := fun _ => "/tmp/tmpctx";
     w_fault := fun _ => None;
     w_exec_cmd := fun _ => ExecExit 0 "{}" "";
     w_popen := fun n => n;
     w_sha1_hexdigest := sha1_hexdigest;
     w_json_envs := fun _ => inr envs;
     w_urlparse_unquote := fun u => ("", u);
     w_http_get := fun _ => HttpOk "";
     w_git_checkout := fun _ _ => checkout;
     w_remote_refs := fun _ => refs;
     w_remote_default_branch := fun _ => default_branch;
     w_git_repo_url := fun _ => None;
     w_git_url_if_present := fun u => u;
     w_git_commit := fun _ => None;
     w_is_branch := fun _ _ => inr false;
     w_load_project := fun _ => project;
     w_new_run_id := fun _ => "run-1";
     w_active_run := None;
     w_user := "user";
     w_source_type_project := "PROJECT";
     w_tracking_uri := "http://localhost:5000";
     w_tracking_is_local_uri := fun _ => false;
     w_tracking_is_databricks_uri := fun _ => false;
     w_local_file_uri_to_path := fun u => u;
     w_db_profile_from_uri := fun _ => "";
     w_databricks_host_creds := fun _ => no_creds;
     w_RUN_ID_ENV_VAR := "MLFLOW_RUN_ID";
     w_TRACKING_URI_ENV_VAR := "MLFLOW_TRACKING_URI";
     w_EXPERIMENT_ID_ENV_VAR := "MLFLOW_EXPERIMENT_ID";
     w_docker_build := fun _ _ => inr "sha256:0";
     w_process_wait := fun _ rs => (WaitReturns true, rs);
     w_process_cancel := fun _ rs => rs;
     w_run_databricks := fun _ => inl (Foreign "MlflowException" "no workspace") |}.

Definition no_project : foreign + Project :=
  inl (Foreign "ExecutionException" "Could not find MLproject").

(** An entry point [main] with one parameter [alpha] of type float. *)
Definition main : EntryPoint :=
  {| _validate_parameters := fun d =>
       match dict_get "alpha" d with
       | Some "bad" =>
           Some (Foreign "ExecutionException"
                         "Invalid value bad for parameter 'alpha' of type 'float'")
       | _ => None
       end;
     compute_parameters := fun d _ => inr (d, []);
     compute_command := fun d _ =>
       inr ("python train.py --alpha " +:+ default "0.1" (dict_get "alpha" d)) |}.

Definition tutorial_project : Project :=
  {| name := Some "tutorial";
     docker_env := None;
     conda_env_path := None;
     get_entry_point := fun _ => inr main |}.

(** Every path exists, conda lists the environment of an empty spec,
    and the tutorial project is in every working directory. *)
Definition tutorial : world :=
  world_with (fun _ => true) ["main"; "master"] "main" None
             ["/opt/conda/envs/mlflow-da39a3ee5e6b4b0d3255bfef95601890afd80709"]
             (inr tutorial_project).

(** Every path exists; the remote has [main] (its default) and [master]. *)
Definition plain : world :=
  world_with (fun _ => true) ["main"; "master"] "main" None [] no_project.


Definition start : state := {| events := []; runs := ∅ |}.

(** The tracking service knows one run, still running. *)
Definition running : state :=
  {| events := [];
     runs := {[ "run-1" := {| rec_experiment_id := "0"; rec_status := "RUNNING" |} ]} |}.

(** A launched process whose user code marks the run FINISHED by
    itself and then exits with a non-zero code. *)
Definition self_reporting : SubmittedRun :=
  {| sr_run_id := Some "run-1";
     sr_pid := 7;
     sr_wait := fun rs =>
       (WaitReturns false,
        <["run-1" := {| rec_experiment_id := "0"; rec_status := "FINISHED" |}]> rs);
     sr_cancel := fun rs => rs |}.

End Scenario.

(** The three calls every git fetch starts with. *)
Definition git_setup (uri dst_dir : string) : list event :=
  [EvGitInit dst_dir; EvGitCreateRemote "origin" uri; EvGitFetch "origin"].

(** The trace shows a local branch made from the remote branch [branch]
    and checked out. *)
Definition checks_out_remote_branch (branch : string) (l : list event) : Prop :=
  exists head,
    In (EvGitCreateHead head ("origin/" +:+ branch)) l /\ In (EvGitCheckoutHead head) l.

Definition no_faults (W : world) : Prop := forall ev, w_fault W ev = None.

(** ** Reporting the end of a run *)

(** The status the manager reports for what [wait()] answered. *)
Definition verdict (o : wait_outcome) : string :=
  match o with
  | WaitReturns true => "FINISHED"
  | _ => "FAILED"
  end.

(** The records as the manager finds them when it comes to report:
    after [wait()], and after [cancel()] when the wait was interrupted. *)
Definition records_at_report (sr : SubmittedRun) (rs : gmap string RunRecord)
  : gmap string RunRecord :=
  match fst (sr_wait sr rs) with
  | WaitInterrupted => sr_cancel sr (snd (sr_wait sr rs))
  | _ => snd (sr_wait sr rs)
  end.

(** The statuses the spec calls terminal; the enum names a third,
    KILLED. *)
Definition terminal_name (st : string) : bool :=
  existsb (String.eqb st) ["FINISHED"; "FAILED"; "KILLED"].

Definition terminal_in (rs : gmap string RunRecord) (id : string) : bool :=
  match rs !! id with
  | Some r => terminal_name (rec_status r)
  | None => false
  end.

(** The [set_terminated] calls of a trace. *)
Definition reports (l : list event) : list event :=
  List.filter is_set_terminated l.

(** ** The two halves of [_run] *)

(** The end of [_run], from the test on [backend] on, once the working
    directory, the project and the run are known. *)
Definition run_dispatch (W : world) (uri exp_id entry_point : string)
    (parameters : dict) (backend : option string) (use_conda : bool)
    (storage_dir : option string) (synchronous : bool)
    (work_dir : string) (project : Project) (active_run : RunInfo) : M SubmittedRun :=
  (if backend_is backend "databricks" then
     call W (EvRunDatabricks (run_id active_run) uri entry_point work_dir) ;;
     lift_foreign (w_run_databricks W (run_id active_run))
   else if backend_is backend "local" || negb (is_Some_b backend) then
     let command_separator := " " in
     cs <-
       (if docker_env_truthy project then
          MlflowClient_set_tag W (run_id active_run) MLFLOW_PROJECT_ENV "docker" ;;
          _validate_docker_env (default [] (docker_env project)) ;;
          _validate_docker_installation W ;;
          image <- _build_docker_image W work_dir project active_run ;;
          ret (_get_docker_command W image active_run, command_separator)
        else if use_conda then
          MlflowClient_set_tag W (run_id active_run) MLFLOW_PROJECT_ENV "conda" ;;
          let command_separator := " && " in
          conda_env_name <- _get_or_create_conda_env W (conda_env_path project) None ;;
          ret (_get_conda_command W conda_env_name, command_separator)
        else ret ([], command_separator)) ;;
     let command := fst cs in
     let command_separator := snd cs in
     if synchronous then
       epc <- _get_entry_point_command W project entry_point parameters storage_dir ;;
       let command := (command ++ epc)%list in
       let command := Py.join command_separator command in
       _run_entry_point W command work_dir exp_id (run_id active_run)
     else
       _invoke_mlflow_run_subprocess W work_dir entry_point parameters exp_id
         use_conda storage_dir (run_id active_run)
   else
     raise (unsupported_backend (default "None" backend)))%py.

(** The calls that tag a run with what git knows of the working
    directory. *)
Definition is_set_tag (ev : event) : bool :=
  match ev with EvSetTag _ _ _ => true | _ => false end.

(** Validation as [_run] does it before it resolves the run: the
    backend and environment combination is refused, or the entry point
    refuses the parameters. *)
Definition validation_fails (project : Project) (backend : option string)
    (entry_point : string) (parameters : dict) : Prop :=
  _validate_execution_environment project backend = Raise docker_on_databricks \/
  exists ep e, get_entry_point project entry_point = inr ep /\
               _validate_parameters ep parameters = Some e.

(** The first argument [_run_entry_point] gives to [subprocess.Popen]. *)
Definition launch_args (W : world) (command : string) : popen_args :=
  if negb (String.eqb (w_os_name W) "nt") then ArgList ["bash"; "-c"; command]
  else ArgString command.

(** What [_run] has done when it comes to look at [backend]: [l] is what
    it has added to the trace so far, and [active_run] is the run the
    parameters were logged against -- the one with the id passed in, or
    the one [create_run] has just made, whose id is the one the tracking
    service gave out at that call; the service holds its record. *)
Record reached (W : world) (uri exp_id entry_point : string) (version : option string)
    (parameters : dict) (backend : option string) (id : option string)
    (s s2 : state) (l : list event)
    (work_dir : string) (project : Project) (active_run : RunInfo) : Prop := {
  reached_events : events s2 = events s ++ l;
  reached_fetch : exists s1, _fetch_project W uri false version s = (Ok work_dir, s1);
  reached_load : w_load_project W work_dir = inr project;
  reached_env : _validate_execution_environment project backend = Ok tt;
  reached_valid :
    exists ep, get_entry_point project entry_point = inr ep /\
               _validate_parameters ep parameters = None;
  reached_trace :
    exists ep final_params extra_params l1 l2,
      get_entry_point project entry_point = inr ep /\
      compute_parameters ep parameters None = inr (final_params, extra_params) /\
      l = l1 ++ List.map (fun kv => EvLogParam (run_id active_run) (fst kv) (snd kv))
                         (final_params ++ extra_params) ++ l2 /\
      Forall (fun ev => is_set_tag ev = true) l2 /\
      if Py.truthy_opt id
      then id = Some (run_id active_run)
      else exists tags l1a,
             l1 = l1a ++ [EvCreateRun exp_id tags] /\
             active_run
             = {| run_id := w_new_run_id W (List.length (events s ++ l1a));
                  experiment_id := exp_id;
                  status := "RUNNING" |};
  reached_record :
    runs s2 !! run_id active_run
    = Some {| rec_experiment_id := experiment_id active_run;
              rec_status := status active_run |}
}.

(** ** Kinds of calls *)

Definition is_cleanup (ev : event) : bool :=
  match ev with EvRmtree _ | EvRemove _ => true | _ => false end.

Definition is_tracking (ev : event) : bool :=
  match ev with
  | EvGetRun _ | EvCreateRun _ _ | EvLogParam _ _ _ | EvSetTag _ _ _
  | EvSetTerminated _ _ => true
  | _ => false
  end.

(** * More concrete worlds *)

Module Cases.

(** As [Scenario.plain], with a remote that only has [main]. *)
Definition main_only : world :=
  Scenario.world_with (fun _ => true) ["main"] "main" None [] Scenario.no_project.

(** [W] with other answers of the operating system, of git about the
    current commit, and of the docker engine. *)
Definition rebuild (W : world)
    (environ : string -> option string)
    (read_file : string -> foreign + string)
    (fault : event -> option foreign)
    (exec_cmd : list string -> exec_outcome)
    (git_commit : string -> option string)
    (docker_build : string -> string -> foreign + string) : world :=
  {| w_os_name := w_os_name W;
     w_sys_platform := w_sys_platform W;
     w_getcwd := w_getcwd W;
     w_environ := environ;
     w_exists := w_exists W;
     w_read_file := read_file;
     w_mkdtemp := w_mkdtemp W;
     w_mkstemp := w_mkstemp W;
     w_fault := fault;
     w_exec_cmd := exec_cmd;
     w_popen := w_popen W;
     w_sha1_hexdigest := w_sha1_hexdigest W;
     w_json_envs := w_json_envs W;
     w_urlparse_unquote := w_urlparse_unquote W;
     w_http_get := w_http_get W;
     w_git_checkout := w_git_checkout W;
     w_remote_refs := w_remote_refs W;
     w_remote_default_branch := w_remote_default_branch W;
     w_git_repo_url := w_git_repo_url W;
     w_git_url_if_present := w_git_url_if_present W;
     w_git_commit := git_commit;
     w_is_branch := w_is_branch W;
     w_load_project := w_load_project W;
     w_new_run_id := w_new_run_id W;
     w_active_run := w_active_run W;
     w_user := w_user W;
     w_source_type_project := w_source_type_project W;
     w_tracking_uri := w_tracking_uri W;
     w_tracking_is_local_uri := w_tracking_is_local_uri W;
     w_tracking_is_databricks_uri := w_tracking_is_databricks_uri W;
     w_local_file_uri_to_path := w_local_file_uri_to_path W;
     w_db_profile_from_uri := w_db_profile_from_uri W;
     w_databricks_host_creds := w_databricks_host_creds W;
     w_RUN_ID_ENV_VAR := w_RUN_ID_ENV_VAR W;
     w_TRACKING_URI_ENV_VAR := w_TRACKING_URI_ENV_VAR W;
     w_EXPERIMENT_ID_ENV_VAR := w_EXPERIMENT_ID_ENV_VAR W;
     w_docker_build := docker_build;
     w_process_wait := w_process_wait W;
     w_process_cancel := w_process_cancel W;
     w_run_databricks := w_run_databricks W |}.

(** No conda on this machine: every command fails to start. *)
Definition no_conda : world :=
  rebuild Scenario.plain (w_environ Scenario.plain) (w_read_file Scenario.plain)
          (w_fault Scenario.plain)
          (fun _ => ExecEnvironmentError "[Errno 2] No such file or directory")
          (w_git_commit Scenario.plain) (w_docker_build Scenario.plain).

(** Conda is installed under [/opt/conda]. *)
Definition conda_home : world :=
  rebuild Scenario.plain
          (fun k => if String.eqb k MLFLOW_CONDA_HOME then Some "/opt/conda" else None)
          (w_read_file Scenario.plain) (w_fault Scenario.plain)
          (w_exec_cmd Scenario.plain) (w_git_commit Scenario.plain)
          (w_docker_build Scenario.plain).

(** A submitted run without a run id, interrupted while waited for. *)
Definition anonymous : SubmittedRun :=
  {| sr_run_id := None;
     sr_pid := 3;
     sr_wait := fun rs => (WaitInterrupted, rs);
     sr_cancel := fun rs => rs |}.

(** The working directory is a git checkout. *)
Definition in_git : world :=
  rebuild Scenario.plain (w_environ Scenario.plain) (w_read_file Scenario.plain)
          (w_fault Scenario.plain) (w_exec_cmd Scenario.plain)
          (fun _ => Some "0123456789abcdef0123456789abcdef01234567")
          (w_docker_build Scenario.plain).

Definition docker_project : Project :=
  {| name := Some "tutorial";
     docker_env := Some [("image", "python:3.7")];
     conda_env_path := None;
     get_entry_point := fun _ => inr Scenario.main |}.

Definition run_1 : RunInfo :=
  {| run_id := "run-1"; experiment_id := "0"; status := "RUNNING" |}.

(** A git checkout that holds the docker project. *)
Definition docker_checkout : world :=
  rebuild (Scenario.world_with (fun _ => true) ["main"; "master"] "main" None []
                               (inr docker_project))
          (fun _ => None) (fun _ => inr "name: tutorial") (fun _ => None)
          (fun _ => ExecExit 0 "" "")
          (fun _ => Some "0123456789abcdef0123456789abcdef01234567")
          (fun _ _ => inr "sha256:0").

End Cases.

(** The command that creates the environment [project_env_name]. *)
Definition conda_create_command (conda_path : string) (conda_env_path : option string)
    (project_env_name : string) : list string :=
  match conda_env_path with
  | Some (String c p) =>
      [conda_path; "env"; "create"; "-n"; project_env_name; "--file"; String c p]
  | _ => [conda_path; "create"; "-n"; project_env_name; "python"]
  end.

(** ** What the manager reports, and the generated Dockerfile *)

(** The calls of one [_maybe_set_run_terminated]. *)
Definition report_calls (id st : string) : list event :=
  [EvGetRun id; EvSetTerminated id st].

(** The record after it. *)
Definition reported (st : string) (r : RunRecord) : RunRecord :=
  {| rec_experiment_id := rec_experiment_id r; rec_status := st |}.

(** The text [_build_docker_image] writes as Dockerfile. *)
Definition dockerfile_for (image tag_name : string) : string :=
  "FROM " +:+ image +:+ NL
  +:+ "LABEL Name=" +:+ tag_name +:+ NL
  +:+ "COPY mlflow-project-docker-build-context/* /mlflow/projects/code/" +:+ NL
  +:+ "WORKDIR /mlflow/projects/code/" +:+ NL.


(** ** Kinds of calls in [_run] *)

(** The calls that end a run: waiting for it, cancelling it, reporting
    its final status. *)
Definition is_end_of_run (ev : event) : bool :=
  match ev with
  | EvWait _ | EvCancel _ | EvSetTerminated _ _ => true
  | _ => false
  end.

(** No restriction on the exception raised. *)
Definition anything (e : exn) : Prop := True.

(** How a call agrees with the run id the caller passed: a given id is
    the only one looked up and no run is created; without one no run is
    looked up. *)
Definition resolves_with (id : option string) (ev : event) : Prop :=
  match ev with
  | EvCreateRun _ _ => Py.truthy_opt id = false
  | EvGetRun i => Py.truthy_opt id = true /\ id = Some i
  | _ => True
  end.



(** The only command a run without conda starts by itself. *)
Definition only_docker_help (ev : event) : Prop :=
  forall cmd, ev = EvExecCmd cmd -> cmd = ["docker"; "--help"].

(** The names the docker command may set for a Databricks profile. *)
Definition databricks_vars : list string :=
  ["DATABRICKS_HOST"; "DATABRICKS_USERNAME"; "DATABRICKS_PASSWORD";
   "DATABRICKS_TOKEN"; "DATABRICKS_INSECURE"].

(** The three variables of a run have names of their own. *)
Definition run_vars_distinct (W : world) : Prop :=
  List.NoDup ([w_RUN_ID_ENV_VAR W; w_TRACKING_URI_ENV_VAR W; w_EXPERIMENT_ID_ENV_VAR W]
         ++ databricks_vars).

(** The [-e] options of a docker command for the variables [env]. *)
Definition env_options (env : dict) : list string :=
  flat_map (fun kv => ["-e"; fst kv +:+ "=" +:+ snd kv]) env.

(** * The public entry point *)

(** [os.path.splitext], as [genericpath._splitext] computes it on a
    POSIX path. *)

Module genericpath.

(** [s.rfind(c)] counted from [pos]: the last index of [c], [best] when
    there is none. *)
Fixpoint rfind_from (c : ascii) (s : string) (pos best : Z) : Z :=
  match s with
  | EmptyString => best
  | String a s' => rfind_from c s' (pos + 1) (if Ascii.eqb a c then pos else best)
  end.

Definition rfind (c : ascii) (s : string) : Z := rfind_from c s 0 (-1).

(** The loop over the leading dots of the file name finds another
    character. *)
Fixpoint has_non_dot (s : string) : bool :=
  match s with
  | EmptyString => false
  | String a s' => negb (Ascii.eqb a ".") || has_non_dot s'
  end.

Definition splitext (p : string) : string * string :=
  let sepIndex := rfind "/" p in
  let dotIndex := rfind "." p in
  if (sepIndex <? dotIndex)
     && has_non_dot (Py.slice_to (Py.slice_from p (sepIndex + 1))
                                 (dotIndex - (sepIndex + 1)))
  then (Py.slice_to p dotIndex, Py.slice_from p dotIndex)
  else (p, "").

End genericpath.

(** [backend_config]: a dictionary (kept as its text) or a path. *)
Inductive backend_config_arg :=
| ConfigDict (d : string)
| ConfigPath (p : string).

(** What [run] asks of its collaborators beyond what [_run] does:
    [MlflowClient().get_experiment_by_name] (the id of the experiment
    found, if any), fluent's [_get_experiment_id()], [json.load] and the
    Databricks module's [before_run_validations]. *)
Record services := {
  sv_get_experiment_by_name : string -> foreign + option string;
  sv_get_experiment_id : string;
  sv_json_load : string -> foreign + string;
  sv_before_run_validations : string -> option backend_config_arg -> option foreign
}.

Definition only_one_experiment : exn :=
  MlflowException "Specify only one of 'experiment_name' or 'experiment_id'.".

Section Run.

Variable W : world.
Variable S : services.

(** Experiment ids are strings, as everywhere in this development;
    [x or y] and [if x] test for [None] and the empty string.  When no
    experiment has the name, [get_experiment_by_name] answers [None] and
    reading [.experiment_id] of it fails. *)
Definition _resolve_experiment_id (experiment_name experiment_id : option string)
  : M string :=
  if Py.truthy_opt experiment_name && Py.truthy_opt experiment_id
  then raise only_one_experiment
  else
    exp_id <-
      (if Py.truthy_opt experiment_name then
         found <- lift_foreign
                    (sv_get_experiment_by_name S (default "" experiment_name)) ;;
         match found with
         | Some i => ret (Some i)
         | None =>
             raise (AttributeError
                      "'NoneType' object has no attribute 'experiment_id'")
         end
       else ret experiment_id) ;;
    ret (if Py.truthy_opt exp_id then default "" exp_id else sv_get_experiment_id S).

(** [run]: the cluster specification is read from the file when
    [backend_config] is a path that ends in [.json] ([open] and
    [json.load] may both fail; the [ValueError] is logged and raised
    again), the Databricks validations get the argument as passed, and
    [_run] gets the specification read. *)
Definition run (uri entry_point : string) (version : option string)
    (parameters : option dict) (experiment_name experiment_id : option string)
    (backend : option string) (backend_config : option backend_config_arg)
    (use_conda : bool) (storage_dir : option string) (synchronous : bool)
    (id : option string) : M SubmittedRun :=
  cluster_spec_dict <-
    match backend_config with
    | Some (ConfigPath p) =>
        if Py.truthy p && String.eqb (snd (genericpath.splitext p)) ".json" then
          text <- lift_foreign (w_read_file W p) ;;
          spec_dict <- lift_foreign (sv_json_load S text) ;;
          ret (Some spec_dict)
        else ret (Some p)
    | Some (ConfigDict d) => ret (Some d)
    | None => ret None
    end ;;
  (if backend_is backend "databricks" then
     match sv_before_run_validations S (w_tracking_uri W) backend_config with
     | Some e => raise (Collaborator e)
     | None => ret tt
     end
   else ret tt) ;;
  experiment_id <- _resolve_experiment_id experiment_name experiment_id ;;
  submitted_run_obj <-
    _run W uri experiment_id entry_point version parameters backend cluster_spec_dict
         use_conda storage_dir synchronous id ;;
  (if synchronous then _wait_for W submitted_run_obj else ret tt) ;;
  ret submitted_run_obj.

End Run.

(** The experiment a run is recorded under: the id of the experiment
    named when a name is given, the id given otherwise, and fluent's
    current experiment when that id is empty or missing. *)
Definition resolved_experiment (S : services) (experiment_name experiment_id : option string)
    (exp : string) : Prop :=
  if Py.truthy_opt experiment_name then
    exists i, sv_get_experiment_by_name S (default "" experiment_name) = inr (Some i) /\
              exp = (if Py.truthy i then i else sv_get_experiment_id S)
  else
    exp = (if Py.truthy_opt experiment_id then default "" experiment_id
           else sv_get_experiment_id S).

(** Runs are created under [exp] only, and only when no run id was
    passed. *)
Definition created_under (exp : string) (id : option string) (ev : event) : Prop :=
  forall e tags, ev = EvCreateRun e tags -> e = exp /\ Py.truthy_opt id = false.

Module Desk.

(** One experiment, [training], with id [7]; the current experiment is
    [0]. *)
Definition one_experiment : services :=
  {| sv_get_experiment_by_name := fun n =>
       inr (if String.eqb n "training" then Some "7" else None);
     sv_get_experiment_id := "0";
     sv_json_load := fun text => inr text;
     sv_before_run_validations := fun _ _ => None |}.

End Desk.

(** ** Where the fetcher puts a project *)

(** The directory a call puts files of the project into. *)
Definition fetch_target (ev : event) : option string :=
  match ev with
  | EvUnzip _ d | EvCopyTree _ d | EvGitInit d => Some d
  | _ => None
  end.

(** The calls [l] have put the project of base [parsed_uri] into
    [dst_dir]: an archive is unpacked there, by the last call; a git
    repository is initialised there with the base as remote and fetched; a
    local directory is copied there. *)
Definition materialized (parsed_uri dst_dir : string) (l : list event) : Prop :=
  match reference_kind parsed_uri with
  | archive =>
      exists zip l0, l = l0 ++ [EvUnzip zip dst_dir] /\
                     Forall (fun ev => fetch_target ev = None) l0
  | git => exists l', l = git_setup parsed_uri dst_dir ++ l'
  | local => l = [EvCopyTree parsed_uri dst_dir]
  end.

(** * Properties *)

(** ** Strings *)

Lemma app_cons (a : ascii) (s t : string) : String a s +:+ t = String a (s +:+ t).
Proof. reflexivity. Qed.

Lemma app_nil_l (t : string) : "" +:+ t = t.
Proof. reflexivity. Qed.

Lemma find_app (c : ascii) (b t : string) :
  Py.contains c b = false ->
  Py.contains c (b +:+ String c t) = true /\
  Py.find c (b +:+ String c t) = Z.of_nat (String.length b).
Proof.
  induction b as [|a b IH]; intros H.
  - rewrite app_nil_l. simpl. rewrite Ascii.eqb_refl. auto.
  - rewrite app_cons. simpl in *.
    destruct (Ascii.eqb a c); [discriminate|].
    destruct (IH H) as [Hc Hf]. split; [exact Hc|].
    rewrite Hf. destruct (Z.ltb_spec (Z.of_nat (String.length b)) 0); lia.
Qed.

Lemma contains_split (c : ascii) (s : string) :
  Py.contains c s = true ->
  exists b t, s = b +:+ String c t /\ Py.contains c b = false.
Proof.
  induction s as [|a s IH]; simpl; [discriminate|].
  destruct (Ascii.eqb_spec a c) as [->|Hne]; intros H.
  - exists "", s. auto.
  - destruct (IH H) as (b & t & -> & Hb).
    exists (String a b), t. rewrite app_cons. simpl.
    destruct (Ascii.eqb_spec a c); [contradiction|]. auto.
Qed.

Lemma take_app (b t : string) : Py.take (String.length b) (b +:+ t) = b.
Proof.
  induction b as [|a b IH].
  - rewrite app_nil_l. destruct t; reflexivity.
  - rewrite app_cons. simpl. now rewrite IH.
Qed.

Lemma drop_app (b t : string) : Py.drop (String.length b) (b +:+ t) = t.
Proof.
  induction b as [|a b IH]; [reflexivity|].
  rewrite app_cons. simpl. exact IH.
Qed.

Lemma length_app (b t : string) :
  String.length (b +:+ t) = (String.length b + String.length t)%nat.
Proof.
  induction b as [|a b IH]; [reflexivity|].
  rewrite app_cons. simpl. now rewrite IH.
Qed.

Lemma app_assoc_s (a b c : string) : (a +:+ b) +:+ c = a +:+ (b +:+ c).
Proof.
  induction a as [|x a IH]; [reflexivity|].
  rewrite !app_cons. now rewrite IH.
Qed.

Lemma split_at_hash_app (b t : string) :
  Py.contains "#" b = false ->
  split_at_hash (b +:+ "#" +:+ t) = (b, t).
Proof.
  intros Hb. unfold split_at_hash.
  destruct (find_app "#" b t Hb) as [Hc Hf].
  change ("#" +:+ t) with (String "#" t).
  rewrite Hc, Hf. unfold Py.slice_to, Py.slice_from, Py.clamp.
  rewrite length_app. simpl String.length.
  replace (Z.of_nat (String.length b) <? 0) with false
    by (symmetry; apply Z.ltb_ge; lia).
  replace (Z.of_nat (String.length b) + 1 <? 0) with false
    by (symmetry; apply Z.ltb_ge; lia).
  rewrite Z.min_l by lia. rewrite Z.min_l by lia.
  rewrite Nat2Z.id.
  replace (Z.to_nat (Z.of_nat (String.length b) + 1)) with (String.length (b +:+ "#"))
    by (rewrite length_app; simpl; lia).
  rewrite take_app.
  replace (b +:+ String "#" t) with ((b +:+ "#") +:+ t)
    by (rewrite app_assoc_s; reflexivity).
  rewrite drop_app. reflexivity.
Qed.

Lemma split_at_hash_no_hash (uri : string) :
  Py.contains "#" uri = false -> split_at_hash uri = (uri, "").
Proof. intros H. unfold split_at_hash. rewrite H. reflexivity. Qed.

(** Whatever the reference, the subdirectory is what follows the first
    [#], and the base together with it spells the reference again. *)
Lemma split_at_hash_rebuild (uri : string) :
  snd (split_at_hash uri) <> "" ->
  uri = fst (split_at_hash uri) +:+ "#" +:+ snd (split_at_hash uri) /\
  Py.contains "#" (fst (split_at_hash uri)) = false.
Proof.
  destruct (Py.contains "#" uri) eqn:Hc.
  - destruct (contains_split _ _ Hc) as (b & t & -> & Hb).
    change (String "#" t) with ("#" +:+ t).
    rewrite (split_at_hash_app b t Hb). simpl. auto.
  - rewrite (split_at_hash_no_hash uri Hc). simpl. congruence.
Qed.

(** ** Parsing a reference *)

Lemma parse_ok_split (uri b sub : string) :
  _parse_subdirectory uri = Ok (b, sub) ->
  split_at_hash uri = (b, sub) /\ Py.contains "." sub = false.
Proof.
  unfold _parse_subdirectory. intros H.
  destruct (split_at_hash uri) as [p q]; simpl in H.
  destruct (Py.truthy q && Py.contains "." q) eqn:E; [discriminate|].
  injection H as <- <-. split; [reflexivity|].
  destruct q; [reflexivity|]. exact E.
Qed.

(** C6: when a reference parses into a base and a non-empty
    subdirectory, the string [base # subdirectory] is the reference
    itself; so it parses into the same pair, its base has the same kind,
    and the whole string is local or not as before. *)
Theorem C6_parse_round_trip (uri b sub : string) :
  _parse_subdirectory uri = Ok (b, sub) ->
  sub <> "" ->
  b +:+ "#" +:+ sub = uri /\
  _parse_subdirectory (b +:+ "#" +:+ sub) = Ok (b, sub) /\
  reference_kind (fst (split_at_hash (b +:+ "#" +:+ sub))) = reference_kind b /\
  _is_local_uri (b +:+ "#" +:+ sub) = _is_local_uri uri.
Proof.
  intros Hp Hne.
  destruct (parse_ok_split _ _ _ Hp) as [Hs _].
  assert (Hsub : snd (split_at_hash uri) <> "") by (rewrite Hs; exact Hne).
  destruct (split_at_hash_rebuild uri Hsub) as [Hu _].
  rewrite Hs in Hu; simpl in Hu.
  rewrite <- Hu. rewrite Hs. simpl. auto.
Qed.

Lemma C6_parse_round_trip_witness :
  _parse_subdirectory "/tmp/proj#sub" = Ok ("/tmp/proj", "sub") /\
  "/tmp/proj" +:+ "#" +:+ "sub" = "/tmp/proj#sub" /\
  _parse_subdirectory ("/tmp/proj" +:+ "#" +:+ "sub") = Ok ("/tmp/proj", "sub") /\
  reference_kind (fst (split_at_hash ("/tmp/proj" +:+ "#" +:+ "sub")))
  = reference_kind "/tmp/proj" /\
  _is_local_uri ("/tmp/proj" +:+ "#" +:+ "sub") = _is_local_uri "/tmp/proj#sub".
Proof.
  split; [reflexivity|].
  apply (C6_parse_round_trip "/tmp/proj#sub" "/tmp/proj" "sub");
    [reflexivity | discriminate].
Defined.

(** C7: a reference whose part after the first [#] is non-empty and has
    a dot in it does not parse: [_parse_subdirectory] raises, whatever
    the base looks like, and so does [_fetch_project], before it touches
    anything. *)
Theorem C7_dot_in_subdirectory_rejected (uri : string) :
  Py.truthy (snd (split_at_hash uri)) = true ->
  Py.contains "." (snd (split_at_hash uri)) = true ->
  _parse_subdirectory uri = Raise dot_in_subdirectory /\
  forall (W : world) (force_tempdir : bool) (version : option string) (s : state),
    _fetch_project W uri force_tempdir version s = (Raise dot_in_subdirectory, s).
Proof.
  intros Ht Hd.
  assert (Hp : _parse_subdirectory uri = Raise dot_in_subdirectory).
  { unfold _parse_subdirectory. rewrite Ht, Hd. reflexivity. }
  split; [exact Hp|].
  intros W f v s. unfold _fetch_project, bind, lift. rewrite Hp. reflexivity.
Qed.

Lemma C7_dot_in_subdirectory_rejected_witness :
  snd (split_at_hash "https://github.com/org/repo#models/v1.2") = "models/v1.2" /\
  _parse_subdirectory "https://github.com/org/repo#models/v1.2"
  = Raise dot_in_subdirectory /\
  forall (W : world) (force_tempdir : bool) (version : option string) (s : state),
    _fetch_project W "https://github.com/org/repo#models/v1.2" force_tempdir version s
    = (Raise dot_in_subdirectory, s).
Proof.
  split; [reflexivity|].
  apply (C7_dot_in_subdirectory_rejected "https://github.com/org/repo#models/v1.2");
    reflexivity.
Defined.

(** ** Reasoning about traces *)

Lemma spec_events {A} P Q (m : M A) s r s' :
  spec P Q m -> m s = (r, s') ->
  exists l, events s' = events s ++ l /\ Forall P l.
Proof. intros Hm E. destruct (Hm s) as [H _]. rewrite E in H. exact H. Qed.

Lemma spec_raises {A} P Q (m : M A) s e s' :
  spec P Q m -> m s = (Raise e, s') -> Q e.
Proof. intros Hm E. destruct (Hm s) as [_ H]. rewrite E in H. exact H. Qed.

Section SpecRules.

Context (P : event -> Prop) (Q : exn -> Prop).

Local Ltac quiet := split; [exists []; simpl; rewrite app_nil_r; auto | simpl; auto].

Lemma spec_ret {A} (a : A) : spec P Q (ret a).
Proof. intros s; quiet. Qed.

Lemma spec_raise {A} (e : exn) : Q e -> spec P Q (@raise A e).
Proof. intros He s; quiet. Qed.

Lemma spec_lift {A} (r : result A) : raises_only Q r -> spec P Q (lift r).
Proof. intros Hr s; quiet. Qed.

Lemma spec_lift_foreign {A} (r : foreign + A) :
  (forall e, Q (Collaborator e)) -> spec P Q (lift_foreign r).
Proof.
  intros HQ. destruct r; simpl; [apply spec_raise, HQ | apply spec_ret].
Qed.

Lemma spec_get_events : spec P Q get_events.
Proof. intros s; quiet. Qed.

Lemma spec_get_runs : spec P Q get_runs.
Proof. intros s; quiet. Qed.

Lemma spec_put_runs r : spec P Q (put_runs r).
Proof. intros s; quiet. Qed.

Lemma spec_emit ev : P ev -> spec P Q (emit ev).
Proof. intros Hev s; split; [exists [ev]; simpl; auto | simpl; auto]. Qed.

Local Ltac glue E1 E2 l1 l2 :=
  exists (l1 ++ l2); rewrite E2, E1, app_assoc; split;
  [reflexivity | apply Forall_app; auto].

Lemma spec_bind {A B} (m : M A) (k : A -> M B) :
  spec P Q m -> (forall a, spec P Q (k a)) -> spec P Q (bind m k).
Proof.
  intros Hm Hk s. unfold bind.
  destruct (Hm s) as [(l1 & E1 & F1) R1].
  destruct (m s) as [[a|e] s1]; simpl in *.
  - destruct (Hk a s1) as [(l2 & E2 & F2) R2].
    split; [glue E1 E2 l1 l2 | exact R2].
  - split; [exists l1; auto | exact R1].
Qed.

Lemma spec_call (W : world) ev :
  P ev -> (forall e, Q (Collaborator e)) -> spec P Q (call W ev).
Proof.
  intros Hev HQ. unfold call. apply spec_bind; [apply spec_emit, Hev|].
  intros _. destruct (w_fault W ev); [apply spec_raise, HQ | apply spec_ret].
Qed.

Lemma spec_try_finally {A} (body : M A) (cleanup : M unit) :
  spec P Q body -> spec P Q cleanup -> spec P Q (try_finally body cleanup).
Proof.
  intros Hb Hc s. unfold try_finally.
  destruct (Hb s) as [(l1 & E1 & F1) R1].
  destruct (body s) as [r s1]; simpl in *.
  destruct (Hc s1) as [(l2 & E2 & F2) R2].
  destruct (cleanup s1) as [[u|e] s2]; simpl in *.
  - split; [glue E1 E2 l1 l2 | exact R1].
  - split; [glue E1 E2 l1 l2 | exact R2].
Qed.

Lemma spec_except_EnvironmentError {A} (body : M A) (e : exn) :
  Q e -> spec P (fun x => Q x \/ exists msg, x = EnvironmentError msg) body ->
  spec P Q (except_EnvironmentError body e).
Proof.
  intros He Hb s. unfold except_EnvironmentError.
  destruct (Hb s) as [Hl R1].
  destruct (body s) as [[a|x] s1]; simpl in *; [split; [exact Hl | exact I]|].
  destruct x; simpl; (split; [exact Hl|]); try exact He;
    (destruct R1 as [HQ|[? ?]]; [exact HQ | discriminate]).
Qed.

Lemma spec_except_KeyboardInterrupt {A} (body : M A) (handler : M unit) :
  Q KeyboardInterrupt -> spec P Q body -> spec P Q handler ->
  spec P Q (except_KeyboardInterrupt body handler).
Proof.
  intros HK Hb Hh s. unfold except_KeyboardInterrupt.
  destruct (Hb s) as [(l1 & E1 & F1) R1].
  destruct (body s) as [[a|x] s1]; simpl in *;
    [split; [exists l1; auto | exact I]|].
  destruct x; simpl; try (split; [exists l1; auto | exact R1]).
  destruct (Hh s1) as [(l2 & E2 & F2) R2].
  destruct (handler s1) as [[u|e] s2]; simpl in *.
  - split; [glue E1 E2 l1 l2 | exact HK].
  - split; [glue E1 E2 l1 l2 | exact R2].
Qed.

Lemma spec_for_each {A} (l : list A) (body : A -> M unit) :
  (forall x, spec P Q (body x)) -> spec P Q (for_each l body).
Proof.
  intros Hb. induction l as [|x l IH]; simpl; [apply spec_ret|].
  apply spec_bind; [apply Hb | intros _; exact IH].
Qed.

End SpecRules.

Lemma spec_weaken {A} (P P' : event -> Prop) (Q Q' : exn -> Prop) (m : M A) :
  (forall ev, P ev -> P' ev) -> (forall e, Q e -> Q' e) ->
  spec P Q m -> spec P' Q' m.
Proof.
  intros HP HQ Hm s. destruct (Hm s) as [(l & E & F) R]. split.
  - exists l. split; [exact E|]. eapply Forall_impl; eauto.
  - destruct (fst (m s)); simpl in *; auto.
Qed.

(** ** What each function may add to the trace and raise *)

Ltac differs :=
  let b := fresh "b" in
  let H := fresh "H" in
  intros b H; cbv in H; discriminate H.

Ltac spec_step :=
  match goal with
  | |- spec _ _ (bind _ _) => apply spec_bind; [|intros ?]
  | |- spec _ _ (ret _) => apply spec_ret
  | |- spec _ _ (raise _) => apply spec_raise
  | |- spec _ _ (lift_foreign _) => apply spec_lift_foreign
  | |- spec _ _ (lift _) => apply spec_lift
  | |- spec _ _ (call _ _) => apply spec_call
  | |- spec _ _ (emit _) => apply spec_emit
  | |- spec _ _ get_events => apply spec_get_events
  | |- spec _ _ get_runs => apply spec_get_runs
  | |- spec _ _ (put_runs _) => apply spec_put_runs
  | |- spec _ _ (for_each _ _) => apply spec_for_each; intros ?
  | |- spec _ _ (try_finally _ _) => apply spec_try_finally
  | |- spec _ _ (if ?b then _ else _) => destruct b eqn:?
  | |- spec _ _ (match ?x with _ => _ end) => destruct x eqn:?
  end.

Ltac spec_side :=
  match goal with
  | |- _ = true => reflexivity
  | |- _ = false => reflexivity
  | |- not_unsupported _ => differs
  | |- forall _, not_unsupported _ => intros ?; differs
  | |- raises_only _ _ => idtac
  end.

Ltac spec_auto := repeat (first [spec_step | spec_side]).

Section Fetch.

Variable W : world.

Lemma mkdtemp_spec dir :
  spec (fun ev => is_mkdtemp ev = true) not_unsupported (mkdtemp W dir).
Proof. unfold mkdtemp. spec_auto. Qed.

Lemma _fetch_zip_repo_spec uri :
  spec (fun ev => is_materialize ev = true) not_unsupported (_fetch_zip_repo W uri).
Proof. unfold _fetch_zip_repo. spec_auto. Qed.

Lemma _fetch_git_repo_spec uri version dst_dir :
  spec (fun ev => is_materialize ev = true) not_unsupported
       (_fetch_git_repo W uri version dst_dir).
Proof. unfold _fetch_git_repo. spec_auto. Qed.

End Fetch.

(** ** The fetcher *)

Lemma materializes_in_tempdir_code (force_tempdir : bool) (parsed_uri : string) :
  force_tempdir || _is_zip_uri parsed_uri || negb (_is_local_uri parsed_uri)
  = materializes_in_tempdir force_tempdir parsed_uri.
Proof.
  unfold materializes_in_tempdir, reference_kind.
  destruct force_tempdir, (_is_zip_uri parsed_uri), (_is_local_uri parsed_uri); reflexivity.
Qed.

Lemma bind_ok {A B} (m : M A) (k : A -> M B) s a s1 :
  m s = (Ok a, s1) -> bind m k s = k a s1.
Proof. intros H. unfold bind. rewrite H. reflexivity. Qed.

Lemma bind_raise {A B} (m : M A) (k : A -> M B) s e s1 :
  m s = (Raise e, s1) -> bind m k s = (Raise e, s1).
Proof. intros H. unfold bind. rewrite H. reflexivity. Qed.

Lemma bind_inv {A B} (m : M A) (k : A -> M B) s r s' :
  bind m k s = (r, s') ->
  (exists e, m s = (Raise e, s') /\ r = Raise e) \/
  (exists a s1, m s = (Ok a, s1) /\ k a s1 = (r, s')).
Proof.
  unfold bind. destruct (m s) as [[a|e] s1]; intros H.
  - right. eauto.
  - left. injection H as <- <-. eauto.
Qed.

Lemma call_run W ev s :
  call W ev s =
  (match w_fault W ev with Some e => Raise (Collaborator e) | None => Ok tt end,
   log ev s).
Proof. unfold call, bind, emit. destruct (w_fault W ev); reflexivity. Qed.

Lemma mkdtemp_run W dir s :
  mkdtemp W dir s =
  (match w_fault W (EvMkdtemp dir (w_mkdtemp W dir (List.length (events s)))) with
   | Some e => Raise (Collaborator e)
   | None => Ok (w_mkdtemp W dir (List.length (events s)))
   end,
   log (EvMkdtemp dir (w_mkdtemp W dir (List.length (events s)))) s).
Proof.
  unfold mkdtemp, call, bind, get_events, emit.
  destruct (w_fault W _); reflexivity.
Qed.

Lemma git_regex_prefix (b t : string) :
  _GIT_URI_REGEX b = true -> _GIT_URI_REGEX (b +:+ t) = true.
Proof.
  induction b as [|a b IH]; [discriminate|].
  rewrite app_cons. simpl.
  destruct (Ascii.eqb a ":"); [reflexivity|].
  destruct (Ascii.eqb a "/"); [discriminate|]. exact IH.
Qed.

Lemma split_at_hash_prefix (uri : string) :
  exists t, uri = fst (split_at_hash uri) +:+ t.
Proof.
  destruct (Py.contains "#" uri) eqn:Hc.
  - destruct (contains_split _ _ Hc) as (b & t & -> & Hb).
    change (String "#" t) with ("#" +:+ t).
    rewrite (split_at_hash_app b t Hb). simpl. eauto.
  - rewrite (split_at_hash_no_hash uri Hc). simpl. exists "".
    clear Hc. induction uri as [|a u IH]; [reflexivity|].
    rewrite app_cons. now rewrite <- IH.
Qed.

(** A reference that is a local path has a base that is one too. *)
Lemma local_uri_base (uri parsed_uri sub : string) :
  _parse_subdirectory uri = Ok (parsed_uri, sub) ->
  _is_local_uri uri = true -> _is_local_uri parsed_uri = true.
Proof.
  intros Hp Hu. destruct (parse_ok_split _ _ _ Hp) as [Hs _].
  destruct (split_at_hash_prefix uri) as [t Ht]. rewrite Hs in Ht. simpl in Ht.
  unfold _is_local_uri in *.
  destruct (_GIT_URI_REGEX parsed_uri) eqn:Hg; [|reflexivity].
  rewrite Ht, (git_regex_prefix _ t Hg) in Hu. discriminate.
Qed.

(** A git fetch that returns has begun with the three set-up calls. *)
Lemma fetch_git_repo_ok W uri version dst_dir s s2 :
  _fetch_git_repo W uri version dst_dir s = (Ok tt, s2) ->
  exists l', events s2 = events s ++ git_setup uri dst_dir ++ l'.
Proof.
  unfold _fetch_git_repo. intros H.
  apply bind_inv in H as [(e & _ & [=])|([] & s1 & H1 & H)].
  rewrite call_run in H1. injection H1 as _ <-.
  apply bind_inv in H as [(e & _ & [=])|([] & s1 & H1 & H)].
  rewrite call_run in H1. injection H1 as _ <-.
  apply bind_inv in H as [(e & _ & [=])|([] & s1 & H1 & H)].
  rewrite call_run in H1. injection H1 as _ <-.
  match type of H with ?k ?s0 = _ =>
    assert (Hk : spec (fun _ => True) (fun _ => True) k)
  end.
  { repeat first [spec_step | exact I | intros ?; exact I]. }
  destruct (spec_events _ _ _ _ _ _ Hk H) as (l' & He & _).
  exists l'. rewrite He. cbn [events log]. rewrite <- !app_assoc. reflexivity.
Qed.

(** What a fetch into a temporary directory has done when it returns. *)
Lemma fetch_in_tempdir_ok W uri force_tempdir version s parsed_uri sub wd s' :
  _parse_subdirectory uri = Ok (parsed_uri, sub) ->
  materializes_in_tempdir force_tempdir parsed_uri = true ->
  _fetch_project W uri force_tempdir version s = (Ok wd, s') ->
  let dst_dir := w_mkdtemp W None (List.length (events s)) in
  wd = posixpath.abspath (w_getcwd W) (posixpath.join dst_dir sub) /\
  exists l, events s' = events s ++ EvMkdtemp None dst_dir :: l /\
            materialized parsed_uri dst_dir l.
Proof.
  intros Hp Hm H dst_dir. unfold _fetch_project in H.
  rewrite (bind_ok _ _ s (parsed_uri, sub) s) in H by (unfold lift; now rewrite Hp).
  cbv zeta in H. change (fst (parsed_uri, sub)) with parsed_uri in H.
  change (snd (parsed_uri, sub)) with sub in H.
  rewrite materializes_in_tempdir_code, Hm in H.
  apply bind_inv in H as [(e & _ & [=])|(d & s1 & Hd & H)].
  rewrite mkdtemp_run in Hd. fold dst_dir in Hd.
  destruct (w_fault W _); [discriminate|]. injection Hd as <- <-.
  apply bind_inv in H as [(e & _ & [=])|([] & s2 & Hb & H)].
  destruct (w_exists W _); [|discriminate]. injection H as <- <-.
  split; [reflexivity|].
  unfold materialized, reference_kind.
  destruct (_is_zip_uri parsed_uri) eqn:Hz.
  - apply bind_inv in Hb as [(e & _ & [=])|(zip & s3 & Hzip & Hb)].
    unfold _unzip_repo in Hb. rewrite call_run in Hb. injection Hb as _ <-.
    assert (Hl0 : exists l0, events s3 = events (log (EvMkdtemp None dst_dir) s) ++ l0 /\
                             Forall (fun ev => fetch_target ev = None) l0).
    { destruct (_is_local_uri _).
      - injection Hzip as _ <-. exists []. rewrite app_nil_r. auto.
      - unfold _fetch_zip_repo in Hzip.
        apply bind_inv in Hzip as [(e & _ & [=])|([] & s4 & He & Hzip)].
        injection He as <-.
        destruct (w_http_get W _); try discriminate. injection Hzip as _ <-.
        eexists. split; [reflexivity|]. repeat constructor. }
    destruct Hl0 as (l0 & He & Hf).
    exists (l0 ++ [EvUnzip zip dst_dir]). split.
    + cbn [events log]. rewrite He. cbn [events log]. rewrite <- !app_assoc. reflexivity.
    + exists zip, l0. auto.
  - destruct (_is_local_uri uri) eqn:Hu.
    + rewrite (local_uri_base _ _ _ Hp Hu).
      destruct version; [discriminate|].
      rewrite call_run in Hb. injection Hb as _ <-.
      exists [EvCopyTree parsed_uri dst_dir]. split; [|reflexivity].
      cbn [events log]. rewrite <- !app_assoc. reflexivity.
    + destruct (_GIT_URI_REGEX parsed_uri) eqn:Hg; [|discriminate].
      unfold _is_local_uri. rewrite Hg. cbn [negb].
      apply fetch_git_repo_ok in Hb as (l' & He).
      exists (git_setup parsed_uri dst_dir ++ l'). split; [|eauto].
      rewrite He. cbn [events log]. rewrite <- !app_assoc. reflexivity.
Qed.

(** C5: for a reference that parses, the fetcher asks for a temporary
    directory exactly when the flag is set or the base is of archive or
    git kind.  It then asks once, before anything else, puts nothing
    anywhere else, and when it returns the project is in that directory --
    the archive unpacked there, the repository set up and fetched there,
    or the local directory copied there -- and the path returned is that
    directory joined with the subdirectory.  Otherwise it calls nothing at
    all: whatever it returns is the absolute form of the base joined with
    the subdirectory, and it does return that path when no version is
    asked for, the reference is a local one and the path exists. *)
Theorem C5_tempdir_iff_forced_archive_or_git
    (W : world) (uri : string) (force_tempdir : bool) (version : option string)
    (s : state) (parsed_uri sub : string) :
  _parse_subdirectory uri = Ok (parsed_uri, sub) ->
  let r := _fetch_project W uri force_tempdir version s in
  if materializes_in_tempdir force_tempdir parsed_uri then
    let dst_dir := w_mkdtemp W None (List.length (events s)) in
    exists l,
      events (snd r) = events s ++ EvMkdtemp None dst_dir :: l /\
      Forall (fun ev => is_mkdtemp ev = false) l /\
      Forall (fun ev => forall d, fetch_target ev = Some d -> d = dst_dir) l /\
      forall wd,
        fst r = Ok wd ->
        materialized parsed_uri dst_dir l /\
        wd = posixpath.abspath (w_getcwd W) (posixpath.join dst_dir sub)
  else
    let res := posixpath.abspath (w_getcwd W) (posixpath.join parsed_uri sub) in
    snd r = s /\
    (forall wd, fst r = Ok wd -> wd = res) /\
    (version = None -> _is_local_uri uri = true -> w_exists W res = true ->
     fst r = Ok res).
Proof.
  intros Hp r.
  destruct (materializes_in_tempdir force_tempdir parsed_uri) eqn:Hm.
  - intros dst_dir.
    assert (Hl : exists l,
               events (snd r) = events s ++ EvMkdtemp None dst_dir :: l /\
               Forall (fun ev => is_mkdtemp ev = false /\
                                 forall d, fetch_target ev = Some d -> d = dst_dir) l).
    { subst r. unfold _fetch_project.
      rewrite (bind_ok _ _ s (parsed_uri, sub) s) by (unfold lift; now rewrite Hp).
      cbv zeta. change (fst (parsed_uri, sub)) with parsed_uri.
      change (snd (parsed_uri, sub)) with sub.
      rewrite materializes_in_tempdir_code, Hm.
      pose proof (mkdtemp_run W None s) as Hd. fold dst_dir in Hd.
      destruct (w_fault W _) eqn:Hf.
      - rewrite (bind_raise _ _ _ _ _ Hd). simpl. exists []. auto.
      - rewrite (bind_ok _ _ _ _ _ Hd).
        match goal with |- context [bind ?m ?k ?s1] =>
          assert (Hs : spec (fun ev => is_mkdtemp ev = false /\
                                       forall d, fetch_target ev = Some d -> d = dst_dir)
                            (fun _ => True) (bind m k))
        end.
        { unfold _unzip_repo, _fetch_zip_repo, _fetch_git_repo.
          repeat first
            [ spec_step
            | exact I
            | intros ?; exact I
            | match goal with
              | |- raises_only _ ?r => destruct r; exact I
              | |- _ /\ _ =>
                  split; [reflexivity|];
                  let d := fresh "d" in
                  let H := fresh "H" in
                  intros d H; cbn in H;
                  first [discriminate H | injection H as <-; reflexivity]
              end ]. }
        destruct (Hs (log (EvMkdtemp None dst_dir) s)) as [(l & E & F) _].
        exists l. rewrite E. simpl. rewrite <- app_assoc. split; [reflexivity | exact F]. }
    destruct Hl as (l & He & Hl).
    exists l. split; [exact He|].
    split; [eapply Forall_impl; [exact Hl|]; intros ev [H _]; exact H|].
    split; [eapply Forall_impl; [exact Hl|]; intros ev [_ H]; exact H|].
    intros wd Hwd.
    destruct r as [res s'] eqn:Hr. cbn [fst snd] in *. subst res.
    destruct (fetch_in_tempdir_ok W uri force_tempdir version s parsed_uri sub wd s'
                Hp Hm Hr) as (-> & l2 & He2 & Hmat).
    fold dst_dir in He2, Hmat. rewrite He in He2.
    apply app_inv_head in He2. injection He2 as ->.
    split; [exact Hmat | reflexivity].
  - intros res. subst r res.
    unfold _fetch_project.
    rewrite (bind_ok _ _ s (parsed_uri, sub) s) by (unfold lift; now rewrite Hp).
    cbv zeta. change (fst (parsed_uri, sub)) with parsed_uri.
    change (snd (parsed_uri, sub)) with sub.
    rewrite materializes_in_tempdir_code, Hm.
    unfold materializes_in_tempdir, reference_kind in Hm.
    destruct force_tempdir; [discriminate|]. simpl in Hm.
    destruct (_is_zip_uri parsed_uri) eqn:Hz; [discriminate|].
    destruct (_is_local_uri parsed_uri) eqn:Hl; [|discriminate].
    rewrite (bind_ok _ _ s parsed_uri s) by reflexivity.
    destruct (_is_local_uri uri) eqn:Hu.
    + destruct version.
      * rewrite (bind_raise _ _ s version_on_local s) by reflexivity. simpl.
        repeat split; intros; discriminate.
      * rewrite (bind_ok _ _ s tt s) by reflexivity.
        destruct (w_exists W _) eqn:He; simpl; repeat split; intros; congruence.
    + unfold _is_local_uri in Hl. apply negb_true_iff in Hl. rewrite Hl.
      erewrite bind_raise by reflexivity. simpl.
      repeat split; intros; discriminate.
Qed.





Lemma C5_tempdir_iff_forced_archive_or_git_witness :
  (snd (_fetch_project Scenario.plain "/tmp/proj#sub" false None Scenario.start)
   = Scenario.start /\
   fst (_fetch_project Scenario.plain "/tmp/proj#sub" false None Scenario.start)
   = Ok "/tmp/proj/sub") /\
  (exists l,
      events (snd (_fetch_project Scenario.plain "https://github.com/org/repo#sub" false
                                  None Scenario.start))
      = EvMkdtemp None "/tmp/tmpk3x9" :: l /\
      materialized "https://github.com/org/repo" "/tmp/tmpk3x9" l /\
      fst (_fetch_project Scenario.plain "https://github.com/org/repo#sub" false None
                          Scenario.start) = Ok "/tmp/tmpk3x9/sub").
Proof.
  split.
  - destruct (C5_tempdir_iff_forced_archive_or_git Scenario.plain "/tmp/proj#sub" false
                None Scenario.start "/tmp/proj" "sub" eq_refl) as (Hs & _ & Hr).
    split; [exact Hs | exact (Hr eq_refl eq_refl eq_refl)].
  - destruct (C5_tempdir_iff_forced_archive_or_git Scenario.plain
                "https://github.com/org/repo#sub" false None Scenario.start
                "https://github.com/org/repo" "sub" eq_refl) as (l & He & _ & _ & Hr).
    exists l. split; [exact He|].
    destruct (Hr "/tmp/tmpk3x9/sub" eq_refl) as [Hm _].
    split; [exact Hm | reflexivity].
Defined.

(** ** Fetching from git *)

Lemma existsb_eqb_In (x : string) (l : list string) :
  existsb (String.eqb x) l = true <-> In x l.
Proof.
  rewrite existsb_exists. split.
  - intros (y & Hy & E). apply String.eqb_eq in E. now subst.
  - intros H. exists x. split; [exact H | apply String.eqb_refl].
Qed.

(** C9, as amended: when no call fails, the fetcher initialises a
    repository at the destination, adds the source as remote [origin] and
    fetches; with a version it then checks that version out, and when git
    refuses raises an [ExecutionException] whose message ends with git's
    diagnostic; without a version, and when the remote has a branch
    [master], it makes a local branch [master] from [origin/master] and
    checks it out. *)
Theorem C9_fetch_git_repo (W : world) (uri dst_dir : string) (version : option string)
    (s : state) :
  no_faults W ->
  let r := _fetch_git_repo W uri version dst_dir s in
  match version with
  | Some v =>
      events (snd r) = events s ++ git_setup uri dst_dir ++ [EvGitCheckout v] /\
      match w_git_checkout W uri v with
      | None => fst r = Ok tt
      | Some diag =>
          fst r = Raise (checkout_failed v uri diag) /\
          exists prefix, checkout_failed v uri diag = ExecutionException (prefix +:+ diag)
      end
  | None =>
      In "master" (w_remote_refs W uri) ->
      events (snd r)
      = events s ++ git_setup uri dst_dir
        ++ [EvGitCreateHead "master" "origin/master"; EvGitCheckoutHead "master"] /\
      fst r = Ok tt
  end.
Proof.
  intros Hf r. subst r. unfold _fetch_git_repo.
  rewrite (bind_ok _ _ _ tt _ ltac:(rewrite call_run, Hf; reflexivity)).
  rewrite (bind_ok _ _ _ tt _ ltac:(rewrite call_run, Hf; reflexivity)).
  rewrite (bind_ok _ _ _ tt _ ltac:(rewrite call_run, Hf; reflexivity)).
  destruct version as [v|].
  - rewrite (bind_ok _ _ _ tt _ ltac:(rewrite call_run, Hf; reflexivity)).
    split.
    + destruct (w_git_checkout W uri v); simpl; rewrite <- !app_assoc; reflexivity.
    + destruct (w_git_checkout W uri v) as [diag|]; simpl; [|reflexivity].
      split; [reflexivity|]. unfold checkout_failed. eexists.
      rewrite <- !app_assoc_s. reflexivity.
  - intros Hm. apply existsb_eqb_In in Hm. rewrite Hm.
    rewrite (bind_ok _ _ _ tt _ ltac:(rewrite call_run, Hf; reflexivity)).
    rewrite call_run, Hf. simpl. rewrite <- !app_assoc. split; reflexivity.
Qed.

Lemma C9_fetch_git_repo_witness :
  no_faults Scenario.plain /\
  In "master" (w_remote_refs Scenario.plain "https://github.com/org/repo") /\
  events (snd (_fetch_git_repo Scenario.plain "https://github.com/org/repo" None
                               "/tmp/tmpk3x9" Scenario.start))
  = events Scenario.start ++ git_setup "https://github.com/org/repo" "/tmp/tmpk3x9"
    ++ [EvGitCreateHead "master" "origin/master"; EvGitCheckoutHead "master"] /\
  fst (_fetch_git_repo Scenario.plain "https://github.com/org/repo" None
                       "/tmp/tmpk3x9" Scenario.start) = Ok tt.
Proof.
  assert (Hf : no_faults Scenario.plain) by (intros ev; reflexivity).
  assert (Hm : In "master" (w_remote_refs Scenario.plain "https://github.com/org/repo"))
    by (simpl; auto).
  split; [exact Hf|]. split; [exact Hm|].
  exact (C9_fetch_git_repo Scenario.plain "https://github.com/org/repo" "/tmp/tmpk3x9"
           None Scenario.start Hf Hm).
Defined.

(** C9 as it is stated fails: the branch is [master] whatever the remote
    calls its default branch.  Here the default is [main], and [master]
    is what gets checked out. *)
Lemma C9_counterexample :
  ~ (forall (W : world) (uri dst_dir : string) (s : state),
        no_faults W ->
        In (w_remote_default_branch W uri) (w_remote_refs W uri) ->
        checks_out_remote_branch
          (w_remote_default_branch W uri)
          (events (snd (_fetch_git_repo W uri None dst_dir s)))).
Proof.
  intros H.
  specialize (H Scenario.plain "https://github.com/org/repo" "/tmp/tmpk3x9" Scenario.start).
  destruct H as (head & Hc & _).
  - intros ev. reflexivity.
  - simpl. auto.
  - cbv in Hc. intuition discriminate.
Qed.

(** ** The conda environment *)

Lemma app_nil_r_s (a : string) : a +:+ "" = a.
Proof. induction a as [|x a IH]; [reflexivity|]. rewrite app_cons. now rewrite IH. Qed.

Lemma exec_cmd_run W cmd t s :
  exec_cmd W cmd t s =
  (match w_exec_cmd W cmd with
   | ExecEnvironmentError msg => Raise (EnvironmentError msg)
   | ExecExit code out err =>
       if t && negb (code =? 0)
       then Raise (Collaborator (Foreign "ShellCommandException"
                                         ("Non-zero exit code: " +:+ Py.join " " cmd)))
       else Ok (code, out, err)
   end, log (EvExecCmd cmd) s).
Proof.
  unfold exec_cmd, bind, emit.
  destruct (w_exec_cmd W cmd); [reflexivity|].
  destruct (t && negb (exit_code =? 0)); reflexivity.
Qed.



(** The other side of the reuse: with the same listing but a name that is
    not in it, [conda create] is run. *)
Example conda_env_created_when_absent :
  _get_or_create_conda_env Scenario.plain None None Scenario.start
  = (Ok "mlflow-da39a3ee5e6b4b0d3255bfef95601890afd80709",
     {| events := [EvExecCmd ["conda"; "--help"];
                   EvExecCmd ["conda"; "env"; "list"; "--json"];
                   EvExecCmd ["conda"; "create"; "-n";
                              "mlflow-da39a3ee5e6b4b0d3255bfef95601890afd80709";
                              "python"]];
        runs := ∅ |}) /\
  is_env_creation
    (EvExecCmd ["conda"; "create"; "-n";
                "mlflow-da39a3ee5e6b4b0d3255bfef95601890afd80709"; "python"]) = true.
Proof. split; reflexivity. Qed.

(** ** Reporting the end of a run *)

Lemma get_run_run W id s :
  MlflowClient_get_run W id s =
  (match w_fault W (EvGetRun id) with
   | Some e => Raise (Collaborator e)
   | None =>
       match runs s !! id with
       | Some r => Ok {| run_id := id; experiment_id := rec_experiment_id r;
                         status := rec_status r |}
       | None => Raise (run_not_found id)
       end
   end, log (EvGetRun id) s).
Proof.
  unfold MlflowClient_get_run. unfold bind at 1. rewrite call_run.
  destruct (w_fault W (EvGetRun id)); [reflexivity|].
  unfold bind, get_runs. simpl. destruct (runs s !! id); reflexivity.
Qed.

Lemma set_terminated_run W id st s :
  MlflowClient_set_terminated W id st s =
  match w_fault W (EvSetTerminated id st) with
  | Some e => (Raise (Collaborator e), log (EvSetTerminated id st) s)
  | None =>
      match runs s !! id with
      | Some r =>
          (Ok tt, set_runs (<[id := {| rec_experiment_id := rec_experiment_id r;
                                       rec_status := st |}]> (runs s))
                           (log (EvSetTerminated id st) s))
      | None => (Raise (run_not_found id), log (EvSetTerminated id st) s)
      end
  end.
Proof.
  unfold MlflowClient_set_terminated. unfold bind at 1. rewrite call_run.
  destruct (w_fault W (EvSetTerminated id st)); [reflexivity|].
  unfold bind, get_runs. simpl. destruct (runs s !! id); reflexivity.
Qed.

Lemma maybe_run W r st s :
  _maybe_set_run_terminated W (Some r) st s =
  match w_fault W (EvGetRun (run_id r)) with
  | Some e => (Raise (Collaborator e), log (EvGetRun (run_id r)) s)
  | None =>
      match runs s !! run_id r with
      | None => (Raise (run_not_found (run_id r)), log (EvGetRun (run_id r)) s)
      | Some rec =>
          MlflowClient_set_terminated W (run_id r) st (log (EvGetRun (run_id r)) s)
      end
  end.
Proof.
  unfold _maybe_set_run_terminated. unfold bind. rewrite get_run_run.
  destruct (w_fault W _); [reflexivity|].
  destruct (runs s !! run_id r); reflexivity.
Qed.

Lemma wait_run sr s :
  SubmittedRun_wait sr s =
  (match fst (sr_wait sr (runs s)) with
   | WaitReturns ok => Ok ok
   | WaitInterrupted => Raise KeyboardInterrupt
   | WaitRaises e => Raise (Collaborator e)
   end,
   set_runs (snd (sr_wait sr (runs s))) (log (EvWait (sr_pid sr)) s)).
Proof.
  unfold SubmittedRun_wait, bind, emit, get_runs, put_runs. simpl.
  destruct (fst (sr_wait sr (runs s))); reflexivity.
Qed.

Lemma cancel_run sr s :
  SubmittedRun_cancel sr s =
  (Ok tt, set_runs (sr_cancel sr (runs s)) (log (EvCancel (sr_pid sr)) s)).
Proof. reflexivity. Qed.

Lemma except_KI_pass {A} (body : M A) (handler : M unit) s r s' :
  body s = (r, s') -> r <> Raise KeyboardInterrupt ->
  except_KeyboardInterrupt body handler s = (r, s').
Proof.
  intros E H. unfold except_KeyboardInterrupt. rewrite E.
  destruct r as [a|[]]; try reflexivity. congruence.
Qed.

Lemma except_KI_catch {A} (body : M A) (handler : M unit) s s' :
  body s = (Raise KeyboardInterrupt, s') ->
  except_KeyboardInterrupt body handler s =
  match handler s' with
  | (Ok _, s'') => (Raise KeyboardInterrupt, s'')
  | (Raise e, s'') => (Raise e, s'')
  end.
Proof. intros E. unfold except_KeyboardInterrupt. rewrite E. reflexivity. Qed.

(** The re-fetched status is a name, which [is_terminated] never finds
    among the terminal codes: when no call fails and the run is known,
    the write is made whatever the record holds. *)
Lemma maybe_no_faults W r st s rec :
  no_faults W ->
  runs s !! run_id r = Some rec ->
  _maybe_set_run_terminated W (Some r) st s
  = (Ok tt,
     {| events := events s ++ report_calls (run_id r) st;
        runs := <[run_id r := reported st rec]> (runs s) |}).
Proof.
  intros Hf Hr. rewrite maybe_run, Hf, Hr. unfold report_calls, reported.
  rewrite set_terminated_run, Hf. cbn [runs log]. rewrite Hr.
  unfold set_runs, log. cbn [events runs]. rewrite <- app_assoc. reflexivity.
Qed.

(** C1: the guard is there and never holds.  [RunStatus.is_terminated]
    looks for the status among the enum's terminal codes, and what it is
    given is the status name the tracking client returned.  On a run whose
    user code has marked it FINISHED before the process exits with a
    failure, [_wait_for] finds the record terminal and still writes FAILED
    over it; and asking twice to end the same run sends two
    [set_terminated] calls, the second over the terminal status the first
    one wrote. *)
Theorem C1_terminal_status_overwritten :
  let waited := records_at_report Scenario.self_reporting (runs Scenario.running) in
  let out := _wait_for Scenario.plain Scenario.self_reporting Scenario.running in
  let twice :=
    for_each ["FAILED"; "FINISHED"]
      (_maybe_set_run_terminated Scenario.plain
         (Some {| run_id := "run-1"; experiment_id := "0"; status := "RUNNING" |}))
      Scenario.running in
  (terminal_in waited "run-1" = true /\
   events (snd out)
   = [EvGetRun "run-1"; EvWait 7; EvGetRun "run-1"; EvSetTerminated "run-1" "FAILED"] /\
   runs (snd out) !! "run-1"
   = Some {| rec_experiment_id := "0"; rec_status := "FAILED" |}) /\
  (reports (events (snd twice))
   = [EvSetTerminated "run-1" "FAILED"; EvSetTerminated "run-1" "FINISHED"] /\
   runs (snd twice) !! "run-1"
   = Some {| rec_experiment_id := "0"; rec_status := "FINISHED" |}).
Proof. vm_compute. repeat split. Qed.

(** The run that did not report by itself: one write, FINISHED, after
    the re-fetch. *)
Example wait_for_success :
  events (snd (_wait_for Scenario.plain (LocalSubmittedRun Scenario.plain "run-1" 7)
                         Scenario.running))
  = [EvGetRun "run-1"; EvWait 7; EvGetRun "run-1"; EvSetTerminated "run-1" "FINISHED"] /\
  runs (snd (_wait_for Scenario.plain (LocalSubmittedRun Scenario.plain "run-1" 7)
                       Scenario.running)) !! "run-1"
  = Some {| rec_experiment_id := "0"; rec_status := "FINISHED" |}.
Proof. vm_compute. repeat split. Qed.

(** ** [_run] *)

Lemma for_each_call_run {A} W (f : A -> event) (l : list A) s r s' :
  for_each l (fun x => call W (f x)) s = (r, s') ->
  runs s' = runs s /\
  ((r = Ok tt /\ events s' = events s ++ List.map f l) \/
   (exists e l', r = Raise (Collaborator e) /\ events s' = events s ++ l')).
Proof.
  revert s. induction l as [|x l IH]; intros s H.
  - injection H as <- <-. split; [reflexivity|]. left. simpl. rewrite app_nil_r. auto.
  - cbn [for_each] in H. apply bind_inv in H as [(e & Hc & ->)|(a & s1 & Hc & Hk)];
      rewrite call_run in Hc.
    + destruct (w_fault W (f x)); [|discriminate]. injection Hc as <- <-.
      split; [reflexivity|]. right. eauto.
    + destruct (w_fault W (f x)); [discriminate|]. injection Hc as <- <-.
      destruct (IH _ Hk) as [Hr He]. split; [rewrite Hr; reflexivity|].
      destruct He as [[-> He]|(e & l' & -> & He)].
      * left. split; [reflexivity|]. rewrite He. simpl. rewrite <- app_assoc. reflexivity.
      * right. exists e, (f x :: l'). split; [reflexivity|]. rewrite He. simpl.
        rewrite <- app_assoc. reflexivity.
Qed.

Lemma _fetch_project_spec W uri f v :
  spec (fun ev => is_mkdtemp ev = true \/ is_materialize ev = true) not_unsupported
       (_fetch_project W uri f v).
Proof.
  unfold _fetch_project, _unzip_repo.
  repeat first
    [ spec_step
    | match goal with
      | |- spec _ _ (mkdtemp _ _) =>
          eapply spec_weaken; [| |apply mkdtemp_spec]; [intros; auto | auto]
      | |- spec _ _ (_fetch_zip_repo _ _) =>
          eapply spec_weaken; [| |apply _fetch_zip_repo_spec]; [intros; auto | auto]
      | |- spec _ _ (_fetch_git_repo _ _ _ _) =>
          eapply spec_weaken; [| |apply _fetch_git_repo_spec]; [intros; auto | auto]
      | |- _ \/ _ => right; reflexivity
      | |- raises_only _ (_parse_subdirectory ?u) =>
          unfold _parse_subdirectory;
          destruct (Py.truthy _ && Py.contains _ _); simpl; [differs | exact I]
      end
    | spec_side ].
Qed.

Lemma create_run_run W exp tags s :
  MlflowClient_create_run W exp tags s =
  match w_fault W (EvCreateRun exp tags) with
  | Some e => (Raise (Collaborator e), log (EvCreateRun exp tags) s)
  | None =>
      let id := w_new_run_id W (List.length (events s)) in
      (Ok {| run_id := id; experiment_id := exp; status := "RUNNING" |},
       set_runs (<[id := {| rec_experiment_id := exp; rec_status := "RUNNING" |}]> (runs s))
                (log (EvCreateRun exp tags) s))
  end.
Proof.
  unfold MlflowClient_create_run. unfold bind at 1. unfold get_events. cbv iota beta.
  unfold bind at 1. rewrite call_run.
  destruct (w_fault W (EvCreateRun exp tags)); reflexivity.
Qed.

Ltac early := left; eexists; split; [reflexivity | differs].

(** [_run] either fails early, with an exception of its first half, or
    reaches the test on the backend. *)
Lemma run_inv W uri exp entry_point version parameters backend cfg use_conda storage
      synchronous id s r s' :
  _run W uri exp entry_point version parameters backend cfg use_conda storage
       synchronous id s = (r, s') ->
  (exists e, r = Raise e /\ not_unsupported e) \/
  (exists s2 l work_dir project active_run,
      reached W uri exp entry_point version (default [] parameters) backend id
              s s2 l work_dir project active_run /\
      run_dispatch W uri exp entry_point (default [] parameters) backend use_conda
                   storage synchronous work_dir project active_run s2 = (r, s')).
Proof.
  unfold _run. cbv zeta. intros H.
  apply bind_inv in H as [(e & Hf & ->)|(work_dir & s1 & Hf & H)].
  { left. eexists. split; [reflexivity|].
    exact (spec_raises _ _ _ _ _ _ (_fetch_project_spec W uri false version) Hf). }
  apply bind_inv in H as [(e & Hc & ->)|([] & sL & Hc & H)]; [discriminate|].
  injection Hc as <-.
  apply bind_inv in H as [(e & Hc & ->)|(project & ? & Hc & H)].
  { destruct (w_load_project W work_dir); [|discriminate]. injection Hc as <- _. early. }
  destruct (w_load_project W work_dir) as [|p] eqn:Hload; [discriminate|].
  injection Hc as -> <-.
  apply bind_inv in H as [(e & Hc & ->)|([] & ? & Hc & H)].
  { unfold lift, _validate_execution_environment in Hc.
    destruct (_ && _); [|discriminate]. injection Hc as <- _. early. }
  unfold lift in Hc.
  destruct (_validate_execution_environment project backend) as [[]|] eqn:Henv;
    [|discriminate].
  injection Hc as <-.
  apply bind_inv in H as [(e & Hc & ->)|(epo & ? & Hc & H)].
  { destruct (get_entry_point project entry_point); [|discriminate].
    injection Hc as <- _. early. }
  destruct (get_entry_point project entry_point) as [|epo'] eqn:Hep; [discriminate|].
  injection Hc as -> <-.
  apply bind_inv in H as [(e & Hc & ->)|([] & ? & Hc & H)].
  { destruct (_validate_parameters epo _); [|discriminate]. injection Hc as <- _. early. }
  destruct (_validate_parameters epo (default [] parameters)) eqn:Hval; [discriminate|].
  injection Hc as <-.
  apply bind_inv in H as [(e & Hc & ->)|(active_run & sA & Hc & H)].
  { left. eexists. split; [reflexivity|].
    destruct (Py.truthy_opt id).
    - rewrite get_run_run in Hc.
      destruct (w_fault W _); [injection Hc as <- _; differs|].
      destruct (runs _ !! _); [discriminate|]. injection Hc as <- _. differs.
    - unfold _create_run in Hc. rewrite create_run_run in Hc.
      destruct (w_fault W _); [|discriminate]. injection Hc as <- _. differs. }
  assert (Hrun : exists lA, events sA
                            = events (log (EvLoadProject work_dir) s1) ++ lA /\
            runs sA !! run_id active_run
            = Some {| rec_experiment_id := experiment_id active_run;
                      rec_status := status active_run |} /\
            if Py.truthy_opt id then id = Some (run_id active_run)
            else exists tags,
                lA = [EvCreateRun exp tags] /\
                active_run
                = {| run_id := w_new_run_id W
                                 (List.length (events (log (EvLoadProject work_dir) s1)));
                     experiment_id := exp;
                     status := "RUNNING" |}).
  { destruct (Py.truthy_opt id) eqn:Hid.
    - rewrite get_run_run in Hc.
      destruct (w_fault W _); [discriminate|].
      cbn [runs log] in Hc.
      destruct (runs s1 !! default "" id) eqn:Hrec; [|discriminate].
      injection Hc as <- <-.
      eexists. split; [reflexivity|].
      split; [cbn; rewrite Hrec; destruct r0; reflexivity|].
      destruct id as [[|c i]|]; try discriminate. reflexivity.
    - unfold _create_run in Hc. rewrite create_run_run in Hc.
      destruct (w_fault W _); [discriminate|]. injection Hc as <- <-.
      eexists. split; [reflexivity|]. split; [apply lookup_insert_eq|].
      eexists. split; reflexivity. }
  destruct Hrun as (lA & HeA & HrecA & Hrun).
  apply bind_inv in H as [(e & Hc' & ->)|(epo2 & ? & Hc' & H)].
  { discriminate. }
  injection Hc' as <- <-.
  apply bind_inv in H as [(e & Hc' & ->)|([final extra] & ? & Hc' & H)].
  { destruct (compute_parameters epo _ None); [|discriminate]. injection Hc' as <- _. early. }
  destruct (compute_parameters epo (default [] parameters) None) as [|pp] eqn:Hcp;
    [discriminate|].
  injection Hc' as -> <-. cbn [fst snd] in H.
  apply bind_inv in H as [(e & Hc' & ->)|([] & sP & Hc' & H)].
  { apply (for_each_call_run W (fun kv => EvLogParam (run_id active_run) kv.1 kv.2))
      in Hc' as [_ [[? _]|(e' & l' & He' & _)]]; [discriminate|].
    injection He' as ->. early. }
  apply (for_each_call_run W (fun kv => EvLogParam (run_id active_run) kv.1 kv.2))
    in Hc' as [HrP [[_ HeP]|(e' & l' & He' & _)]]; [|discriminate].
  apply bind_inv in H as [(e & Hc' & ->)|([] & sT & Hc' & H)].
  { destruct (_get_git_repo_url W work_dir); [|discriminate].
    apply (for_each_call_run W (fun tag => EvSetTag (run_id active_run) tag _))
      in Hc' as [_ [[? _]|(e' & l' & He' & _)]]; [discriminate|].
    injection He' as ->. early. }
  assert (HeT : exists lT, events sT = events sP ++ lT /\
                           Forall (fun ev => is_set_tag ev = true) lT /\
                           runs sT = runs sP).
  { destruct (_get_git_repo_url W work_dir).
    - apply (for_each_call_run W (fun tag => EvSetTag (run_id active_run) tag _))
        in Hc' as [Hr [[_ He]|(e' & l' & He' & _)]]; [|discriminate].
      eexists. split; [exact He|]. split; [repeat constructor | exact Hr].
    - injection Hc' as <-. exists []. rewrite app_nil_r. auto. }
  destruct HeT as (lT & HeT & HfT & HrT).
  apply bind_inv in H as [(e & Hc'' & ->)|(valid & sV & Hc'' & H)].
  { destruct version; [|discriminate]. simpl in Hc''.
    destruct (w_is_branch W work_dir _); [|discriminate]. injection Hc'' as <- _. early. }
  assert (sV = sT) as ->.
  { destruct version; simpl in Hc''; [destruct (w_is_branch W work_dir _)|];
      try discriminate; injection Hc'' as _ <-; reflexivity. }
  clear Hc''.
  apply bind_inv in H as [(e & Hc'' & ->)|([] & sB & Hc'' & H)].
  { destruct valid; [|discriminate].
    apply (for_each_call_run W (fun tag => EvSetTag (run_id active_run) tag _))
      in Hc'' as [_ [[? _]|(e' & l' & He' & _)]]; [discriminate|].
    injection He' as ->. early. }
  assert (HeB : exists lB, events sB = events sT ++ lB /\
                           Forall (fun ev => is_set_tag ev = true) lB /\
                           runs sB = runs sT).
  { destruct valid.
    - apply (for_each_call_run W (fun tag => EvSetTag (run_id active_run) tag _))
        in Hc'' as [Hr [[_ He]|(e' & l' & He' & _)]]; [|discriminate].
      eexists. split; [exact He|]. split; [repeat constructor | exact Hr].
    - injection Hc'' as <-. exists []. rewrite app_nil_r. auto. }
  destruct HeB as (lB & HeB & HfB & HrB).
  right.
  destruct (spec_events _ _ _ _ _ _ (_fetch_project_spec W uri false version) Hf)
    as (l0 & He0 & _).
  exists sB, ((l0 ++ EvLoadProject work_dir :: lA)
              ++ List.map (fun kv => EvLogParam (run_id active_run) kv.1 kv.2)
                          (final ++ extra)
              ++ (lT ++ lB)), work_dir, project, active_run.
  split; [|exact H].
  constructor; eauto.
  - rewrite HeB, HeT, HeP, HeA. simpl. rewrite He0. rewrite <- !app_assoc. reflexivity.
  - exists epo, final, extra, (l0 ++ EvLoadProject work_dir :: lA), (lT ++ lB).
    repeat split; auto.
    + apply Forall_app; auto.
    + destruct (Py.truthy_opt id); [exact Hrun|].
      destruct Hrun as (tags & -> & Hrun). exists tags, (l0 ++ [EvLoadProject work_dir]).
      split; [rewrite <- app_assoc; reflexivity|].
      rewrite Hrun. cbn [events log]. rewrite He0, <- app_assoc. reflexivity.
  - rewrite HrB, HrT, HrP. exact HrecA.
Qed.

(** C2: when the project has been fetched and loaded and validation
    fails -- docker on the Databricks backend, or parameters the entry
    point refuses -- [_run] raises, and nothing it has called by then is
    a [create_run]. *)
Theorem C2_validation_before_create_run
    (W : world) (uri exp_id entry_point : string) (version : option string)
    (parameters : option dict) (backend backend_config : option string)
    (use_conda : bool) (storage_dir : option string) (synchronous : bool)
    (id : option string) (s s1 : state) (work_dir : string) (project : Project) :
  _fetch_project W uri false version s = (Ok work_dir, s1) ->
  w_load_project W work_dir = inr project ->
  validation_fails project backend entry_point (default [] parameters) ->
  exists e s' l,
    _run W uri exp_id entry_point version parameters backend backend_config use_conda
         storage_dir synchronous id s = (Raise e, s') /\
    events s' = events s ++ l /\
    Forall (fun ev => is_create_run ev = false) l.
Proof.
  intros Hf Hl Hv.
  destruct (spec_events _ _ _ _ _ _ (_fetch_project_spec W uri false version) Hf)
    as (l0 & He0 & Hl0).
  assert (Hev : events (log (EvLoadProject work_dir) s1)
                = events s ++ (l0 ++ [EvLoadProject work_dir]) /\
                Forall (fun ev => is_create_run ev = false)
                       (l0 ++ [EvLoadProject work_dir])).
  { simpl. rewrite He0, <- app_assoc. split; [reflexivity|].
    apply Forall_app. split; [|repeat constructor].
    eapply Forall_impl; [exact Hl0|]. intros [] [H|H]; simpl in *; congruence. }
  destruct Hev as [Hev Hnc].
  unfold _run. cbv zeta.
  rewrite (bind_ok _ _ _ _ _ Hf).
  rewrite (bind_ok _ _ _ tt (log (EvLoadProject work_dir) s1)) by reflexivity.
  rewrite Hl.
  rewrite (bind_ok _ _ _ project (log (EvLoadProject work_dir) s1)) by reflexivity.
  destruct (_validate_execution_environment project backend) as [[]|e] eqn:Henv.
  - destruct Hv as [Hv|(ep & e & Hep & Hval)]; [congruence|].
    rewrite (bind_ok _ _ _ tt (log (EvLoadProject work_dir) s1)) by reflexivity.
    rewrite Hep.
    rewrite (bind_ok _ _ _ ep (log (EvLoadProject work_dir) s1)) by reflexivity.
    rewrite Hval.
    erewrite bind_raise by reflexivity. eauto 6.
  - erewrite bind_raise by reflexivity. eauto 6.
Qed.

(** C10: with a backend that is neither [local] nor [databricks],
    [_run] always ends in an exception; and when that exception is the
    one about the unsupported backend, the project has been fetched and
    loaded, validation has passed, the run has been created (unless a run
    id was given) and every computed parameter has been logged against
    it -- against the id the tracking service gave out at the
    [create_run] call, under which it holds the record of the run in the
    experiment asked for: the backend is looked at last. *)
Theorem C10_unsupported_backend_raised_late
    (W : world) (uri exp_id entry_point : string) (version : option string)
    (parameters : option dict) (backend : string) (backend_config : option string)
    (use_conda : bool) (storage_dir : option string) (synchronous : bool)
    (id : option string) (s : state) :
  backend <> "local" -> backend <> "databricks" ->
  let out := _run W uri exp_id entry_point version parameters (Some backend)
                  backend_config use_conda storage_dir synchronous id s in
  (exists e, fst out = Raise e) /\
  (fst out = Raise (unsupported_backend backend) ->
   exists l work_dir project active_run,
     reached W uri exp_id entry_point version (default [] parameters) (Some backend) id
             s (snd out) l work_dir project active_run).
Proof.
  intros Hl Hd out. subst out.
  destruct (_run _ _ _ _ _ _ _ _ _ _ _ _ s) as [r s'] eqn:E. cbn [fst snd].
  apply run_inv in E as [(e & -> & Hn)|(s2 & l & wd & p & ar & Hr & Hdis)].
  - split; [eauto|]. intros [= ->]. exfalso. exact (Hn backend eq_refl).
  - unfold run_dispatch, backend_is in Hdis.
    apply String.eqb_neq in Hl, Hd. rewrite Hl, Hd in Hdis. simpl in Hdis.
    injection Hdis as <- <-. split; [eauto|]. intros _. eauto.
Qed.

Lemma entry_point_command_inv W project entry_point parameters storage_dir s epc s3 :
  _get_entry_point_command W project entry_point parameters storage_dir s = (Ok epc, s3) ->
  exists ep dir command,
    get_entry_point project entry_point = inr ep /\
    compute_command ep parameters dir = inr command /\
    epc = [command].
Proof.
  unfold _get_entry_point_command. intros H.
  apply bind_inv in H as [(e & _ & [=])|(d & ? & _ & H)].
  apply bind_inv in H as [(e & _ & [=])|(ep & ? & Hep & H)].
  destruct (get_entry_point project entry_point) as [|ep'] eqn:E; [discriminate|].
  injection Hep as -> _.
  apply bind_inv in H as [(e & _ & [=])|(c & ? & Hc & H)].
  destruct (compute_command ep parameters d) as [|c'] eqn:Ec; [discriminate|].
  injection Hc as -> _.
  injection H as <- _. eauto 6.
Qed.

(** The docker command always starts with [docker run --rm]. *)
Lemma docker_command_head W image active_run :
  exists rest, _get_docker_command W image active_run
               = "docker" :: "run" :: "--rm" :: rest.
Proof.
  unfold _get_docker_command. cbv zeta.
  destruct (w_tracking_is_local_uri W (w_tracking_uri W)); cbv iota beta;
    eexists; cbn [app]; reflexivity.
Qed.

Lemma join_cons (sep x y : string) (l : list string) :
  Py.join sep (x :: y :: l) = x +:+ sep +:+ Py.join sep (y :: l).
Proof. reflexivity. Qed.

(** The environment [_get_or_create_conda_env] returns is the one
    [_get_conda_env_name] names. *)
Lemma conda_env_inv W conda_env_path env_id s n s' :
  _get_or_create_conda_env W conda_env_path env_id s = (Ok n, s') ->
  _get_conda_env_name W conda_env_path env_id = Ok n.
Proof.
  unfold _get_or_create_conda_env. cbv zeta. intros H.
  apply bind_inv in H as [(e & _ & [=])|(? & ? & _ & H)].
  apply bind_inv in H as [(e & _ & [=])|(? & ? & _ & H)].
  apply bind_inv in H as [(e & _ & [=])|(? & ? & _ & H)].
  apply bind_inv in H as [(e & _ & [=])|(nm & ? & Hn & H)].
  unfold lift in Hn. injection Hn as Hn _.
  apply bind_inv in H as [(e & _ & [=])|(? & ? & _ & H)].
  injection H as <- _. exact Hn.
Qed.

Lemma run_entry_point_inv W command work_dir exp_id id s sr s' :
  _run_entry_point W command work_dir exp_id id s = (Ok sr, s') ->
  events s' = events s ++ [EvPopen (launch_args W command) (Some work_dir)
                                   (_get_run_env_vars W id exp_id) false].
Proof.
  unfold _run_entry_point, launch_args. cbv zeta. intros H.
  apply bind_inv in H as [(e & _ & [=])|(pid & s1 & Hp & H)].
  injection H as _ <-.
  destruct (negb (String.eqb (w_os_name W) "nt"));
    unfold Popen in Hp;
    (apply bind_inv in Hp as [(e & _ & [=])|(evs & ? & Hg & Hp)]);
    injection Hg as <- <-;
    (apply bind_inv in Hp as [(e & _ & [=])|([] & ? & Hc & Hp)]);
    injection Hp as _ <-; rewrite call_run in Hc; injection Hc as _ <-; reflexivity.
Qed.

(** C8: in a synchronous local run that returns, the last call starts
    the shell on one command string, in the working directory and with
    the variables of the run.  The string is made of the fragments of the
    environment followed by the command the entry point computed.  With a
    conda environment the activation line comes first and the two are
    chained with [" && "]: [activate && entry command].  For a docker
    project the fragments of the docker command and the entry command are
    joined by single spaces: [docker run --rm ... entry command].  With no
    environment the entry command stands alone. *)
Theorem C8_command_separator
    (W : world) (uri exp_id entry_point : string) (version : option string)
    (parameters : option dict) (backend backend_config : option string)
    (use_conda : bool) (storage_dir : option string) (id : option string)
    (s s' : state) (sr : SubmittedRun) :
  backend = None \/ backend = Some "local" ->
  _run W uri exp_id entry_point version parameters backend backend_config use_conda
       storage_dir true id s = (Ok sr, s') ->
  exists work_dir project active_run l0 ep dir entry_command command,
    w_load_project W work_dir = inr project /\
    get_entry_point project entry_point = inr ep /\
    compute_command ep (default [] parameters) dir = inr entry_command /\
    events s' = l0 ++ [EvPopen (launch_args W command) (Some work_dir)
                               (_get_run_env_vars W (run_id active_run) exp_id) false] /\
    if docker_env_truthy project then
      exists image rest,
        _get_docker_command W image active_run ++ [entry_command]
        = "docker" :: "run" :: "--rm" :: rest /\
        command
        = Py.join " " (_get_docker_command W image active_run ++ [entry_command]) /\
        command = "docker run --rm " +:+ Py.join " " rest
    else if use_conda then
      exists conda_env_name activate,
        _get_conda_env_name W (conda_env_path project) None = Ok conda_env_name /\
        _get_conda_command W conda_env_name = [activate] /\
        command = Py.join " && " [activate; entry_command] /\
        command = activate +:+ " && " +:+ entry_command
    else
      command = Py.join " " [entry_command] /\ command = entry_command.
Proof.
  intros Hb H.
  apply run_inv in H as [(e & [=] & _)|(s2 & l & wd & p & ar & Hr & Hdis)].
  assert (Hbk : backend_is backend "databricks" = false /\
                backend_is backend "local" || negb (is_Some_b backend) = true)
    by (destruct Hb as [->| ->]; split; reflexivity).
  destruct Hbk as [Hb1 Hb2].
  unfold run_dispatch in Hdis. rewrite Hb1, Hb2 in Hdis. cbv zeta in Hdis.
  apply bind_inv in Hdis as [(e & _ & [=])|([fragments sep] & s3 & Hcs & Hdis)].
  cbn [fst snd] in Hdis.
  apply bind_inv in Hdis as [(e & _ & [=])|(epc & s4 & Hepc & Hdis)].
  apply entry_point_command_inv in Hepc as (ep & dir & entry_command & Hep & Hcmd & ->).
  apply run_entry_point_inv in Hdis.
  exists wd, p, ar, (events s4), ep, dir, entry_command,
         (Py.join sep (fragments ++ [entry_command])).
  split; [exact (reached_load _ _ _ _ _ _ _ _ _ _ _ _ _ _ Hr)|].
  split; [exact Hep|]. split; [exact Hcmd|]. split; [exact Hdis|].
  destruct (docker_env_truthy p).
  - apply bind_inv in Hcs as [(e & _ & [=])|([] & ? & _ & Hcs)].
    apply bind_inv in Hcs as [(e & _ & [=])|([] & ? & _ & Hcs)].
    apply bind_inv in Hcs as [(e & _ & [=])|([] & ? & _ & Hcs)].
    apply bind_inv in Hcs as [(e & _ & [=])|(image & ? & _ & Hcs)].
    injection Hcs as <- <- _.
    destruct (docker_command_head W image ar) as (rest & Hd).
    exists image, (rest ++ [entry_command]).
    split; [rewrite Hd; reflexivity|]. split; [reflexivity|].
    rewrite Hd. cbn [app]. rewrite !join_cons.
    destruct rest; reflexivity.
  - destruct use_conda.
    + apply bind_inv in Hcs as [(e & _ & [=])|([] & ? & _ & Hcs)].
      apply bind_inv in Hcs as [(e & _ & [=])|(conda_env_name & ? & Hn & Hcs)].
      apply conda_env_inv in Hn.
      injection Hcs as <- <- _.
      unfold _get_conda_command.
      destruct (negb (String.eqb (w_os_name W) "nt")); do 2 eexists;
        (split; [exact Hn|]); repeat split; reflexivity.
    + injection Hcs as <- <- _. split; reflexivity.
Qed.

(** The command of a docker project, as the shell gets it. *)
Example command_with_docker :
  List.last (events (snd (_run Cases.docker_checkout "/tmp/proj#sub" "0" "main" None
                               (Some [("alpha", "0.5")]) None None true None true None
                               Scenario.start))) (EvWait 0)
  = EvPopen
      (ArgList ["bash"; "-c";
                "docker run --rm -e MLFLOW_RUN_ID=run-1"
                +:+ " -e MLFLOW_TRACKING_URI=http://localhost:5000"
                +:+ " -e MLFLOW_EXPERIMENT_ID=0 mlflow-tutorial-0123456"
                +:+ " python train.py --alpha 0.5"])
      (Some "/tmp/proj/sub")
      [("MLFLOW_RUN_ID", "run-1"); ("MLFLOW_TRACKING_URI", "http://localhost:5000");
       ("MLFLOW_EXPERIMENT_ID", "0")] false.
Proof. vm_compute. reflexivity. Qed.

(** The scenario of the spec: [alpha] is declared a float and the caller
    passes ["bad"]. *)
Lemma C2_validation_before_create_run_witness :
  exists e s' l,
    _run Scenario.tutorial "/tmp/proj#sub" "0" "main" None (Some [("alpha", "bad")])
         None None true None true None Scenario.start = (Raise e, s') /\
    events s' = events Scenario.start ++ l /\
    Forall (fun ev => is_create_run ev = false) l.
Proof.
  apply (C2_validation_before_create_run Scenario.tutorial "/tmp/proj#sub" "0" "main"
           None (Some [("alpha", "bad")]) None None true None true None
           Scenario.start Scenario.start "/tmp/proj/sub" Scenario.tutorial_project).
  - reflexivity.
  - reflexivity.
  - right. exists Scenario.main. eexists. split; reflexivity.
Defined.

Lemma C8_command_separator_witness :
  exists sr s',
    _run Scenario.tutorial "/tmp/proj#sub" "0" "main" None (Some [("alpha", "0.5")])
         None None true None true None Scenario.start = (Ok sr, s') /\
    exists work_dir active_run l0 command entry_command activate,
      events s' = l0 ++ [EvPopen (launch_args Scenario.tutorial command)
                                 (Some work_dir)
                                 (_get_run_env_vars Scenario.tutorial (run_id active_run)
                                                    "0") false] /\
      compute_command Scenario.main [("alpha", "0.5")] "/tmp/tmpk3x9" = inr entry_command /\
      _get_conda_command Scenario.tutorial
        "mlflow-da39a3ee5e6b4b0d3255bfef95601890afd80709" = [activate] /\
      command = activate +:+ " && " +:+ entry_command.
Proof.
  destruct (_run Scenario.tutorial "/tmp/proj#sub" "0" "main" None
                 (Some [("alpha", "0.5")]) None None true None true None Scenario.start)
    as [[sr|e] s'] eqn:E.
  - exists sr, s'. split; [reflexivity|].
    destruct (C8_command_separator Scenario.tutorial "/tmp/proj#sub" "0" "main" None
                (Some [("alpha", "0.5")]) None None true None None Scenario.start s' sr
                (or_introl eq_refl) E)
      as (wd & p & ar & l0 & ep & dir & ec & cmd & Hl & Hep & Hc & He & Hcmd).
    injection (Hl : @inr foreign _ Scenario.tutorial_project = inr p) as <-.
    injection (Hep : @inr foreign _ Scenario.main = inr ep) as <-.
    destruct Hcmd as (n & act & Hn & Ha & _ & Hj).
    assert (Hn' : Ok "mlflow-da39a3ee5e6b4b0d3255bfef95601890afd80709" = Ok n)
      by (rewrite <- Hn; vm_compute; reflexivity).
    injection Hn' as <-.
    exists wd, ar, l0, cmd, ec, act.
    split; [exact He|]. split; [exact Hc|]. split; [exact Ha | exact Hj].
  - exfalso. vm_compute in E. discriminate E.
Defined.

(** The two commands of the scenario, as the shell gets them. *)
Example command_with_and_without_conda :
  List.last (events (snd (_run Scenario.tutorial "/tmp/proj#sub" "0" "main" None
                               (Some [("alpha", "0.5")]) None None true None true None
                               Scenario.start))) (EvWait 0)
  = EvPopen
      (ArgList ["bash"; "-c";
                "source activate mlflow-da39a3ee5e6b4b0d3255bfef95601890afd80709"
                +:+ " && " +:+ "python train.py --alpha 0.5"])
      (Some "/tmp/proj/sub")
      [("MLFLOW_RUN_ID", "run-1"); ("MLFLOW_TRACKING_URI", "http://localhost:5000");
       ("MLFLOW_EXPERIMENT_ID", "0")] false /\
  List.last (events (snd (_run Scenario.tutorial "/tmp/proj#sub" "0" "main" None
                               (Some [("alpha", "0.5")]) None None false None true None
                               Scenario.start))) (EvWait 0)
  = EvPopen
      (ArgList ["bash"; "-c"; "python train.py --alpha 0.5"])
      (Some "/tmp/proj/sub")
      [("MLFLOW_RUN_ID", "run-1"); ("MLFLOW_TRACKING_URI", "http://localhost:5000");
       ("MLFLOW_EXPERIMENT_ID", "0")] false.
Proof. split; vm_compute; reflexivity. Qed.

Lemma C10_unsupported_backend_raised_late_witness :
  fst (_run Scenario.tutorial "/tmp/proj#sub" "0" "main" None (Some [("alpha", "0.5")])
            (Some "kubernetes") None true None true None Scenario.start)
  = Raise (unsupported_backend "kubernetes") /\
  exists l work_dir project active_run,
    reached Scenario.tutorial "/tmp/proj#sub" "0" "main" None [("alpha", "0.5")]
            (Some "kubernetes") None Scenario.start
            (snd (_run Scenario.tutorial "/tmp/proj#sub" "0" "main" None
                       (Some [("alpha", "0.5")]) (Some "kubernetes") None true None
                       true None Scenario.start))
            l work_dir project active_run.
Proof.
  assert (E : fst (_run Scenario.tutorial "/tmp/proj#sub" "0" "main" None
                        (Some [("alpha", "0.5")]) (Some "kubernetes") None true None
                        true None Scenario.start)
              = Raise (unsupported_backend "kubernetes"))
    by (vm_compute; reflexivity).
  split; [exact E|].
  refine (proj2 (C10_unsupported_backend_raised_late Scenario.tutorial "/tmp/proj#sub"
                   "0" "main" None (Some [("alpha", "0.5")]) "kubernetes" None true None
                   true None Scenario.start _ _) E); discriminate.
Defined.

(** What the trace holds when the error about the backend comes. *)
Example unsupported_backend_trace :
  events (snd (_run Scenario.tutorial "/tmp/proj#sub" "0" "main" None
                    (Some [("alpha", "0.5")]) (Some "kubernetes") None true None
                    true None Scenario.start))
  = [EvLoadProject "/tmp/proj/sub";
     EvCreateRun "0" [(MLFLOW_USER, "user"); (MLFLOW_SOURCE_NAME, "/tmp/proj#sub");
                      (MLFLOW_SOURCE_TYPE, "PROJECT");
                      (MLFLOW_PROJECT_ENTRY_POINT, "main")];
     EvLogParam "run-1" "alpha" "0.5"].
Proof. vm_compute. reflexivity. Qed.

(** * Further properties *)

(** ** References *)

(** X1: [_parse_subdirectory] returns a pair exactly when the base has
    no [#], the subdirectory has no dot, and the reference is the base
    alone (with an empty subdirectory) or the base, one [#] and the
    subdirectory.  So a reference that ends in a lone [#] parses like the
    one without it, and every further [#] stays in the subdirectory. *)
Theorem parse_subdirectory_shape (uri b sub : string) :
  _parse_subdirectory uri = Ok (b, sub) <->
  Py.contains "#" b = false /\ Py.contains "." sub = false /\
  ((uri = b /\ sub = "") \/ uri = b +:+ "#" +:+ sub).
Proof.
  split.
  - intros Hp. destruct (parse_ok_split _ _ _ Hp) as [Hs Hd].
    destruct (Py.contains "#" uri) eqn:Hc.
    + destruct (contains_split _ _ Hc) as (b' & t & -> & Hb).
      change (String "#" t) with ("#" +:+ t) in *.
      rewrite (split_at_hash_app b' t Hb) in Hs. injection Hs as <- <-. auto.
    + rewrite (split_at_hash_no_hash uri Hc) in Hs. injection Hs as <- <-. auto.
  - intros (Hb & Hd & [[-> ->]| ->]); unfold _parse_subdirectory.
    + rewrite (split_at_hash_no_hash b Hb). reflexivity.
    + rewrite (split_at_hash_app b sub Hb). cbn [fst snd]. rewrite Hd.
      rewrite andb_false_r. reflexivity.
Qed.

Lemma contains_app (c : ascii) (a b : string) :
  Py.contains c (a +:+ b) = Py.contains c a || Py.contains c b.
Proof.
  induction a as [|x a IH]; [reflexivity|].
  rewrite app_cons. simpl. destruct (Ascii.eqb x c); [reflexivity | exact IH].
Qed.

(** X2: a reference is taken for something other than a local path
    exactly when it has a colon with no slash before it. *)
Theorem is_local_uri_iff (uri : string) :
  _is_local_uri uri = false <->
  exists scheme rest, uri = scheme +:+ ":" +:+ rest /\ Py.contains "/" scheme = false.
Proof.
  unfold _is_local_uri. rewrite negb_false_iff. split.
  - induction uri as [|c u IH]; [discriminate|]. simpl.
    destruct (Ascii.eqb_spec c ":") as [->|Hc].
    + intros _. exists "", u. auto.
    + destruct (Ascii.eqb_spec c "/") as [->|Hs]; [discriminate|].
      intros H. destruct (IH H) as (a & r & -> & Ha).
      exists (String c a), r. rewrite app_cons. split; [reflexivity|]. simpl.
      destruct (Ascii.eqb_spec c "/"); [contradiction | exact Ha].
  - intros (a & r & -> & Ha). induction a as [|c a IH].
    + reflexivity.
    + rewrite app_cons. simpl in *.
      destruct (Ascii.eqb c ":"); [reflexivity|].
      destruct (Ascii.eqb c "/"); [discriminate|]. exact (IH Ha).
Qed.

Lemma strip_prefix_app (p r : string) : Py.strip_prefix p (p +:+ r) = Some r.
Proof.
  induction p as [|c p IH]; [reflexivity|]. rewrite app_cons. simpl.
  rewrite Ascii.eqb_refl. exact IH.
Qed.

Lemma strip_prefix_Some (p s r : string) :
  Py.strip_prefix p s = Some r -> s = p +:+ r.
Proof.
  revert s. induction p as [|c p IH]; intros s H.
  - simpl in H. destruct s; injection H as <-; reflexivity.
  - destruct s as [|d s]; [discriminate|]. simpl in H.
    destruct (Ascii.eqb_spec c d) as [->|]; [|discriminate].
    rewrite app_cons. f_equal. exact (IH _ H).
Qed.

Theorem file_uri_is_not_local (uri : string) :
  _is_file_uri uri = true -> _is_local_uri uri = false.
Proof.
  unfold _is_file_uri, _FILE_URI_REGEX. intros H.
  destruct (Py.strip_prefix "file://" uri) as [r|] eqn:E; [|discriminate].
  apply strip_prefix_Some in E. subst uri. reflexivity.
Qed.

Lemma local_uri_whole (uri p sub : string) :
  _parse_subdirectory uri = Ok (p, sub) ->
  _is_local_uri p = false -> _is_local_uri uri = false.
Proof.
  intros Hp Hl. destruct (_is_local_uri uri) eqn:Hu; [|reflexivity].
  rewrite (local_uri_base _ _ _ Hp Hu) in Hl. discriminate.
Qed.

Lemma bind_extends {A B} P Q (m : M A) (k : A -> M B) s :
  (forall a, spec P Q (k a)) ->
  exists l, events (snd (bind m k s)) = events (snd (m s)) ++ l.
Proof.
  intros Hk. unfold bind. destruct (m s) as [[a|e] s1]; cbn [snd].
  - destruct (Hk a s1) as [(l & E & _) _]. eauto.
  - exists []. now rewrite app_nil_r.
Qed.

(** X4: a [file://] base is never a local path; unless it is an
    archive it is of git kind, and the fetcher makes a temporary
    directory and initialises a git repository in it. *)
Theorem file_uri_fetched_with_git
    (W : world) (uri : string) (force_tempdir : bool) (version : option string)
    (s : state) (parsed_uri sub : string) :
  _parse_subdirectory uri = Ok (parsed_uri, sub) ->
  _is_file_uri parsed_uri = true ->
  _is_zip_uri parsed_uri = false ->
  let tmp := w_mkdtemp W None (List.length (events s)) in
  w_fault W (EvMkdtemp None tmp) = None ->
  reference_kind parsed_uri = git /\
  exists l,
    events (snd (_fetch_project W uri force_tempdir version s))
    = events s ++ [EvMkdtemp None tmp; EvGitInit tmp] ++ l.
Proof.
  intros Hp Hfile Hz tmp Hf.
  pose proof (file_uri_is_not_local _ Hfile) as Hl.
  pose proof (local_uri_whole _ _ _ Hp Hl) as Hu.
  split; [unfold reference_kind; rewrite Hz, Hl; reflexivity|].
  unfold _fetch_project.
  rewrite (bind_ok _ _ s (parsed_uri, sub) s) by (unfold lift; now rewrite Hp).
  cbv zeta. cbn [fst snd]. rewrite Hz, Hu, Hl. rewrite orb_true_r. cbv iota.
  pose proof (mkdtemp_run W None s) as Hd. fold tmp in Hd. rewrite Hf in Hd.
  rewrite (bind_ok _ _ _ _ _ Hd).
  unfold _is_local_uri in Hl. apply negb_false_iff in Hl. rewrite Hl.
  match goal with |- context [bind ?m ?k ?s0] =>
    destruct (bind_extends (fun ev => is_materialize ev = true) not_unsupported m k s0)
      as (l1 & E1); [intros; spec_auto|]
  end.
  rewrite E1. unfold _fetch_git_repo.
  match goal with |- context [bind ?m ?k ?s0] =>
    destruct (bind_extends (fun ev => is_materialize ev = true) not_unsupported m k s0)
      as (l2 & E2); [intros; spec_auto|]
  end.
  rewrite E2, call_run. simpl. exists (l2 ++ l1). rewrite <- !app_assoc. reflexivity.
Qed.

Lemma rev_acc_app (s acc : string) : Py.rev_acc s acc = Py.rev s +:+ acc.
Proof.
  unfold Py.rev. revert acc. induction s as [|c s IH]; intros acc; [reflexivity|].
  simpl. rewrite IH, (IH (String c "")). rewrite app_assoc_s. reflexivity.
Qed.

Lemma rev_app (a b : string) : Py.rev (a +:+ b) = Py.rev b +:+ Py.rev a.
Proof.
  induction a as [|c a IH].
  - rewrite app_nil_l. symmetry. apply app_nil_r_s.
  - rewrite app_cons. unfold Py.rev in *. simpl.
    rewrite rev_acc_app, (rev_acc_app a). fold (Py.rev (a +:+ b)). unfold Py.rev.
    rewrite IH. rewrite app_assoc_s. reflexivity.
Qed.

Lemma rev_rev (s : string) : Py.rev (Py.rev s) = s.
Proof.
  induction s as [|c s IH]; [reflexivity|].
  change (String c s) with (String c "" +:+ s) at 1.
  rewrite rev_app, rev_app, IH. reflexivity.
Qed.

Lemma strip_suffix_iff (p s x : string) :
  Py.strip_suffix p s = Some x <-> s = x +:+ p.
Proof.
  unfold Py.strip_suffix. split.
  - destruct (Py.strip_prefix (Py.rev p) (Py.rev s)) as [r|] eqn:E; [|discriminate].
    intros [= <-]. apply strip_prefix_Some in E.
    rewrite <- (rev_rev s), E, rev_app, rev_rev. reflexivity.
  - intros ->. rewrite rev_app, strip_prefix_app, rev_rev. reflexivity.
Qed.

(** X3: a reference is taken for an archive exactly when it is a
    non-empty stem without line feed followed by [.zip], with at most one
    line feed after it; [.zip] alone is not an archive. *)
Theorem is_zip_uri_iff (uri : string) :
  _is_zip_uri uri = true <->
  exists stem,
    stem <> "" /\ Py.contains Py.LF stem = false /\
    (uri = stem +:+ ".zip" \/ uri = stem +:+ ".zip" +:+ String Py.LF "").
Proof.
  unfold _is_zip_uri, _ZIP_URI_REGEX. split.
  - destruct (Py.strip_suffix (String Py.LF "") uri) as [body|] eqn:E.
    + apply strip_suffix_iff in E. subst uri.
      destruct (Py.strip_suffix ".zip" body) as [x|] eqn:E2; [|discriminate].
      apply strip_suffix_iff in E2. subst body. intros H.
      apply andb_true_iff in H as [Ht Hn]. apply negb_true_iff in Hn.
      exists x. split; [destruct x; [discriminate | discriminate]|].
      split; [exact Hn|]. right. rewrite app_assoc_s. reflexivity.
    + destruct (Py.strip_suffix ".zip" uri) as [x|] eqn:E2; [|discriminate].
      apply strip_suffix_iff in E2. subst uri. intros H.
      apply andb_true_iff in H as [Ht Hn]. apply negb_true_iff in Hn.
      exists x. split; [destruct x; [discriminate | discriminate]|]. auto.
  - intros (x & Hx & Hn & [-> | ->]).
    + assert (E : Py.strip_suffix (String Py.LF "") (x +:+ ".zip") = None).
      { unfold Py.strip_suffix. rewrite rev_app. reflexivity. }
      rewrite E. rewrite (proj2 (strip_suffix_iff ".zip" (x +:+ ".zip") x) eq_refl).
      rewrite Hn. destruct x; [contradiction | reflexivity].
    + rewrite <- app_assoc_s.
      rewrite (proj2 (strip_suffix_iff (String Py.LF "") _ (x +:+ ".zip")) eq_refl).
      rewrite (proj2 (strip_suffix_iff ".zip" (x +:+ ".zip") x) eq_refl).
      rewrite Hn. destruct x; [contradiction | reflexivity].
Qed.

(** ** More on the fetcher *)

(** X5: whatever [_fetch_project] returns exists, and is the absolute
    form of the subdirectory joined to the destination, which is the
    parsed base or the temporary directory just made. *)
Theorem fetch_project_returns_existing_path
    (W : world) (uri : string) (force_tempdir : bool) (version : option string)
    (s s' : state) (res : string) :
  _fetch_project W uri force_tempdir version s = (Ok res, s') ->
  w_exists W res = true /\
  exists parsed_uri sub dst_dir,
    _parse_subdirectory uri = Ok (parsed_uri, sub) /\
    res = posixpath.abspath (w_getcwd W) (posixpath.join dst_dir sub) /\
    (dst_dir = parsed_uri \/ dst_dir = w_mkdtemp W None (List.length (events s))).
Proof.
  unfold _fetch_project. intros H.
  apply bind_inv in H as [(e & _ & [=])|([p sub] & s0 & Hp & H)].
  unfold lift in Hp. injection Hp as Hp <-. cbv zeta in H. cbn [fst snd] in H.
  apply bind_inv in H as [(e & _ & [=])|(dst & s1 & Hd & H)].
  apply bind_inv in H as [(e & _ & [=])|([] & s2 & _ & H)].
  destruct (w_exists W _) eqn:He; [|discriminate]. injection H as <- <-.
  split; [exact He|]. exists p, sub, dst. repeat split; auto.
  destruct (force_tempdir || _ || _).
  - right. rewrite mkdtemp_run in Hd. destruct (w_fault W _); [discriminate|].
    injection Hd as <- _. reflexivity.
  - left. injection Hd as <- _. reflexivity.
Qed.

(** X6: on success and on failure, [_fetch_project] removes nothing
    (a temporary directory it made stays) and makes no call to the
    tracking service. *)
Theorem fetch_project_never_cleans_up
    (W : world) (uri : string) (force_tempdir : bool) (version : option string)
    (s : state) :
  exists l,
    events (snd (_fetch_project W uri force_tempdir version s)) = events s ++ l /\
    Forall (fun ev => is_cleanup ev = false /\ is_tracking ev = false) l.
Proof.
  destruct (_fetch_project_spec W uri force_tempdir version s) as [(l & E & F) _].
  exists l. split; [exact E|].
  eapply Forall_impl; [exact F|].
  intros ev [H|H]; destruct ev; simpl in *; try discriminate; auto.
Qed.

(** X7: an archive that is neither local nor a [file://] URI is
    downloaded into the temporary directory: after a good answer the
    bytes are unpacked there and the result depends only on whether the
    subdirectory exists; a bad HTTP status raises "Unable to retrieve ZIP
    file. Reason: ..." and nothing is unpacked. *)
Theorem fetch_remote_archive
    (W : world) (uri : string) (force_tempdir : bool) (version : option string)
    (s : state) (parsed_uri sub : string) :
  _parse_subdirectory uri = Ok (parsed_uri, sub) ->
  _is_zip_uri parsed_uri = true ->
  _is_file_uri parsed_uri = false ->
  _is_local_uri parsed_uri = false ->
  let tmp := w_mkdtemp W None (List.length (events s)) in
  w_fault W (EvMkdtemp None tmp) = None ->
  let out := _fetch_project W uri force_tempdir version s in
  match w_http_get W parsed_uri with
  | HttpOk content =>
      events (snd out)
      = events s ++ [EvMkdtemp None tmp; EvHttpGet parsed_uri;
                     EvUnzip (ZipBytes content) tmp] /\
      (w_fault W (EvUnzip (ZipBytes content) tmp) = None ->
         fst out
         = if w_exists W (posixpath.abspath (w_getcwd W) (posixpath.join tmp sub))
           then Ok (posixpath.abspath (w_getcwd W) (posixpath.join tmp sub))
           else Raise (subdirectory_missing sub tmp))
  | HttpError reason =>
      out = (Raise (ExecutionException
                      ("Unable to retrieve ZIP file. Reason: " +:+ reason)),
             log (EvHttpGet parsed_uri) (log (EvMkdtemp None tmp) s))
  | HttpFails e =>
      out = (Raise (Collaborator e),
             log (EvHttpGet parsed_uri) (log (EvMkdtemp None tmp) s))
  end.
Proof.
  intros Hp Hz Hfile Hl tmp Hf out. subst out.
  unfold _fetch_project.
  rewrite (bind_ok _ _ s (parsed_uri, sub) s) by (unfold lift; now rewrite Hp).
  cbv zeta. cbn [fst snd]. rewrite Hz, Hfile, Hl. rewrite orb_true_r. cbv iota.
  pose proof (mkdtemp_run W None s) as Hd. fold tmp in Hd. rewrite Hf in Hd.
  rewrite (bind_ok _ _ _ _ _ Hd).
  unfold _fetch_zip_repo, _unzip_repo.
  destruct (w_http_get W parsed_uri) as [content|reason|e].
  - unfold bind, emit, ret. cbv iota beta. rewrite call_run.
    destruct (w_fault W (EvUnzip _ _)); cbn [fst snd].
    + simpl. rewrite <- !app_assoc. split; [reflexivity | discriminate].
    + destruct (w_exists W _); simpl; rewrite <- !app_assoc; auto.
  - reflexivity.
  - reflexivity.
Qed.


(** X9: the test for a local project looks at the whole reference, not
    at its base: a local base whose subdirectory brings a colon before
    any slash ends in the assertion of the git branch, with nothing
    called. *)
Theorem fetch_colon_in_subdirectory
    (W : world) (uri : string) (version : option string) (s : state)
    (parsed_uri sub : string) :
  _parse_subdirectory uri = Ok (parsed_uri, sub) ->
  _is_zip_uri parsed_uri = false ->
  _is_local_uri parsed_uri = true ->
  _is_local_uri uri = false ->
  _fetch_project W uri false version s
  = (Raise (AssertionError ("Non-local URI " +:+ parsed_uri +:+ " should be a Git URI")),
     s).
Proof.
  intros Hp Hz Hl Hu.
  unfold _fetch_project.
  rewrite (bind_ok _ _ s (parsed_uri, sub) s) by (unfold lift; now rewrite Hp).
  cbv zeta. cbn [fst snd orb]. rewrite Hz, Hu, Hl. cbn [negb].
  rewrite (bind_ok _ _ s parsed_uri s) by reflexivity.
  unfold _is_local_uri in Hl. apply negb_true_iff in Hl. rewrite Hl. reflexivity.
Qed.

(** X10: whatever fails, the git calls made are an initial part of:
    init, add remote [origin], fetch, then the checkout of the version or
    the creation and checkout of [master]; and when the function returns,
    all of them have been made. *)
Theorem fetch_git_repo_in_order
    (W : world) (uri dst_dir : string) (version : option string) (s : state) :
  let out := _fetch_git_repo W uri version dst_dir s in
  let plan :=
    git_setup uri dst_dir ++
    match version with
    | Some v => [EvGitCheckout v]
    | None => [EvGitCreateHead "master" "origin/master"; EvGitCheckoutHead "master"]
    end in
  exists done rest,
    events (snd out) = events s ++ done /\
    plan = done ++ rest /\
    (fst out = Ok tt -> rest = []).
Proof.
  intros out plan. subst out plan. unfold _fetch_git_repo, git_setup, bind.
  rewrite ?call_run. cbn [fst snd].
  assert (Hstop : forall (e : exn) (done rest plan : list event) (s1 : state),
             events s1 = events s ++ done -> plan = done ++ rest ->
             exists d r, events (snd (@Raise unit e, s1)) = events s ++ d /\
                         plan = d ++ r /\ (fst (@Raise unit e, s1) = Ok tt -> r = [])).
  { intros e d r p s1 H1 H2. exists d, r. repeat split; auto. discriminate. }
  destruct (w_fault W (EvGitInit dst_dir)).
  { eapply (Hstop _ [EvGitInit dst_dir]); reflexivity. }
  cbv beta iota. rewrite ?call_run.
  destruct (w_fault W (EvGitCreateRemote "origin" uri)).
  { eapply (Hstop _ [EvGitInit dst_dir; EvGitCreateRemote "origin" uri]);
      [simpl; rewrite <- !app_assoc|]; reflexivity. }
  cbv beta iota. rewrite ?call_run.
  destruct (w_fault W (EvGitFetch "origin")).
  { eapply (Hstop _ [EvGitInit dst_dir; EvGitCreateRemote "origin" uri;
                      EvGitFetch "origin"]);
      [simpl; rewrite <- !app_assoc|]; reflexivity. }
  destruct version as [v|].
  - cbv beta iota. rewrite ?call_run.
    exists [EvGitInit dst_dir; EvGitCreateRemote "origin" uri; EvGitFetch "origin";
            EvGitCheckout v], [].
    destruct (w_fault W (EvGitCheckout v)); [|destruct (w_git_checkout W uri v)];
      simpl; rewrite <- !app_assoc; repeat split; auto.
  - destruct (existsb _ _).
    + cbv beta iota. rewrite ?call_run.
      destruct (w_fault W (EvGitCreateHead _ _)).
      { eapply (Hstop _ [EvGitInit dst_dir; EvGitCreateRemote "origin" uri;
                          EvGitFetch "origin";
                          EvGitCreateHead "master" "origin/master"]);
          [simpl; rewrite <- !app_assoc|]; reflexivity. }
      cbv beta iota. rewrite ?call_run.
      exists [EvGitInit dst_dir; EvGitCreateRemote "origin" uri; EvGitFetch "origin";
              EvGitCreateHead "master" "origin/master"; EvGitCheckoutHead "master"], [].
      destruct (w_fault W (EvGitCheckoutHead _));
        simpl; rewrite <- !app_assoc; repeat split; auto.
    + eapply (Hstop _ [EvGitInit dst_dir; EvGitCreateRemote "origin" uri;
                        EvGitFetch "origin"]);
        [simpl; rewrite <- !app_assoc|]; reflexivity.
Qed.

(** X11: without a version, a remote that has no branch [master] makes
    the fetcher fail with an [AttributeError] after the fetch, with no
    branch made. *)
Theorem fetch_git_repo_without_master
    (W : world) (uri dst_dir : string) (s : state) :
  no_faults W ->
  ~ In "master" (w_remote_refs W uri) ->
  exists msg,
    fst (_fetch_git_repo W uri None dst_dir s) = Raise (AttributeError msg) /\
    events (snd (_fetch_git_repo W uri None dst_dir s))
    = events s ++ git_setup uri dst_dir.
Proof.
  intros Hf Hm. unfold _fetch_git_repo.
  rewrite (bind_ok _ _ _ tt _ ltac:(rewrite call_run, Hf; reflexivity)).
  rewrite (bind_ok _ _ _ tt _ ltac:(rewrite call_run, Hf; reflexivity)).
  rewrite (bind_ok _ _ _ tt _ ltac:(rewrite call_run, Hf; reflexivity)).
  destruct (existsb _ _) eqn:E; [apply existsb_eqb_In in E; contradiction|].
  eexists. split; [reflexivity|]. simpl. rewrite <- !app_assoc. reflexivity.
Qed.

(** ** The fetcher on concrete references *)

Lemma file_uri_fetched_with_git_witness :
  reference_kind "file:///home/user/proj" = git /\
  exists l,
    events (snd (_fetch_project Scenario.plain "file:///home/user/proj#sub" false None
                                Scenario.start))
    = events Scenario.start
      ++ [EvMkdtemp None "/tmp/tmpk3x9"; EvGitInit "/tmp/tmpk3x9"] ++ l.
Proof.
  exact (file_uri_fetched_with_git Scenario.plain "file:///home/user/proj#sub" false None
           Scenario.start "file:///home/user/proj" "sub" eq_refl eq_refl eq_refl eq_refl).
Defined.

Lemma fetch_project_returns_existing_path_witness :
  w_exists Scenario.plain "/tmp/proj/sub" = true /\
  exists parsed_uri sub dst_dir,
    _parse_subdirectory "/tmp/proj#sub" = Ok (parsed_uri, sub) /\
    "/tmp/proj/sub"
    = posixpath.abspath (w_getcwd Scenario.plain) (posixpath.join dst_dir sub) /\
    (dst_dir = parsed_uri \/
     dst_dir = w_mkdtemp Scenario.plain None (List.length (events Scenario.start))).
Proof.
  exact (fetch_project_returns_existing_path Scenario.plain "/tmp/proj#sub" false None
           Scenario.start Scenario.start "/tmp/proj/sub" eq_refl).
Defined.

Lemma fetch_remote_archive_witness :
  events (snd (_fetch_project Scenario.plain "https://example.com/proj.zip#sub" false None
                              Scenario.start))
  = events Scenario.start
    ++ [EvMkdtemp None "/tmp/tmpk3x9"; EvHttpGet "https://example.com/proj.zip";
        EvUnzip (ZipBytes "") "/tmp/tmpk3x9"] /\
  (w_fault Scenario.plain (EvUnzip (ZipBytes "") "/tmp/tmpk3x9") = None ->
   fst (_fetch_project Scenario.plain "https://example.com/proj.zip#sub" false None
                       Scenario.start)
   = Ok "/tmp/tmpk3x9/sub").
Proof.
  exact (fetch_remote_archive Scenario.plain "https://example.com/proj.zip#sub" false None
           Scenario.start "https://example.com/proj.zip" "sub"
           eq_refl eq_refl eq_refl eq_refl eq_refl).
Defined.


Lemma fetch_colon_in_subdirectory_witness :
  _fetch_project Scenario.plain "proj#a:b" false None Scenario.start
  = (Raise (AssertionError ("Non-local URI " +:+ "proj" +:+ " should be a Git URI")),
     Scenario.start).
Proof.
  exact (fetch_colon_in_subdirectory Scenario.plain "proj#a:b" None Scenario.start
           "proj" "a:b" eq_refl eq_refl eq_refl eq_refl).
Defined.

Lemma fetch_git_repo_without_master_witness :
  exists msg,
    fst (_fetch_git_repo Cases.main_only "https://github.com/org/repo" None
                         "/tmp/tmpk3x9" Scenario.start) = Raise (AttributeError msg) /\
    events (snd (_fetch_git_repo Cases.main_only "https://github.com/org/repo" None
                                 "/tmp/tmpk3x9" Scenario.start))
    = events Scenario.start ++ git_setup "https://github.com/org/repo" "/tmp/tmpk3x9".
Proof.
  apply (fetch_git_repo_without_master Cases.main_only "https://github.com/org/repo"
           "/tmp/tmpk3x9" Scenario.start).
  - intros ev. reflexivity.
  - simpl. intros [H|[]]. discriminate H.
Defined.

(** ** More on the conda environment *)

(** X12: the name of the environment only depends on the contents of
    the spec file followed by the discriminator: no discriminator and an
    empty one give the same name, and so do two specs whose contents and
    discriminators concatenate to the same text. *)
Theorem conda_env_name_of_concatenation
    (W : world) (path1 path2 env_id1 env_id2 : option string) (c1 c2 : string) :
  conda_env_contents W path1 = inr c1 ->
  conda_env_contents W path2 = inr c2 ->
  c1 +:+ default "" env_id1 = c2 +:+ default "" env_id2 ->
  _get_conda_env_name W path1 env_id1 = _get_conda_env_name W path2 env_id2.
Proof.
  intros H1 H2 E. unfold _get_conda_env_name. rewrite H1, H2.
  assert (Hn : forall c (i : option string),
             match i with Some (String a r) => c +:+ String a r | _ => c end
             = c +:+ default "" i).
  { intros c [[|a r]|]; simpl; rewrite ?app_nil_r_s; reflexivity. }
  rewrite !Hn, E. reflexivity.
Qed.

Lemma after_last_sep_no_sep (n : string) (pos best : nat) :
  Py.contains "/" n = false -> posixpath.after_last_sep n pos best = best.
Proof.
  revert pos. induction n as [|c n IH]; intros pos H; [reflexivity|].
  simpl in *. destruct (Ascii.eqb c "/"); [discriminate|]. apply IH, H.
Qed.

Lemma after_last_sep_app (x n : string) (pos best : nat) :
  posixpath.after_last_sep (x +:+ n) pos best
  = posixpath.after_last_sep n (pos + String.length x) (posixpath.after_last_sep x pos best).
Proof.
  revert pos best. induction x as [|c x IH]; intros pos best.
  - rewrite app_nil_l. simpl. now rewrite Nat.add_0_r.
  - rewrite app_cons. simpl. rewrite IH. f_equal. lia.
Qed.

Lemma basename_after_sep (x n : string) :
  Py.contains "/" n = false -> posixpath.basename (x +:+ "/" +:+ n) = n.
Proof.
  intros H. unfold posixpath.basename.
  rewrite <- app_assoc_s, after_last_sep_app, (after_last_sep_no_sep n _ _ H).
  rewrite after_last_sep_app.
  change (posixpath.after_last_sep "/" (0 + String.length x)
            (posixpath.after_last_sep x 0 0))
    with (S (0 + String.length x)).
  replace (S (0 + String.length x)) with (String.length (x +:+ "/"))
    by (rewrite length_app; simpl; lia).
  apply drop_app.
Qed.

Lemma basename_no_sep (n : string) :
  Py.contains "/" n = false -> posixpath.basename n = n.
Proof.
  intros H. unfold posixpath.basename. rewrite (after_last_sep_no_sep n _ _ H).
  reflexivity.
Qed.

(** X13: the path of a conda executable always ends in the name asked
    for: it is the bare name when [MLFLOW_CONDA_HOME] is unset or empty,
    and the name under [bin] of that directory otherwise. *)
Theorem conda_bin_executable_basename (W : world) (executable_name : string) :
  Py.contains "/" executable_name = false ->
  posixpath.basename (_get_conda_bin_executable W executable_name) = executable_name /\
  match w_environ W MLFLOW_CONDA_HOME with
  | Some (String c home) =>
      _get_conda_bin_executable W executable_name
      = posixpath.join (String c home) ("bin/" +:+ executable_name)
  | _ => _get_conda_bin_executable W executable_name = executable_name
  end.
Proof.
  intros H. unfold _get_conda_bin_executable.
  destruct (w_environ W MLFLOW_CONDA_HOME) as [[|c home]|];
    cbn [Py.truthy]; try (split; [apply basename_no_sep, H | reflexivity]).
  split; [|reflexivity].
  unfold posixpath.join. change (posixpath.isabs ("bin/" +:+ executable_name)) with false.
  cbn [Py.truthy negb orb]. cbv iota.
  destruct (posixpath.endswith_sep (String c home)) eqn:E.
  - change ("bin/" +:+ executable_name) with (("bin" +:+ "/") +:+ executable_name).
    rewrite <- !app_assoc_s. rewrite app_assoc_s. apply basename_after_sep, H.
  - change ("bin/" +:+ executable_name) with (("bin" +:+ "/") +:+ executable_name).
    rewrite <- !app_assoc_s. rewrite app_assoc_s. apply basename_after_sep, H.
Qed.

(** X14: when [conda --help] cannot be started, the provisioner stops
    there with an [ExecutionException] whose message gives the path it
    tried and names [MLFLOW_CONDA_HOME]; no other command is run. *)
Theorem conda_missing
    (W : world) (conda_env_path env_id : option string) (s : state) (msg : string) :
  let conda_path := _get_conda_bin_executable W "conda" in
  w_exec_cmd W [conda_path; "--help"] = ExecEnvironmentError msg ->
  _get_or_create_conda_env W conda_env_path env_id s
  = (Raise (conda_not_found conda_path), log (EvExecCmd [conda_path; "--help"]) s) /\
  exists before after,
    conda_not_found conda_path
    = ExecutionException (before +:+ conda_path +:+ after) /\
    exists before' after', after = before' +:+ MLFLOW_CONDA_HOME +:+ after'.
Proof.
  intros conda_path H. split.
  - unfold _get_or_create_conda_env. cbv zeta. fold conda_path.
    unfold bind at 1. unfold except_EnvironmentError. rewrite exec_cmd_run, H.
    reflexivity.
  - unfold conda_not_found.
    exists "Could not find Conda executable at ". eexists. split; [reflexivity|].
    exists (". Ensure Conda is installed as per the instructions "
            +:+ "at https://conda.io/docs/user-guide/install/index.html. You can "
            +:+ "also configure MLflow to look for a specific Conda executable "
            +:+ "by setting the "),
           " environment variable to the path of the Conda executable".
    vm_compute. reflexivity.
Qed.

(** X15: when conda answers and does not list the environment, exactly
    one creating command follows the listing: [conda env create -n name
    --file path] with a spec file, [conda create -n name python] without;
    the name is returned when that command exits with 0, and an exception
    is raised otherwise. *)
Theorem conda_env_created_once_when_absent
    (W : world) (conda_env_path env_id : option string) (s : state)
    (c0 : Z) (o0 e0 out err : string) (envs : list string) (project_env_name : string) :
  let conda_path := _get_conda_bin_executable W "conda" in
  let create := conda_create_command conda_path conda_env_path project_env_name in
  w_exec_cmd W [conda_path; "--help"] = ExecExit c0 o0 e0 ->
  w_exec_cmd W [conda_path; "env"; "list"; "--json"] = ExecExit 0 out err ->
  w_json_envs W out = inr envs ->
  _get_conda_env_name W conda_env_path env_id = Ok project_env_name ->
  ~ In project_env_name (List.map posixpath.basename envs) ->
  let res := _get_or_create_conda_env W conda_env_path env_id s in
  events (snd res)
  = events s ++ [EvExecCmd [conda_path; "--help"];
                 EvExecCmd [conda_path; "env"; "list"; "--json"];
                 EvExecCmd create] /\
  is_env_creation (EvExecCmd create) = true /\
  match w_exec_cmd W create with
  | ExecExit 0 _ _ => fst res = Ok project_env_name
  | _ => is_raise (fst res) = true
  end.
Proof.
  intros conda_path create Hh Hl Hj Hn Hin res.
  assert (Hex : existsb (String.eqb project_env_name)
                        (List.map posixpath.basename envs) = false).
  { destruct (existsb _ _) eqn:E; [|reflexivity].
    apply existsb_eqb_In in E. contradiction. }
  assert (Hc : is_env_creation (EvExecCmd create) = true).
  { unfold create, conda_create_command. destruct conda_env_path as [[|c p]|]; reflexivity. }
  assert (E : res =
    (match w_exec_cmd W create with
     | ExecEnvironmentError m => Raise (EnvironmentError m)
     | ExecExit code _ _ =>
         if negb (code =? 0)
         then Raise (Collaborator
                       (Foreign "ShellCommandException"
                                ("Non-zero exit code: " +:+ Py.join " " create)))
         else Ok project_env_name
     end,
     log (EvExecCmd create)
         (log (EvExecCmd [conda_path; "env"; "list"; "--json"])
              (log (EvExecCmd [conda_path; "--help"]) s)))).
  { subst res. unfold _get_or_create_conda_env. cbv zeta. fold conda_path.
    unfold bind at 1. unfold except_EnvironmentError. rewrite exec_cmd_run, Hh.
    cbn [andb]. cbv iota beta.
    unfold bind at 1. rewrite exec_cmd_run, Hl. cbn [andb negb Z.eqb]. cbv iota beta.
    cbn [fst snd]. unfold bind at 1. unfold lift_foreign. rewrite Hj.
    unfold ret at 1. cbv iota beta.
    unfold bind at 1. unfold lift. rewrite Hn. cbv iota beta. rewrite Hex. cbn [negb].
    unfold create, conda_create_command.
    destruct conda_env_path as [[|c p]|]; unfold bind; rewrite exec_cmd_run;
      cbn [andb];
      match goal with
      | |- context [w_exec_cmd W ?cmd] => destruct (w_exec_cmd W cmd) as [?|code ? ?]
      end; try reflexivity; destruct (negb (code =? 0)); reflexivity. }
  rewrite E. cbn [fst snd]. split; [|split; [exact Hc|]].
  - simpl. rewrite <- !app_assoc. reflexivity.
  - destruct (w_exec_cmd W create) as [?|[| |] ? ?]; reflexivity.
Qed.

(** An empty spec with the discriminator ["name: tutorial"] and the spec
    file with these contents and no discriminator share one name. *)
Lemma conda_env_name_of_concatenation_witness :
  _get_conda_env_name Scenario.plain None (Some "name: tutorial")
  = _get_conda_env_name Scenario.plain (Some "conda.yaml") None.
Proof.
  exact (conda_env_name_of_concatenation Scenario.plain None (Some "conda.yaml")
           (Some "name: tutorial") None "" "name: tutorial" eq_refl eq_refl eq_refl).
Defined.

Lemma conda_bin_executable_basename_witness :
  posixpath.basename (_get_conda_bin_executable Cases.conda_home "activate") = "activate" /\
  _get_conda_bin_executable Cases.conda_home "activate"
  = posixpath.join "/opt/conda" ("bin/" +:+ "activate").
Proof.
  exact (conda_bin_executable_basename Cases.conda_home "activate" eq_refl).
Defined.

Lemma conda_missing_witness :
  _get_or_create_conda_env Cases.no_conda None None Scenario.start
  = (Raise (conda_not_found "conda"), log (EvExecCmd ["conda"; "--help"]) Scenario.start) /\
  exists before after,
    conda_not_found "conda" = ExecutionException (before +:+ "conda" +:+ after) /\
    exists before' after', after = before' +:+ MLFLOW_CONDA_HOME +:+ after'.
Proof.
  exact (conda_missing Cases.no_conda None None Scenario.start
           "[Errno 2] No such file or directory" eq_refl).
Defined.

Lemma conda_env_created_once_when_absent_witness :
  events (snd (_get_or_create_conda_env Scenario.plain (Some "conda.yaml") None
                                        Scenario.start))
  = events Scenario.start
    ++ [EvExecCmd ["conda"; "--help"];
        EvExecCmd ["conda"; "env"; "list"; "--json"];
        EvExecCmd ["conda"; "env"; "create"; "-n";
                   "mlflow-4f2c8a0d6b1e93a75c0f4e2d8b7a6c5d4e3f2a1b";
                   "--file"; "conda.yaml"]] /\
  fst (_get_or_create_conda_env Scenario.plain (Some "conda.yaml") None Scenario.start)
  = Ok "mlflow-4f2c8a0d6b1e93a75c0f4e2d8b7a6c5d4e3f2a1b".
Proof.
  destruct (conda_env_created_once_when_absent Scenario.plain (Some "conda.yaml") None
              Scenario.start 0 "{}" "" "{}" "" []
              "mlflow-4f2c8a0d6b1e93a75c0f4e2d8b7a6c5d4e3f2a1b"
              eq_refl eq_refl eq_refl eq_refl (fun H => H)) as (H1 & _ & H3).
  split; [exact H1 | exact H3].
Defined.

(** ** More on reporting the end of a run *)

(** X16: a submitted run without a run id is waited for and never
    reported: the tracking service is not called, the result is [wait()]'s
    (an [ExecutionException] for a failed run), and after an interrupt
    the run is cancelled and the interrupt raised again. *)
Theorem wait_for_without_run_id (W : world) (sr : SubmittedRun) (s : state) :
  sr_run_id sr = None ->
  let waited := set_runs (snd (sr_wait sr (runs s))) (log (EvWait (sr_pid sr)) s) in
  _wait_for W sr s
  = match fst (sr_wait sr (runs s)) with
    | WaitReturns true => (Ok tt, waited)
    | WaitReturns false => (Raise (run_failed None), waited)
    | WaitInterrupted =>
        (Raise KeyboardInterrupt,
         set_runs (sr_cancel sr (runs waited)) (log (EvCancel (sr_pid sr)) waited))
    | WaitRaises e => (Raise (Collaborator e), waited)
    end.
Proof.
  intros Hid waited. unfold _wait_for. cbv zeta. rewrite Hid.
  unfold bind at 1. unfold except_KeyboardInterrupt at 1. unfold ret at 1.
  cbv iota beta.
  unfold except_KeyboardInterrupt. unfold bind at 1. rewrite wait_run. fold waited.
  destruct (fst (sr_wait sr (runs s))) as [[|]| |e]; reflexivity.
Qed.

Lemma wait_for_without_run_id_witness :
  _wait_for Scenario.plain Cases.anonymous Scenario.running
  = (Raise KeyboardInterrupt,
     {| events := [EvWait 3; EvCancel 3]; runs := runs Scenario.running |}).
Proof.
  exact (wait_for_without_run_id Scenario.plain Cases.anonymous Scenario.running eq_refl).
Defined.

(** X17: when no call fails and the tracking service knows the run,
    [_wait_for] returns only for a run that succeeded, raises "Run (ID
    ...) failed" for one that failed, and raises the interrupt again after
    cancelling; it reads the run, waits, cancels if interrupted, reads the
    run again and writes FINISHED or FAILED whatever status it finds
    there, so that a status the user code has set is overwritten.  An
    exception of [wait()] other than the interrupt is passed on with
    nothing reported. *)
Theorem wait_for_outcome
    (W : world) (sr : SubmittedRun) (id : string) (s : state) (r0 r1 : RunRecord) :
  no_faults W ->
  sr_run_id sr = Some id ->
  runs s !! id = Some r0 ->
  records_at_report sr (runs s) !! id = Some r1 ->
  let o := fst (sr_wait sr (runs s)) in
  let out := _wait_for W sr s in
  fst out
  = match o with
    | WaitReturns true => Ok tt
    | WaitReturns false => Raise (run_failed (Some id))
    | WaitInterrupted => Raise KeyboardInterrupt
    | WaitRaises e => Raise (Collaborator e)
    end /\
  events (snd out)
  = events s ++ [EvGetRun id; EvWait (sr_pid sr)]
    ++ match o with
       | WaitReturns _ => report_calls id (verdict o)
       | WaitInterrupted => EvCancel (sr_pid sr) :: report_calls id "FAILED"
       | WaitRaises _ => []
       end /\
  runs (snd out) !! id
  = match o with
    | WaitRaises _ => Some r1
    | _ => Some (reported (verdict o) r1)
    end.
Proof.
  intros Hf Hid Hr0 Hr1 o out.
  assert (E : out =
    match o with
    | WaitRaises e =>
        (Raise (Collaborator e),
         set_runs (snd (sr_wait sr (runs s)))
                  (log (EvWait (sr_pid sr)) (log (EvGetRun id) s)))
    | _ =>
        (match o with
         | WaitReturns true => Ok tt
         | WaitReturns false => Raise (run_failed (Some id))
         | _ => Raise KeyboardInterrupt
         end,
         {| events := events s ++ [EvGetRun id; EvWait (sr_pid sr)]
                      ++ match o with
                         | WaitInterrupted => [EvCancel (sr_pid sr)]
                         | _ => []
                         end ++ report_calls id (verdict o);
            runs := <[id := reported (verdict o) r1]>
                      (records_at_report sr (runs s)) |})
    end).
  { subst out o. unfold _wait_for. cbv zeta. rewrite Hid.
    unfold records_at_report in *.
    unfold bind at 1.
    rewrite (except_KI_pass _ _ s
               (Ok (Some {| run_id := id; experiment_id := rec_experiment_id r0;
                            status := rec_status r0 |})) (log (EvGetRun id) s)).
    2:{ unfold bind. rewrite get_run_run, Hf, Hr0. reflexivity. }
    2:{ discriminate. }
    unfold except_KeyboardInterrupt. unfold bind at 1. rewrite wait_run.
    cbn [runs log].
    destruct (sr_wait sr (runs s)) as [o rs1] eqn:Hw. cbn [fst snd] in *.
    destruct o as [[|]| |e].
    - erewrite maybe_no_faults; [|exact Hf|cbn [runs set_runs run_id]; exact Hr1].
      cbn [events runs set_runs log run_id verdict].
      rewrite <- !app_assoc. reflexivity.
    - unfold bind at 1.
      erewrite maybe_no_faults; [|exact Hf|cbn [runs set_runs run_id]; exact Hr1].
      cbn [events runs set_runs log run_id verdict raise].
      rewrite <- !app_assoc. reflexivity.
    - unfold bind at 1. rewrite cancel_run.
      erewrite maybe_no_faults; [|exact Hf|cbn [runs set_runs run_id]; exact Hr1].
      cbn [events runs set_runs log run_id verdict].
      rewrite <- !app_assoc. reflexivity.
    - reflexivity. }
  rewrite E. clear E. unfold records_at_report in *. subst o.
  destruct (sr_wait sr (runs s)) as [o rs1]. cbn [fst snd] in *.
  destruct o as [[|]| |e]; cbn [fst snd events runs set_runs log];
    (split; [reflexivity|]); (split; [try reflexivity|]);
    try apply lookup_insert_eq.
  - simpl. rewrite <- !app_assoc. reflexivity.
  - exact Hr1.
Qed.

Lemma wait_for_outcome_witness :
  fst (_wait_for Scenario.plain Scenario.self_reporting Scenario.running)
  = Raise (run_failed (Some "run-1")) /\
  events (snd (_wait_for Scenario.plain Scenario.self_reporting Scenario.running))
  = [EvGetRun "run-1"; EvWait 7; EvGetRun "run-1"; EvSetTerminated "run-1" "FAILED"] /\
  runs (snd (_wait_for Scenario.plain Scenario.self_reporting Scenario.running))
    !! "run-1"
  = Some {| rec_experiment_id := "0"; rec_status := "FAILED" |}.
Proof.
  exact (wait_for_outcome Scenario.plain Scenario.self_reporting "run-1"
           Scenario.running
           {| rec_experiment_id := "0"; rec_status := "RUNNING" |}
           {| rec_experiment_id := "0"; rec_status := "FINISHED" |}
           (fun _ => eq_refl) eq_refl
           ltac:(vm_compute; reflexivity) ltac:(vm_compute; reflexivity)).
Defined.

(** ** Docker *)

Lemma try_finally_call_events {A} W (body : M A) (ev : event) s :
  events (snd (try_finally body (call W ev) s)) = events (snd (body s)) ++ [ev].
Proof.
  unfold try_finally. destruct (body s) as [r s1]. rewrite call_run.
  destruct (w_fault W ev); reflexivity.
Qed.

(** X18: once its temporary directory is made, the build context ends
    by removing that directory on every path, also when the copy or the
    archive fails, and removes nothing else. *)
Theorem docker_build_ctx_always_removes_directory
    (W : world) (work_dir dockerfile_contents : string) (s : state) :
  let directory := w_mkdtemp W None (List.length (events s)) in
  let out := _create_docker_build_ctx W work_dir dockerfile_contents s in
  match w_fault W (EvMkdtemp None directory) with
  | Some e => out = (Raise (Collaborator e), log (EvMkdtemp None directory) s)
  | None =>
      exists l,
        events (snd out)
        = events s ++ EvMkdtemp None directory :: l ++ [EvRmtree directory] /\
        Forall (fun ev => is_cleanup ev = false) l
  end.
Proof.
  intros directory out. subst out. unfold _create_docker_build_ctx.
  pose proof (mkdtemp_run W None s) as Hd. fold directory in Hd.
  destruct (w_fault W (EvMkdtemp None directory)) eqn:Hf.
  - rewrite (bind_raise _ _ _ _ _ Hd). reflexivity.
  - rewrite (bind_ok _ _ _ _ _ Hd). rewrite try_finally_call_events.
    match goal with |- context [events (snd (?body ?s1))] =>
      assert (Hs : spec (fun ev => is_cleanup ev = false) (fun _ => True) body)
        by (spec_auto; auto);
      destruct (Hs s1) as [(l & E & F) _]
    end.
    exists l. rewrite E. simpl. rewrite <- !app_assoc. auto.
Qed.

(** X19: a project without a name is refused before anything is
    called, and a working directory without a git commit makes the image
    build fail with a [TypeError], again with nothing called. *)
Theorem docker_image_needs_name_and_commit
    (W : world) (work_dir : string) (project : Project) (active_run : RunInfo)
    (s : state) :
  let out := _build_docker_image W work_dir project active_run s in
  match name project with
  | Some (String _ _) =>
      _get_git_commit W work_dir = None ->
      snd out = s /\ exists msg, fst out = Raise (TypeError msg)
  | _ => out = (Raise docker_name_missing, s)
  end.
Proof.
  intros out. subst out. unfold _build_docker_image.
  destruct (name project) as [[|c n]|]; try reflexivity.
  intros ->. split; [reflexivity|]. eexists. reflexivity.
Qed.

Lemma docker_image_needs_name_and_commit_witness :
  exists msg,
    fst (_build_docker_image Scenario.plain "/work" Cases.docker_project Cases.run_1
                             Scenario.start)
    = Raise (TypeError msg).
Proof.
  exact (proj2 (docker_image_needs_name_and_commit Scenario.plain "/work"
                  Cases.docker_project Cases.run_1 Scenario.start eq_refl)).
Defined.

Lemma docker_build_ctx_run W work_dir contents s :
  no_faults W ->
  let directory := w_mkdtemp W None (List.length (events s)) in
  let dst_path := posixpath.join directory "mlflow-project-contents" in
  exists result_path,
    _create_docker_build_ctx W work_dir contents s
    = (Ok result_path,
       {| events := events s
            ++ [EvMkdtemp None directory;
                EvCopyTree work_dir dst_path;
                EvWriteFile (posixpath.join dst_path "Dockerfile.mlflow-autogenerated")
                            contents;
                EvMkstemp result_path;
                EvMakeTarfile result_path dst_path "mlflow-project-docker-build-context";
                EvRmtree directory];
          runs := runs s |}).
Proof.
  intros Hf directory dst_path. eexists.
  unfold _create_docker_build_ctx.
  pose proof (mkdtemp_run W None s) as Hd. fold directory in Hd. rewrite Hf in Hd.
  rewrite (bind_ok _ _ _ _ _ Hd). unfold try_finally. cbv zeta. fold dst_path.
  rewrite (bind_ok _ _ _ tt _ ltac:(rewrite call_run, Hf; reflexivity)).
  rewrite (bind_ok _ _ _ tt _ ltac:(rewrite call_run, Hf; reflexivity)).
  unfold bind at 1. unfold get_events. cbv iota beta.
  rewrite (bind_ok _ _ _ tt _ ltac:(rewrite call_run, Hf; reflexivity)).
  rewrite (bind_ok _ _ _ tt _ ltac:(rewrite call_run, Hf; reflexivity)).
  unfold ret. rewrite call_run, Hf. unfold log. cbn [events runs].
  rewrite <- !app_assoc. reflexivity.
Qed.

(** X20: with a name, a docker environment and a commit, and no failing
    call, the image is
    tagged [mlflow-<name>-<first seven characters of the commit>]: the
    build context is made from a copy of the working directory and the
    generated Dockerfile, the image is built from it, and only after a
    successful build is the context file removed and are the two image
    tags set; a failing build leaves the context file behind. *)
Theorem docker_image_build
    (W : world) (work_dir : string) (project : Project) (active_run : RunInfo)
    (s : state) (c : ascii) (n commit : string) (env : dict) :
  no_faults W ->
  name project = Some (String c n) ->
  docker_env project = Some env ->
  _get_git_commit W work_dir = Some commit ->
  let tag_name := "mlflow-" +:+ String c n +:+ "-" +:+ Py.slice_to commit 7 in
  let image := default "None" (dict_get "image" env) in
  let directory := w_mkdtemp W None (List.length (events s)) in
  let dst_path := posixpath.join directory "mlflow-project-contents" in
  let out := _build_docker_image W work_dir project active_run s in
  exists build_ctx_path,
    fst out
    = match w_docker_build W tag_name build_ctx_path with
      | inl e => Raise (Collaborator e)
      | inr _ => Ok tag_name
      end /\
    events (snd out)
    = events s
      ++ [EvMkdtemp None directory;
          EvCopyTree work_dir dst_path;
          EvWriteFile (posixpath.join dst_path "Dockerfile.mlflow-autogenerated")
                      (dockerfile_for image tag_name);
          EvMkstemp build_ctx_path;
          EvMakeTarfile build_ctx_path dst_path "mlflow-project-docker-build-context";
          EvRmtree directory;
          EvDockerBuild tag_name
            "mlflow-project-docker-build-context/Dockerfile.mlflow-autogenerated"
            build_ctx_path]
      ++ match w_docker_build W tag_name build_ctx_path with
         | inl _ => []
         | inr image_id =>
             [EvRemove build_ctx_path;
              EvSetTag (run_id active_run) MLFLOW_DOCKER_IMAGE_NAME tag_name;
              EvSetTag (run_id active_run) MLFLOW_DOCKER_IMAGE_ID image_id]
         end.
Proof.
  intros Hf Hn He Hc tag_name image directory dst_path out.
  destruct (docker_build_ctx_run W work_dir (dockerfile_for image tag_name) s Hf)
    as (p & Hctx).
  exists p.
  assert (E : out =
    (match w_docker_build W tag_name p with
     | inl e => Raise (Collaborator e)
     | inr _ => Ok tag_name
     end,
     {| events := events s
          ++ [EvMkdtemp None directory;
              EvCopyTree work_dir dst_path;
              EvWriteFile (posixpath.join dst_path "Dockerfile.mlflow-autogenerated")
                          (dockerfile_for image tag_name);
              EvMkstemp p;
              EvMakeTarfile p dst_path "mlflow-project-docker-build-context";
              EvRmtree directory;
              EvDockerBuild tag_name
                "mlflow-project-docker-build-context/Dockerfile.mlflow-autogenerated" p]
          ++ match w_docker_build W tag_name p with
             | inl _ => []
             | inr image_id =>
                 [EvRemove p;
                  EvSetTag (run_id active_run) MLFLOW_DOCKER_IMAGE_NAME tag_name;
                  EvSetTag (run_id active_run) MLFLOW_DOCKER_IMAGE_ID image_id]
             end;
        runs := runs s |})).
  { subst out. unfold _build_docker_image. rewrite Hn, Hc, He. cbv zeta. cbn [default].
    fold tag_name. fold image.
    change ("FROM " +:+ image +:+ NL +:+ "LABEL Name=" +:+ tag_name +:+ NL
            +:+ "COPY " +:+ _PROJECT_TAR_ARCHIVE_NAME +:+ "/* /mlflow/projects/code/"
            +:+ NL +:+ "WORKDIR /mlflow/projects/code/" +:+ NL)
      with (dockerfile_for image tag_name).
    rewrite (bind_ok _ _ _ _ _ Hctx).
    unfold bind at 1. unfold emit. cbv iota beta.
    unfold bind at 1. unfold lift_foreign.
    destruct (w_docker_build W tag_name p) as [e|image_id].
    - unfold raise, log. cbn [events runs]. rewrite <- !app_assoc. reflexivity.
    - unfold ret at 1. cbv iota beta. unfold bind at 1. cbv iota beta.
      unfold MlflowClient_set_tag.
      rewrite (bind_ok _ _ _ tt _ ltac:(rewrite call_run, Hf; reflexivity)).
      rewrite (bind_ok _ _ _ tt _ ltac:(rewrite call_run, Hf; reflexivity)).
      unfold ret, log. cbn [events runs]. rewrite <- !app_assoc. reflexivity. }
  rewrite E. split; reflexivity.
Qed.

Lemma docker_image_build_witness :
  fst (_build_docker_image Cases.in_git "/work" Cases.docker_project Cases.run_1
                           Scenario.start)
  = Ok "mlflow-tutorial-0123456".
Proof.
  destruct (docker_image_build Cases.in_git "/work" Cases.docker_project Cases.run_1
              Scenario.start "t" "utorial" "0123456789abcdef0123456789abcdef01234567"
              [("image", "python:3.7")]
              (fun _ => eq_refl) eq_refl eq_refl eq_refl) as (p & H1 & _).
  exact H1.
Defined.

(** ** What [_run] calls *)

Lemma raises_only_anything {A} (r : result A) : raises_only anything r.
Proof. destruct r; exact I. Qed.

Lemma raises_only_anything_or {A} (R : exn -> Prop) (r : result A) :
  raises_only (fun x => anything x \/ R x) r.
Proof. destruct r; simpl; auto. left. exact I. Qed.

Ltac unfold_run :=
  unfold _run, _fetch_project, _unzip_repo, _fetch_zip_repo, _fetch_git_repo,
    _create_run, _is_valid_branch_name, _validate_docker_env,
    _validate_docker_installation, _build_docker_image, _create_docker_build_ctx,
    _get_or_create_conda_env, _get_entry_point_command, _get_storage_dir,
    _run_entry_point, _invoke_mlflow_run_subprocess, _run_mlflow_run_cmd, Popen,
    MlflowClient_get_run, MlflowClient_create_run, MlflowClient_log_param,
    MlflowClient_set_tag, exec_cmd, mkdtemp.

Ltac any_side :=
  idtac;
  match goal with
  | |- anything _ => exact I
  | |- forall _, anything _ => intros ?; exact I
  | |- raises_only anything _ => apply raises_only_anything
  | |- raises_only (fun x => anything x \/ _) _ => apply raises_only_anything_or
  | |- anything _ \/ _ => left; exact I
  | |- forall _, anything _ \/ _ => intros ?; left; exact I
  end.

(** One step through [_run]; [side] settles what is asked of a call. *)
Ltac trace_step side :=
  first
    [ spec_step
    | match goal with
      | |- spec _ _ (except_EnvironmentError _ _) =>
          apply spec_except_EnvironmentError
      end
    | any_side
    | side ].

Ltac by_refl := idtac; match goal with |- _ = _ => reflexivity end.

Lemma run_end_spec W uri exp entry_point version parameters backend cfg use_conda
      storage synchronous id :
  spec (fun ev => is_end_of_run ev = false) anything
       (_run W uri exp entry_point version parameters backend cfg use_conda storage
             synchronous id).
Proof. unfold_run. cbv zeta. repeat trace_step by_refl. Qed.

(** X22: [_run] only launches: on no path, successful or failing, does
    it wait for the run, cancel it or report a final status; that is left
    to the caller. *)
Theorem run_never_waits_or_reports
    (W : world) (uri exp_id entry_point : string) (version : option string)
    (parameters : option dict) (backend backend_config : option string)
    (use_conda : bool) (storage_dir : option string) (synchronous : bool)
    (id : option string) (s : state) :
  exists l,
    events (snd (_run W uri exp_id entry_point version parameters backend backend_config
                      use_conda storage_dir synchronous id s))
    = events s ++ l /\
    Forall (fun ev => is_end_of_run ev = false) l.
Proof.
  exact (proj1 (run_end_spec W uri exp_id entry_point version parameters backend
                             backend_config use_conda storage_dir synchronous id s)).
Qed.

Ltac resolves_side :=
  idtac;
  match goal with
  | |- resolves_with _ _ => cbn; auto
  end.

(** X23: with a run id, [_run] looks up that run only and creates
    none; without one (or with an empty one) it looks up no run, so the
    only run it can use is the one it creates. *)
Theorem run_looks_up_or_creates
    (W : world) (uri exp_id entry_point : string) (version : option string)
    (parameters : option dict) (backend backend_config : option string)
    (use_conda : bool) (storage_dir : option string) (synchronous : bool)
    (id : option string) (s : state) :
  exists l,
    events (snd (_run W uri exp_id entry_point version parameters backend backend_config
                      use_conda storage_dir synchronous id s))
    = events s ++ l /\
    Forall (resolves_with id) l.
Proof.
  assert (H : spec (resolves_with id) anything
                   (_run W uri exp_id entry_point version parameters backend
                         backend_config use_conda storage_dir synchronous id)).
  { unfold_run. cbv zeta.
    destruct id as [[|c i]|]; cbn [Py.truthy_opt Py.truthy default negb];
      repeat trace_step resolves_side. }
  exact (proj1 (H s)).
Qed.


Ltac docker_help_side :=
  idtac;
  match goal with
  | |- only_docker_help _ =>
      let cmd := fresh "cmd" in
      let H := fresh "H" in
      intros cmd H; first [discriminate H | injection H as <-; reflexivity]
  end.

(** X25: with [use_conda] off, the only command [_run] executes by
    itself is [docker --help]: conda is never invoked. *)
Theorem run_without_conda
    (W : world) (uri exp_id entry_point : string) (version : option string)
    (parameters : option dict) (backend backend_config : option string)
    (storage_dir : option string) (synchronous : bool)
    (id : option string) (s : state) :
  exists l,
    events (snd (_run W uri exp_id entry_point version parameters backend backend_config
                      false storage_dir synchronous id s))
    = events s ++ l /\
    Forall only_docker_help l.
Proof.
  assert (H : spec only_docker_help anything
                   (_run W uri exp_id entry_point version parameters backend
                         backend_config false storage_dir synchronous id)).
  { unfold_run. cbv zeta. repeat trace_step docker_help_side. }
  exact (proj1 (H s)).
Qed.

Lemma invoke_subprocess_inv W work_dir entry_point parameters exp_id use_conda
      storage_dir id s sr s' :
  _invoke_mlflow_run_subprocess W work_dir entry_point parameters exp_id use_conda
                                storage_dir id s = (Ok sr, s') ->
  events s'
  = events s
    ++ [EvPopen (ArgList (_build_mlflow_run_cmd work_dir entry_point storage_dir
                                                 use_conda id parameters))
                None (_get_run_env_vars W id exp_id) true] /\
  sr = LocalSubmittedRun W id (w_popen W (List.length (events s))).
Proof.
  unfold _invoke_mlflow_run_subprocess, _run_mlflow_run_cmd, Popen. cbv zeta. intros H.
  apply bind_inv in H as [(e & _ & [=])|(pid & s1 & Hp & H)].
  injection H as <- <-.
  apply bind_inv in Hp as [(e & _ & [=])|(evs & ? & Hg & Hp)].
  injection Hg as <- <-.
  apply bind_inv in Hp as [(e & _ & [=])|([] & ? & Hc & Hp)].
  injection Hp as <- <-. rewrite call_run in Hc. injection Hc as _ <-.
  split; reflexivity.
Qed.

(** X26: a local run that is not synchronous and returns has, as its
    last call, started [mlflow run] on the fetched working directory as
    the leader of a process group of its own, with the entry point, the id
    of the run it resolved (so the child creates no second run), the
    storage directory if given, [--no-conda] exactly when conda is off,
    and the caller's parameters as [-P key=value]; the handle returned
    carries that run id and that process. *)
Theorem run_asynchronous_launch
    (W : world) (uri exp_id entry_point : string) (version : option string)
    (parameters : option dict) (backend backend_config : option string)
    (use_conda : bool) (storage_dir : option string) (id : option string)
    (s s' : state) (sr : SubmittedRun) :
  backend = None \/ backend = Some "local" ->
  _run W uri exp_id entry_point version parameters backend backend_config use_conda
       storage_dir false id s = (Ok sr, s') ->
  exists work_dir s1 l0 rid,
    _fetch_project W uri false version s = (Ok work_dir, s1) /\
    events s'
    = l0 ++ [EvPopen
               (ArgList (["mlflow"; "run"; work_dir; "-e"; entry_point; "--run-id"; rid]
                         ++ match storage_dir with
                            | Some d => ["--storage-dir"; d]
                            | None => []
                            end
                         ++ (if use_conda then [] else ["--no-conda"])
                         ++ flat_map (fun kv => ["-P"; fst kv +:+ "=" +:+ snd kv])
                                     (default [] parameters)))
               None (_get_run_env_vars W rid exp_id) true] /\
    sr = LocalSubmittedRun W rid (w_popen W (List.length l0)) /\
    (Py.truthy_opt id = true -> id = Some rid).
Proof.
  intros Hb H.
  apply run_inv in H as [(e & [=] & _)|(s2 & l & wd & p & ar & Hr & Hdis)].
  assert (Hbk : backend_is backend "databricks" = false /\
                backend_is backend "local" || negb (is_Some_b backend) = true)
    by (destruct Hb as [->| ->]; split; reflexivity).
  destruct Hbk as [Hb1 Hb2].
  unfold run_dispatch in Hdis. rewrite Hb1, Hb2 in Hdis. cbv zeta in Hdis.
  apply bind_inv in Hdis as [(e & _ & [=])|(cs & s3 & _ & Hdis)].
  apply invoke_subprocess_inv in Hdis as [Hev ->].
  destruct (reached_fetch _ _ _ _ _ _ _ _ _ _ _ _ _ _ Hr) as (s1 & Hf).
  exists wd, s1, (events s3), (run_id ar).
  split; [exact Hf|]. split.
  { rewrite Hev. unfold _build_mlflow_run_cmd. destruct use_conda; reflexivity. }
  split; [reflexivity|].
  intros Ht. destruct (reached_trace _ _ _ _ _ _ _ _ _ _ _ _ _ _ Hr)
    as (ep & fp & xp & l1 & l2 & _ & _ & _ & _ & Hid).
  rewrite Ht in Hid. exact Hid.
Qed.

Lemma run_asynchronous_launch_witness :
  exists sr s',
    _run Scenario.tutorial "/tmp/proj#sub" "0" "main" None (Some [("alpha", "0.5")])
         None None false (Some "/data") false None Scenario.start = (Ok sr, s') /\
    exists work_dir l0 rid,
      events s'
      = l0 ++ [EvPopen
                 (ArgList ["mlflow"; "run"; work_dir; "-e"; "main"; "--run-id"; rid;
                           "--storage-dir"; "/data"; "--no-conda"; "-P"; "alpha=0.5"])
                 None (_get_run_env_vars Scenario.tutorial rid "0") true] /\
      sr_run_id sr = Some rid.
Proof.
  destruct (_run Scenario.tutorial "/tmp/proj#sub" "0" "main" None
                 (Some [("alpha", "0.5")]) None None false (Some "/data") false None
                 Scenario.start) as [[sr|e] s'] eqn:E.
  - exists sr, s'. split; [reflexivity|].
    destruct (run_asynchronous_launch Scenario.tutorial "/tmp/proj#sub" "0" "main" None
                (Some [("alpha", "0.5")]) None None false (Some "/data") None
                Scenario.start s' sr (or_introl eq_refl) E)
      as (wd & s1 & l0 & rid & _ & He & -> & _).
    exists wd, l0, rid. split; [exact He | reflexivity].
  - exfalso. vm_compute in E. discriminate E.
Defined.

(** ** The docker command *)

Lemma dict_get_set (k k' v : string) (d : dict) :
  dict_get k (dict_set k' v d) = if String.eqb k' k then Some v else dict_get k d.
Proof.
  induction d as [|[k0 v0] d IH]; cbn [dict_set dict_get].
  - reflexivity.
  - destruct (String.eqb k0 k') eqn:E0; cbn [dict_get].
    + apply String.eqb_eq in E0. subst k0.
      destruct (String.eqb k' k); reflexivity.
    + rewrite IH. destruct (String.eqb k0 k) eqn:E1; [|reflexivity].
      apply String.eqb_eq in E1. subst k0. rewrite String.eqb_sym, E0. reflexivity.
Qed.

Lemma dict_set_keys (k v x : string) (d : dict) :
  In x (List.map fst (dict_set k v d)) -> x = k \/ In x (List.map fst d).
Proof.
  induction d as [|[k0 v0] d IH]; cbn [dict_set List.map fst In].
  - intros [<-|[]]. auto.
  - destruct (String.eqb k0 k) eqn:E0; cbn [List.map fst In].
    + intros [<-|H]; auto.
    + intros [<-|H]; auto. destruct (IH H); auto.
Qed.

Lemma dict_set_NoDup (k v : string) (d : dict) :
  List.NoDup (List.map fst d) -> List.NoDup (List.map fst (dict_set k v d)).
Proof.
  induction d as [|[k0 v0] d IH]; cbn [dict_set List.map fst]; intros H.
  - constructor; [intros []|constructor].
  - inversion H as [|? ? Hn Hd]; subst.
    destruct (String.eqb k0 k) eqn:E0; cbn [List.map fst].
    + apply String.eqb_eq in E0. subst k0. constructor; assumption.
    + constructor; [|exact (IH Hd)].
      intros Hin. apply dict_set_keys in Hin as [->|Hin]; [|exact (Hn Hin)].
      rewrite String.eqb_refl in E0. discriminate.
Qed.

Lemma set_if_NoDup (k : string) (v : option string) (d : dict) :
  List.NoDup (List.map fst d) -> List.NoDup (List.map fst (set_if k v d)).
Proof.
  intros H. unfold set_if. destruct v as [x|]; [|exact H].
  destruct (Py.truthy x); [apply dict_set_NoDup|]; exact H.
Qed.

Lemma dict_get_set_if (k k' : string) (v : option string) (d : dict) :
  k' <> k -> dict_get k (set_if k' v d) = dict_get k d.
Proof.
  intros Hne. unfold set_if. destruct v as [x|]; [|reflexivity].
  destruct (Py.truthy x); [|reflexivity].
  rewrite dict_get_set. apply String.eqb_neq in Hne. rewrite Hne. reflexivity.
Qed.

Lemma NoDup_head_ne (x y : string) (l : list string) :
  List.NoDup (x :: l) -> In y l -> y <> x.
Proof. intros H Hin ->. inversion H; contradiction. Qed.

(** X21: the docker command is [docker run --rm], the mount of the
    local tracking directory when the tracking URI is local, one [-e]
    option per variable and the image.  When the variable names are
    distinct no variable is passed twice, the run id and the experiment id
    are those of the run, and the tracking URI the container sees is
    [databricks] for a Databricks URI, else the mounted directory for a
    local one, else the host's URI; the Databricks variables are set for a
    Databricks URI only. *)
Theorem docker_command_environment (W : world) (image : string) (active_run : RunInfo) :
  run_vars_distinct W ->
  let uri := w_tracking_uri W in
  let is_local := w_tracking_is_local_uri W uri in
  let is_databricks := w_tracking_is_databricks_uri W uri in
  exists env,
    _get_docker_command W image active_run
    = ["docker"; "run"; "--rm"]
      ++ (if is_local
          then ["-v"; w_local_file_uri_to_path W uri +:+ ":/mlflow/tmp/mlruns"]
          else [])
      ++ env_options env ++ [image] /\
    List.NoDup (List.map fst env) /\
    dict_get (w_RUN_ID_ENV_VAR W) env = Some (run_id active_run) /\
    dict_get (w_EXPERIMENT_ID_ENV_VAR W) env = Some (experiment_id active_run) /\
    dict_get (w_TRACKING_URI_ENV_VAR W) env
    = Some (if is_databricks then "databricks"
            else if is_local then "/mlflow/tmp/mlruns" else uri) /\
    (forall k, In k databricks_vars ->
               is_databricks = false -> dict_get k env = None).
Proof.
  intros Hd uri is_local is_databricks.
  unfold run_vars_distinct in Hd. cbn [app] in Hd.
  set (R := w_RUN_ID_ENV_VAR W) in *.
  set (T := w_TRACKING_URI_ENV_VAR W) in *.
  set (X := w_EXPERIMENT_ID_ENV_VAR W) in *.
  assert (HRT : T <> R) by (eapply NoDup_head_ne; [exact Hd | cbn; auto]).
  assert (HRX : X <> R) by (eapply NoDup_head_ne; [exact Hd | cbn; auto]).
  assert (HRD : forall k, In k databricks_vars -> k <> R)
    by (intros k Hk; eapply NoDup_head_ne; [exact Hd | cbn; auto]).
  inversion Hd as [|? ? _ Hd1]; subst.
  assert (HTX : X <> T) by (eapply NoDup_head_ne; [exact Hd1 | cbn; auto]).
  assert (HTD : forall k, In k databricks_vars -> k <> T)
    by (intros k Hk; eapply NoDup_head_ne; [exact Hd1 | cbn; auto]).
  inversion Hd1 as [|? ? _ Hd2]; subst.
  assert (HXD : forall k, In k databricks_vars -> k <> X)
    by (intros k Hk; eapply NoDup_head_ne; [exact Hd2 | exact Hk]).
  assert (Hne : forall a b : string, a <> b -> String.eqb a b = false)
    by (intros a b; apply String.eqb_neq).
  set (base := _get_run_env_vars W (run_id active_run) (experiment_id active_run)).
  assert (Hbase : List.NoDup (List.map fst base))
    by (unfold base, _get_run_env_vars; do 3 apply dict_set_NoDup; constructor).
  assert (HbR : dict_get R base = Some (run_id active_run)).
  { unfold base, _get_run_env_vars. fold R T X. rewrite !dict_get_set.
    rewrite (Hne X R HRX), (Hne T R HRT), String.eqb_refl. reflexivity. }
  assert (HbX : dict_get X base = Some (experiment_id active_run)).
  { unfold base, _get_run_env_vars. fold R T X. rewrite !dict_get_set.
    rewrite String.eqb_refl. reflexivity. }
  assert (HbT : dict_get T base = Some uri).
  { unfold base, _get_run_env_vars. fold R T X. rewrite !dict_get_set.
    rewrite (Hne X T HTX), String.eqb_refl. reflexivity. }
  assert (HbD : forall k, In k databricks_vars -> dict_get k base = None).
  { intros k Hk. unfold base, _get_run_env_vars. fold R T X. rewrite !dict_get_set.
    rewrite (Hne X k), (Hne T k), (Hne R k); [reflexivity| | |]; intros <-.
    - exact (HRD _ Hk eq_refl).
    - exact (HTD _ Hk eq_refl).
    - exact (HXD _ Hk eq_refl). }
  set (env1 := if is_local then dict_set T "/mlflow/tmp/mlruns" base else base).
  assert (H1 : List.NoDup (List.map fst env1) /\
               dict_get R env1 = Some (run_id active_run) /\
               dict_get X env1 = Some (experiment_id active_run) /\
               dict_get T env1 = Some (if is_local then "/mlflow/tmp/mlruns" else uri) /\
               forall k, In k databricks_vars -> dict_get k env1 = None).
  { unfold env1. destruct is_local; [|auto].
    rewrite !dict_get_set, String.eqb_refl, (Hne T R HRT), (Hne T X (not_eq_sym HTX)).
    repeat split; auto using dict_set_NoDup.
    intros k Hk. rewrite dict_get_set, (Hne T k); [auto|].
    intros <-. exact (HTD _ Hk eq_refl). }
  destruct H1 as (N1 & R1 & X1 & T1 & D1).
  set (config := w_databricks_host_creds W (w_db_profile_from_uri W uri)).
  set (env2 :=
         if is_databricks then
           set_if "DATABRICKS_INSECURE" (ignore_tls_verification config)
             (set_if "DATABRICKS_TOKEN" (token config)
                (set_if "DATABRICKS_PASSWORD" (password config)
                   (set_if "DATABRICKS_USERNAME" (username config)
                      (dict_set "DATABRICKS_HOST" (host config)
                         (dict_set T "databricks" env1)))))
         else env1).
  exists env2. split.
  { unfold _get_docker_command. fold uri is_local is_databricks base T config.
    unfold env2, env1, env_options, _MLFLOW_DOCKER_TRACKING_DIR_PATH.
    destruct is_local; cbv zeta iota beta; rewrite <- ?app_assoc; reflexivity. }
  assert (In "DATABRICKS_HOST" databricks_vars /\
          In "DATABRICKS_USERNAME" databricks_vars /\
          In "DATABRICKS_PASSWORD" databricks_vars /\
          In "DATABRICKS_TOKEN" databricks_vars /\
          In "DATABRICKS_INSECURE" databricks_vars) as (I1 & I2 & I3 & I4 & I5)
    by (cbn; tauto).
  unfold env2. destruct is_databricks; [|repeat split; auto].
  split; [repeat apply set_if_NoDup; repeat apply dict_set_NoDup; exact N1|].
  rewrite !dict_get_set_if by auto.
  rewrite !dict_get_set, String.eqb_refl.
  rewrite (Hne _ _ (HRD _ I1)), (Hne _ _ (HXD _ I1)), (Hne _ _ (HTD _ I1)).
  rewrite (Hne T R HRT), (Hne T X (not_eq_sym HTX)).
  repeat split; auto. intros k _ [=].
Qed.

Lemma docker_command_environment_witness :
  exists env,
    _get_docker_command Scenario.plain "mlflow-tutorial-0123456" Cases.run_1
    = ["docker"; "run"; "--rm"] ++ env_options env ++ ["mlflow-tutorial-0123456"] /\
    List.NoDup (List.map fst env) /\
    dict_get "MLFLOW_TRACKING_URI" env = Some "http://localhost:5000".
Proof.
  destruct (docker_command_environment Scenario.plain "mlflow-tutorial-0123456"
              Cases.run_1) as (env & H & Hn & _ & _ & Ht & _).
  - repeat (constructor; [cbn; intuition discriminate|]). constructor.
  - exists env. split; [exact H|]. split; [exact Hn | exact Ht].
Defined.

(** ** [run] *)

Example splitext_examples :
  genericpath.splitext "conf/cluster.json" = ("conf/cluster", ".json") /\
  genericpath.splitext ".json" = (".json", "") /\
  genericpath.splitext "conf.d/cluster" = ("conf.d/cluster", "") /\
  genericpath.splitext "a/..json" = ("a/..json", "") /\
  genericpath.splitext "a/.b.json" = ("a/.b", ".json").
Proof. repeat split; vm_compute; reflexivity. Qed.

Lemma resolve_experiment_id_state S n i s :
  snd (_resolve_experiment_id S n i s) = s.
Proof.
  unfold _resolve_experiment_id.
  destruct (Py.truthy_opt n && Py.truthy_opt i); [reflexivity|].
  destruct (Py.truthy_opt n); [|reflexivity].
  unfold bind, lift_foreign.
  destruct (sv_get_experiment_by_name S (default "" n)) as [e|[x|]]; reflexivity.
Qed.

Lemma resolve_experiment_id_ok S n i s exp s' :
  _resolve_experiment_id S n i s = (Ok exp, s') ->
  s' = s /\ resolved_experiment S n i exp /\
  (Py.truthy_opt n && Py.truthy_opt i = false).
Proof.
  unfold _resolve_experiment_id, resolved_experiment.
  destruct (Py.truthy_opt n && Py.truthy_opt i) eqn:Hb; [discriminate|].
  destruct (Py.truthy_opt n).
  - unfold bind, lift_foreign.
    destruct (sv_get_experiment_by_name S (default "" n)) as [e|[x|]];
      try discriminate.
    cbn. intros [= <- <-]. repeat split. exists x. split; [reflexivity|].
    reflexivity.
  - cbn. intros [= <- <-]. repeat split.
Qed.

(** The two steps of [run] before the experiment is resolved leave the
    state alone. *)
Lemma run_inv_api W S uri entry_point version parameters name exp_id backend cfg
      use_conda storage synchronous id s r s' :
  run W S uri entry_point version parameters name exp_id backend cfg use_conda storage
      synchronous id s = (r, s') ->
  (s' = s /\ exists e, r = Raise e /\
                       (Py.truthy_opt name && Py.truthy_opt exp_id = true ->
                        e = only_one_experiment \/ exists f, e = Collaborator f)) \/
  (exists exp spec_dict,
     resolved_experiment S name exp_id exp /\
     Py.truthy_opt name && Py.truthy_opt exp_id = false /\
     bind (_run W uri exp entry_point version parameters backend spec_dict use_conda
                storage synchronous id)
          (fun sr => bind (if synchronous then _wait_for W sr else ret tt)
                          (fun _ => ret sr)) s = (r, s')).
Proof.
  unfold run. intros H.
  apply bind_inv in H as [(e & H & ->)|(spec_dict & s1 & H1 & H)].
  { left. destruct cfg as [[d|p]|]; try discriminate.
    destruct (Py.truthy p && String.eqb _ _); [|discriminate].
    unfold bind, lift_foreign in H.
    destruct (w_read_file W p) as [f|text]; cbn in H.
    - injection H as <- <-. eauto 6.
    - destruct (sv_json_load S text) as [f|d]; cbn in H; [|discriminate].
      injection H as <- <-. eauto 6. }
  assert (s1 = s) as ->.
  { destruct cfg as [[d|p]|]; try (injection H1 as _ <-; reflexivity).
    destruct (Py.truthy p && String.eqb _ _); [|injection H1 as _ <-; reflexivity].
    unfold bind, lift_foreign in H1.
    destruct (w_read_file W p) as [f|text]; cbn in H1; [discriminate|].
    destruct (sv_json_load S text) as [f|d]; cbn in H1; [discriminate|].
    injection H1 as _ <-. reflexivity. }
  apply bind_inv in H as [(e & H & ->)|([] & s1 & H2 & H)].
  { left. destruct (backend_is backend "databricks"); [|discriminate].
    destruct (sv_before_run_validations S _ cfg); [|discriminate].
    injection H as <- <-. eauto 6. }
  assert (s1 = s) as ->.
  { destruct (backend_is backend "databricks"); [|injection H2 as <-; reflexivity].
    destruct (sv_before_run_validations S _ cfg); [discriminate|].
    injection H2 as <-. reflexivity. }
  apply bind_inv in H as [(e & H & ->)|(exp & s1 & H3 & H)].
  { left. pose proof (resolve_experiment_id_state S name exp_id s) as Hs.
    rewrite H in Hs. cbn in Hs. subst s'. split; [reflexivity|].
    eexists. split; [reflexivity|]. intros Hb.
    unfold _resolve_experiment_id in H. rewrite Hb in H. injection H as <-. auto. }
  apply resolve_experiment_id_ok in H3 as (-> & Hres & Hb).
  right. exists exp, spec_dict. auto.
Qed.

(** X27: called with both an experiment name and an experiment id,
    [run] raises and has called nothing: no project is fetched and no run
    is created.  The exception is the [MlflowException] of
    [_resolve_experiment_id], unless reading the cluster specification or
    the Databricks validation failed before. *)
Theorem run_rejects_name_and_id
    (W : world) (S : services) (uri entry_point : string) (version : option string)
    (parameters : option dict) (experiment_name experiment_id : option string)
    (backend : option string) (backend_config : option backend_config_arg)
    (use_conda : bool) (storage_dir : option string) (synchronous : bool)
    (id : option string) (s : state) :
  Py.truthy_opt experiment_name = true ->
  Py.truthy_opt experiment_id = true ->
  let out := run W S uri entry_point version parameters experiment_name experiment_id
                 backend backend_config use_conda storage_dir synchronous id s in
  snd out = s /\
  (fst out = Raise only_one_experiment \/ exists f, fst out = Raise (Collaborator f)) /\
  _resolve_experiment_id S experiment_name experiment_id s
  = (Raise only_one_experiment, s).
Proof.
  intros Hn Hi out. subst out.
  destruct (run _ _ _ _ _ _ _ _ _ _ _ _ _ _ s) as [r s'] eqn:E. cbn [fst snd].
  apply run_inv_api in E as [(-> & e & -> & He)|(exp & d & _ & Hb & _)].
  - split; [reflexivity|]. split.
    + destruct He as [->|(f & ->)]; [rewrite Hn, Hi; reflexivity| |]; eauto.
    + unfold _resolve_experiment_id. rewrite Hn, Hi. reflexivity.
  - rewrite Hn, Hi in Hb. discriminate.
Qed.

Lemma except_KI_ok {A} (body : M A) (handler : M unit) s a s' :
  except_KeyboardInterrupt body handler s = (Ok a, s') -> body s = (Ok a, s').
Proof.
  unfold except_KeyboardInterrupt. destruct (body s) as [[x|e] s1]; [auto|].
  destruct e; try discriminate.
  destruct (handler s1) as [[u|e] s2]; discriminate.
Qed.

Lemma wait_for_ok W sr s s' :
  _wait_for W sr s = (Ok tt, s') -> fst (sr_wait sr (runs s)) = WaitReturns true.
Proof.
  unfold _wait_for. cbv zeta. intros H.
  apply bind_inv in H as [(e & _ & [=])|(ar & s1 & H1 & H)].
  apply except_KI_ok in H1. apply except_KI_ok in H.
  assert (Hr : runs s1 = runs s).
  { destruct (sr_run_id sr) as [i|].
    - apply bind_inv in H1 as [(e & _ & [=])|(r & s2 & Hg & H1)].
      injection H1 as _ <-. rewrite get_run_run in Hg. injection Hg as _ <-.
      reflexivity.
    - injection H1 as _ <-. reflexivity. }
  apply bind_inv in H as [(e & _ & [=])|(ok & s2 & Hw & H)].
  rewrite wait_run, Hr in Hw.
  destruct (fst (sr_wait sr (runs s))) as [[|]| |e]; try discriminate; [reflexivity|].
  injection Hw as <- <-.
  apply bind_inv in H as [(e & _ & [=])|(u & s3 & _ & H)]. discriminate.
Qed.

(** X28: a synchronous [run] returns a handle only after [_run]
    returned it, under the resolved experiment, and [wait()] on it
    answered true: a failed or interrupted run never comes back as a
    result. *)
Theorem run_blocking_returns_after_success
    (W : world) (S : services) (uri entry_point : string) (version : option string)
    (parameters : option dict) (experiment_name experiment_id : option string)
    (backend : option string) (backend_config : option backend_config_arg)
    (use_conda : bool) (storage_dir : option string)
    (id : option string) (s s' : state) (sr : SubmittedRun) :
  run W S uri entry_point version parameters experiment_name experiment_id
      backend backend_config use_conda storage_dir true id s = (Ok sr, s') ->
  exists exp spec_dict s1,
    resolved_experiment S experiment_name experiment_id exp /\
    _run W uri exp entry_point version parameters backend spec_dict use_conda
         storage_dir true id s = (Ok sr, s1) /\
    _wait_for W sr s1 = (Ok tt, s') /\
    fst (sr_wait sr (runs s1)) = WaitReturns true.
Proof.
  intros H.
  apply run_inv_api in H as [(_ & e & [=] & _)|(exp & d & Hres & _ & H)].
  apply bind_inv in H as [(e & _ & [=])|(sr' & s1 & Hrun & H)].
  apply bind_inv in H as [(e & _ & [=])|([] & s2 & Hw & H)].
  injection H as -> ->.
  exists exp, d, s1. repeat split; auto. exact (wait_for_ok _ _ _ _ Hw).
Qed.

Ltac created_side :=
  idtac;
  match goal with
  | |- created_under _ _ _ =>
      let e := fresh "e" in
      let tags := fresh "tags" in
      let H := fresh "H" in
      intros e tags H;
      first [discriminate H | injection H as <- _; split; reflexivity]
  end.

Lemma run_created_spec W uri exp entry_point version parameters backend cfg use_conda
      storage synchronous id :
  spec (created_under exp id) anything
       (_run W uri exp entry_point version parameters backend cfg use_conda storage
             synchronous id).
Proof.
  unfold_run. cbv zeta.
  destruct id as [[|c i]|]; cbn [Py.truthy_opt Py.truthy default negb];
    repeat trace_step created_side.
Qed.

Ltac wait_for_step side :=
  first
    [ match goal with
      | |- spec _ _ (except_KeyboardInterrupt _ _) =>
          apply spec_except_KeyboardInterrupt
      end
    | trace_step side ].

Ltac unfold_wait_for :=
  unfold _wait_for, _maybe_set_run_terminated, SubmittedRun_wait, SubmittedRun_cancel,
    MlflowClient_set_terminated, MlflowClient_get_run.

Lemma wait_for_created_spec W exp id sr :
  spec (created_under exp id) anything (_wait_for W sr).
Proof. unfold_wait_for. cbv zeta. repeat wait_for_step created_side. Qed.

(** X29: whatever [run] does, a run it creates is created under the
    resolved experiment -- the id of the experiment named when a name is
    given, otherwise the id given, and the current experiment when that
    id is empty or missing -- and only when no run id was passed. *)
Theorem run_creates_under_resolved_experiment
    (W : world) (S : services) (uri entry_point : string) (version : option string)
    (parameters : option dict) (experiment_name experiment_id : option string)
    (backend : option string) (backend_config : option backend_config_arg)
    (use_conda : bool) (storage_dir : option string) (synchronous : bool)
    (id : option string) (s : state) :
  let out := run W S uri entry_point version parameters experiment_name experiment_id
                 backend backend_config use_conda storage_dir synchronous id s in
  exists l,
    events (snd out) = events s ++ l /\
    forall e tags,
      In (EvCreateRun e tags) l ->
      Py.truthy_opt id = false /\
      resolved_experiment S experiment_name experiment_id e.
Proof.
  intros out. subst out.
  destruct (run _ _ _ _ _ _ _ _ _ _ _ _ _ _ s) as [r s'] eqn:E. cbn [fst snd].
  apply run_inv_api in E as [(-> & _)|(exp & d & Hres & _ & E)].
  { exists []. split; [rewrite app_nil_r; reflexivity | intros ? ? []]. }
  assert (Hs : spec (created_under exp id) anything
                 (bind (_run W uri exp entry_point version parameters backend d
                             use_conda storage_dir synchronous id)
                       (fun sr => bind (if synchronous then _wait_for W sr else ret tt)
                                       (fun _ => ret sr)))).
  { apply spec_bind; [apply run_created_spec|]. intros sr.
    apply spec_bind; [|intros; apply spec_ret].
    destruct synchronous; [apply wait_for_created_spec | apply spec_ret]. }
  destruct (spec_events _ _ _ _ _ _ Hs E) as (l & He & Hl).
  exists l. split; [exact He|]. intros e tags Hin.
  destruct (proj1 (List.Forall_forall _ _) Hl _ Hin e tags eq_refl) as [-> Hid].
  split; [exact Hid | exact Hres].
Qed.

(** X30: with [synchronous] off, [run] is [_run] under the resolved
    experiment (or fails before it with the state untouched): it never
    waits for the run, cancels it or reports its status. *)
Theorem run_not_blocking_never_waits
    (W : world) (S : services) (uri entry_point : string) (version : option string)
    (parameters : option dict) (experiment_name experiment_id : option string)
    (backend : option string) (backend_config : option backend_config_arg)
    (use_conda : bool) (storage_dir : option string)
    (id : option string) (s : state) :
  let out := run W S uri entry_point version parameters experiment_name experiment_id
                 backend backend_config use_conda storage_dir false id s in
  (exists l, events (snd out) = events s ++ l /\
             Forall (fun ev => is_end_of_run ev = false) l) /\
  (out = (fst out, s) \/
   exists exp spec_dict,
     resolved_experiment S experiment_name experiment_id exp /\
     out = _run W uri exp entry_point version parameters backend spec_dict use_conda
                storage_dir false id s).
Proof.
  intros out. subst out.
  destruct (run _ _ _ _ _ _ _ _ _ _ _ _ _ _ s) as [r s'] eqn:E. cbn [fst snd].
  apply run_inv_api in E as [(-> & _)|(exp & d & Hres & _ & E)].
  { split; [exists []; split; [rewrite app_nil_r; reflexivity | constructor] | auto]. }
  assert (E' : _run W uri exp entry_point version parameters backend d use_conda
                    storage_dir false id s = (r, s')).
  { unfold bind in E.
    destruct (_run W uri exp entry_point version parameters backend d use_conda
                   storage_dir false id s) as [[sr|e] s1]; exact E. }
  split.
  - exact (spec_events _ _ _ _ _ _
             (run_end_spec W uri exp entry_point version parameters backend d use_conda
                           storage_dir false id) E').
  - right. exists exp, d. split; [exact Hres | symmetry; exact E'].
Qed.

Lemma run_rejects_name_and_id_witness :
  run Scenario.tutorial Desk.one_experiment "/tmp/proj#sub" "main" None None
      (Some "training") (Some "7") None None true None true None Scenario.start
  = (Raise only_one_experiment, Scenario.start).
Proof.
  destruct (run_rejects_name_and_id Scenario.tutorial Desk.one_experiment "/tmp/proj#sub"
              "main" None None (Some "training") (Some "7") None None true None true
              None Scenario.start eq_refl eq_refl) as (Hs & [Hr|(f & Hr)] & _).
  - rewrite <- Hs at 2. rewrite <- Hr. apply surjective_pairing.
  - exfalso. vm_compute in Hr. discriminate Hr.
Defined.

Lemma run_blocking_returns_after_success_witness :
  exists sr s',
    run Scenario.tutorial Desk.one_experiment "/tmp/proj#sub" "main" None
        (Some [("alpha", "0.5")]) (Some "training") None None None false None true None
        Scenario.start = (Ok sr, s') /\
    exists s1, fst (sr_wait sr (runs s1)) = WaitReturns true.
Proof.
  destruct (run Scenario.tutorial Desk.one_experiment "/tmp/proj#sub" "main" None
                (Some [("alpha", "0.5")]) (Some "training") None None None false None
                true None Scenario.start) as [[sr|e] s'] eqn:E.
  - exists sr, s'. split; [reflexivity|].
    destruct (run_blocking_returns_after_success Scenario.tutorial Desk.one_experiment
                "/tmp/proj#sub" "main" None (Some [("alpha", "0.5")]) (Some "training")
                None None None false None None Scenario.start s' sr E)
      as (exp & d & s1 & _ & _ & _ & H).
    exists s1. exact H.
  - exfalso. vm_compute in E. discriminate E.
Defined.

(** The run of the scenario is created under the experiment named. *)
Example run_in_named_experiment :
  events (snd (run Scenario.tutorial Desk.one_experiment "/tmp/proj#sub" "main" None
                   (Some [("alpha", "0.5")]) (Some "training") None None None false None
                   true None Scenario.start))
  = [EvLoadProject "/tmp/proj/sub";
     EvCreateRun "7" [(MLFLOW_USER, "user"); (MLFLOW_SOURCE_NAME, "/tmp/proj#sub");
                      (MLFLOW_SOURCE_TYPE, "PROJECT");
                      (MLFLOW_PROJECT_ENTRY_POINT, "main")];
     EvLogParam "run-1" "alpha" "0.5";
     EvMkdtemp None "/tmp/tmpk3x9";
     EvPopen (ArgList ["bash"; "-c"; "python train.py --alpha 0.5"])
             (Some "/tmp/proj/sub")
             [("MLFLOW_RUN_ID", "run-1");
              ("MLFLOW_TRACKING_URI", "http://localhost:5000");
              ("MLFLOW_EXPERIMENT_ID", "7")] false;
     EvGetRun "run-1"; EvWait 4; EvGetRun "run-1"; EvSetTerminated "run-1" "FINISHED"].
Proof. vm_compute. reflexivity. Qed.
